(** * Sales dashboard (app.py): data loader, filters, KPIs and grouped sums

    A shallow embedding of [src/app.py].  The script is a pandas pipeline:
    [load_data] shapes the first sheet of a workbook, the sidebar builds four
    multiselect filters, a boolean mask selects [df_filtrado], and the KPIs
    and the four charts are computed from that frame.

    Conventions of the embedding
    - a cell is a [value]: a present [scalar] (text, number, timestamp) or
      missing ([None] stands for NaN, NaT and None alike);
    - a float64 number is the rational number it denotes ([Q]); the
      float64 sums and quotients, which round, are the operations of a
      [float64] record that the model takes as a parameter;
    - a timestamp is its number of nanoseconds since 1970-01-01, as in
      datetime64[ns];
    - a [DataFrame] is the ordered list of its named columns; rows are
      positions, the index labels are not modelled;
    - a pandas call that can raise returns a [result];
    - frame objects live in a [store], so that the in-place column
      assignments of the script are visible as writes to a location;
    - what the script takes from outside (float64 arithmetic, the text
      parsers of pandas, the sorting routine of numpy, the state of the
      widgets, number formatting) is a variable of Section [Pandas]. *)

From Stdlib Require Import String Ascii List ZArith QArith Qround Bool Arith Lia.
From Stdlib Require Import Permutation Sorted.
Import ListNotations.

Local Open Scope string_scope.
Local Open Scope list_scope.
Local Open Scope nat_scope.

(* ================================================================== *)
(** ** Exceptions *)

Inductive exn : Type :=
| KeyError (name : string)        (* df["name"] on an absent column *)
| DateParseError (text : string)  (* pd.to_datetime, errors="raise" *)
| TypeError.                      (* sorted() over values of unlike kinds *)

Inductive result (A : Type) : Type :=
| Ok (a : A)
| Raise (e : exn).

Arguments Ok {A} a.
Arguments Raise {A} e.

Definition bind {A B : Type} (m : result A) (k : A -> result B) : result B :=
  match m with
  | Ok a => k a
  | Raise e => Raise e
  end.

Notation "x <- m ;; k" := (bind m (fun x => k))
  (at level 61, m at next level, right associativity).

Fixpoint mapM {A B : Type} (f : A -> result B) (l : list A) : result (list B) :=
  match l with
  | [] => Ok []
  | a :: l' => b <- f a ;; bs <- mapM f l' ;; Ok (b :: bs)
  end.

(* ================================================================== *)
(** ** Cells, columns, frames *)

Inductive scalar : Type :=
| Str (s : string)
| Num (q : Q)
| Time (t : Z).

Definition value : Type := option scalar.
Definition Series : Type := list value.
Definition DataFrame : Type := list (string * Series).

(** Python's [==] on present cells. *)
Definition scalar_eqb (a b : scalar) : bool :=
  match a, b with
  | Str s, Str t => String.eqb s t
  | Num p, Num q => Qeq_bool p q
  | Time s, Time t => Z.eqb s t
  | _, _ => false
  end.

(** Kind of a present cell; Python's [<] is defined inside one kind only. *)
Definition kind (a : scalar) : nat :=
  match a with
  | Num _ => 0
  | Time _ => 1
  | Str _ => 2
  end.

(** Order used when sorting: the natural order inside a kind (numbers by
    value, timestamps by instant, text by code points); unlike kinds are
    ranked numbers first, text last, which is how pandas orders a
    mixed key column. *)
Definition scalar_leb (a b : scalar) : bool :=
  match a, b with
  | Str s, Str t => String.leb s t
  | Num p, Num q => Qle_bool p q
  | Time s, Time t => Z.leb s t
  | _, _ => Nat.leb (kind a) (kind b)
  end.

Definition columns (df : DataFrame) : list string := map fst df.

(** [df[name]], for a frame whose labels are distinct, as [pd.read_excel]
    yields them.  Where [rename] makes two labels equal pandas returns the
    two columns as a frame, on which the conversions of [load_data] raise;
    the lookup below returns the first of them, and is not meant for such
    a frame. *)
Fixpoint getitem (df : DataFrame) (name : string) : result Series :=
  match df with
  | [] => Raise (KeyError name)
  | (c, s) :: df' => if String.eqb c name then Ok s else getitem df' name
  end.

(** [df[name] = s]: replaces the column in place, or appends it. *)
Fixpoint setitem (df : DataFrame) (name : string) (s : Series) : DataFrame :=
  match df with
  | [] => [(name, s)]
  | (c, old) :: df' =>
      if String.eqb c name then (c, s) :: df'
      else (c, old) :: setitem df' name s
  end.

Fixpoint lookup (m : list (string * string)) (k : string) : option string :=
  match m with
  | [] => None
  | (a, b) :: m' => if String.eqb a k then Some b else lookup m' k
  end.

(** [df.rename(columns=m)]: labels absent from the frame are ignored. *)
Definition rename (df : DataFrame) (m : list (string * string)) : DataFrame :=
  map (fun cs => (match lookup m (fst cs) with
                  | Some c' => c'
                  | None => fst cs
                  end, snd cs)) df.

(** [df.shape[0]] *)
Definition nrows (df : DataFrame) : nat :=
  match df with
  | [] => 0
  | (_, s) :: _ => length s
  end.

(** [df.empty] *)
Definition empty (df : DataFrame) : bool := Nat.eqb (nrows df) 0.

(** Positional selection of rows. *)
Definition take (idx : list nat) (s : Series) : Series :=
  map (fun i => nth i s None) idx.

Definition take_rows (idx : list nat) (df : DataFrame) : DataFrame :=
  map (fun cs => (fst cs, take idx (snd cs))) df.

Fixpoint where_from (i : nat) (mask : list bool) : list nat :=
  match mask with
  | [] => []
  | b :: mask' =>
      if b then i :: where_from (S i) mask' else where_from (S i) mask'
  end.

(** Positions at which a boolean mask holds. *)
Definition where_true (mask : list bool) : list nat := where_from 0 mask.

(** [df[mask]] *)
Definition getitem_mask (df : DataFrame) (mask : list bool) : DataFrame :=
  take_rows (where_true mask) df.

(** [df.copy()]: same content; the new object is allocated by the caller. *)
Definition copy (df : DataFrame) : DataFrame := df.

(** [df.head(n)] *)
Definition head (n : nat) (df : DataFrame) : DataFrame :=
  map (fun cs => (fst cs, firstn n (snd cs))) df.

(** [df[[c1; ...; cn]]] *)
Definition getitems (df : DataFrame) (names : list string) : result DataFrame :=
  mapM (fun c => s <- getitem df c ;; Ok (c, s)) names.

(** The row at position [i], as the list of its cells in column order. *)
Definition row (df : DataFrame) (i : nat) : list (string * value) :=
  map (fun cs => (fst cs, nth i (snd cs) None)) df.

(** The cell of column [name] in a row ([None] when missing or absent). *)
Fixpoint cell (r : list (string * value)) (name : string) : value :=
  match r with
  | [] => None
  | (c, v) :: r' => if String.eqb c name then v else cell r' name
  end.

Definition rows (df : DataFrame) : list (list (string * value)) :=
  map (row df) (seq 0 (nrows df)).

(** All columns have the length of the first one. *)
Definition rectangular (df : DataFrame) : Prop :=
  Forall (fun cs => length (snd cs) = nrows df) df.

(* ================================================================== *)
(** ** Timestamps *)

Local Open Scope Z_scope.

Definition ns_per_day : Z := 86400000000000.

(** Proleptic Gregorian date of a day number counted from 1970-01-01. *)
Definition civil_from_days (z : Z) : Z * Z * Z :=
  let z := z + 719468 in
  let era := z / 146097 in
  let doe := z - era * 146097 in
  let yoe := (doe - doe / 1460 + doe / 36524 - doe / 146096) / 365 in
  let y := yoe + era * 400 in
  let doy := doe - (365 * yoe + yoe / 4 - yoe / 100) in
  let mp := (5 * doy + 2) / 153 in
  let d := doy - (153 * mp + 2) / 5 + 1 in
  let m := if mp <? 10 then mp + 3 else mp - 9 in
  (if m <=? 2 then y + 1 else y, m, d).

Definition year_of (t : Z) : Z := fst (fst (civil_from_days (t / ns_per_day))).
Definition month_of (t : Z) : Z := snd (fst (civil_from_days (t / ns_per_day))).

Definition digit (n : Z) : ascii := ascii_of_nat (48 + Z.to_nat (n mod 10)).

(** [f"{m:02d}"] and [f"{y:04d}"] for the years a timestamp can hold. *)
Definition pad2 (n : Z) : string :=
  String (digit (n / 10)) (String (digit n) EmptyString).

Definition pad4 (n : Z) : string :=
  String (digit (n / 1000)) (String (digit (n / 100)) (pad2 n)).

(** Text of a monthly period, "YYYY-MM". *)
Definition year_month (y m : Z) : string :=
  (pad4 y ++ "-" ++ pad2 m)%string.

Local Close Scope Z_scope.

(* ================================================================== *)
(** ** pandas operations used by the script *)

Definition dropna (s : Series) : list scalar :=
  flat_map (fun v => match v with Some x => [x] | None => [] end) s.

(** [Series.unique()]: first occurrences, in order of appearance. *)
Fixpoint unique (l : list scalar) : list scalar :=
  match l with
  | [] => []
  | x :: l' => x :: filter (fun y => negb (scalar_eqb x y)) (unique l')
  end.

Fixpoint insert (x : scalar) (l : list scalar) : list scalar :=
  match l with
  | [] => [x]
  | y :: l' => if scalar_leb x y then x :: l else y :: insert x l'
  end.

Fixpoint sort (l : list scalar) : list scalar :=
  match l with
  | [] => []
  | x :: l' => insert x (sort l')
  end.

Definition same_kind (l : list scalar) : bool :=
  match l with
  | [] => true
  | x :: l' => forallb (fun y => Nat.eqb (kind y) (kind x)) l'
  end.

(** Python's [sorted(l)]: comparing a text with a number raises. *)
Definition sorted (l : list scalar) : result (list scalar) :=
  if same_kind l then Ok (sort l) else Raise TypeError.

(** Membership of one cell in a list of present values. *)
Definition isin_cell (vals : list scalar) (v : value) : bool :=
  match v with
  | Some x => existsb (scalar_eqb x) vals
  | None => false
  end.

(** [Series.isin(vals)] *)
Definition isin (s : Series) (vals : list scalar) : list bool :=
  map (isin_cell vals) s.

(** Elementwise [&] of two masks. *)
Fixpoint mask_and (a b : list bool) : list bool :=
  match a, b with
  | x :: a', y :: b' => (x && y) :: mask_and a' b'
  | _, _ => []
  end.

(** The float64 operations of numpy and pandas that the script relies on.
    A finite float64 is a rational number, and [Num q] holds it exactly.
    The result of an operation is the exact result rounded to a float64,
    so that the sum of several numbers depends on the order and on the
    grouping of the additions; these differ between [Series.sum] and
    [groupby(..).sum], and between versions of the libraries.  The model
    takes the operations as they come. *)
Record float64 : Type := {
  (** the sum of the numbers of a column, listed in row order *)
  fsum : list Q -> Q;
  (** the sum of the numbers of one group, listed in row order *)
  gsum : list Q -> Q;
  (** [a / b] *)
  fdiv : Q -> Q -> Q
}.

(** The numbers of a column in row order, missing cells skipped. *)
Definition numbers (s : Series) : list Q :=
  flat_map (fun v => match v with Some (Num q) => [q] | _ => [] end) s.

(** [Series.sum()]: missing cells are skipped; the sum of no cell is 0. *)
Definition series_sum (fp : float64) (s : Series) : Q :=
  match numbers s with
  | [] => 0
  | l => fsum fp l
  end.

(** [Series.count()]: number of present cells. *)
Definition count (s : Series) : nat := length (dropna s).

(** [Series.mean()]: NaN when no cell is present. *)
Definition mean (fp : float64) (s : Series) : value :=
  if Nat.eqb (count s) 0 then None
  else Some (Num (fdiv fp (series_sum fp s) (inject_Z (Z.of_nat (count s))))).

(** [(a - b).dt.days]: whole days (rounded down) between two timestamps,
    missing when either is. *)
Fixpoint days_between (a b : Series) : Series :=
  match a, b with
  | x :: a', y :: b' =>
      match x, y with
      | Some (Time t), Some (Time u) =>
          Some (Num (inject_Z ((t - u) / ns_per_day)))
      | _, _ => None
      end :: days_between a' b'
  | _, _ => []
  end.

(** [.dt.year], [.dt.month] *)
Definition dt_year (s : Series) : Series :=
  map (fun v => match v with
                | Some (Time t) => Some (Num (inject_Z (year_of t)))
                | _ => None
                end) s.

Definition dt_month (s : Series) : Series :=
  map (fun v => match v with
                | Some (Time t) => Some (Num (inject_Z (month_of t)))
                | _ => None
                end) s.

(** [.dt.to_period("M").astype(str)]: the text of the month; the text of a
    missing period is "NaT". *)
Definition dt_to_period_M_astype_str (s : Series) : Series :=
  map (fun v => match v with
                | Some (Time t) => Some (Str (year_month (year_of t) (month_of t)))
                | _ => Some (Str "NaT")
                end) s.

(** The numbers of column [v] in the rows whose key is [g], in row order. *)
Fixpoint group_values (g : scalar) (k v : Series) : list Q :=
  match k, v with
  | x :: k', y :: v' =>
      let rest := group_values g k' v' in
      match x, y with
      | Some a, Some (Num q) => if scalar_eqb g a then q :: rest else rest
      | _, _ => rest
      end
  | _, _ => []
  end.

(** Sum of the [v] cells of the rows whose key is [g]; the sum of a group
    without a number is 0. *)
Definition sum_where (fp : float64) (g : scalar) (k v : Series) : Q :=
  match group_values g k v with
  | [] => 0
  | l => gsum fp l
  end.

(** Keys of [groupby(..)] (sort=True, dropna=True): the distinct present
    keys in ascending order. *)
Definition group_keys (k : Series) : list scalar := sort (unique (dropna k)).

(** [df.groupby(c, as_index=False)["valor_venda"].sum()] *)
Definition groupby_sum (fp : float64) (df : DataFrame) (c : string)
  : result DataFrame :=
  k <- getitem df c ;;
  v <- getitem df "valor_venda" ;;
  let gs := group_keys k in
  Ok [(c, map Some gs);
      ("valor_venda", map (fun g => Some (Num (sum_where fp g k v))) gs)].

Definition is_time (v : value) : bool :=
  match v with Some (Time _) => true | _ => false end.

Definition is_missing (v : value) : bool :=
  match v with None => true | Some _ => false end.

(** A column read with dtype datetime64: timestamps and blanks only. *)
Definition is_datetime64 (s : Series) : bool :=
  forallb (fun v => is_time v || is_missing v) s && existsb is_time s.

(** The int64 that stands for NaT. *)
Definition iNaT : Z := (-9223372036854775808)%Z.

(* ================================================================== *)
(** ** Frame objects *)

(** A variable of the script holds a reference to a frame object; a column
    assignment changes the object it is applied to. *)
Definition loc : Type := nat.
Definition store : Type := list DataFrame.

Definition M (A : Type) : Type := store -> result A * store.

Definition ret {A : Type} (a : A) : M A := fun s => (Ok a, s).

Definition bindM {A B : Type} (m : M A) (k : A -> M B) : M B :=
  fun s => match m s with
           | (Ok a, s') => k a s'
           | (Raise e, s') => (Raise e, s')
           end.

Notation "x <~ m ;; k" := (bindM m (fun x => k))
  (at level 61, m at next level, right associativity).

(** A pure computation on values, which may raise. *)
Definition lift {A : Type} (r : result A) : M A := fun s => (r, s).

(** A new object. *)
Definition new (df : DataFrame) : M loc :=
  fun s => (Ok (length s), s ++ [df]).

(** The current content of an object. *)
Definition read (l : loc) : M DataFrame :=
  fun s => (Ok (nth l s []), s).

Fixpoint set_nth (l : nat) (df : DataFrame) (s : store) : store :=
  match s, l with
  | [], _ => []
  | _ :: s', O => df :: s'
  | d :: s', S l' => d :: set_nth l' df s'
  end.

(** Statements that read an object and assign columns to it in place. *)
Definition update {A : Type} (l : loc)
  (f : DataFrame -> result (A * DataFrame)) : M A :=
  fun s => match f (nth l s []) with
           | Ok (a, df') => (Ok a, set_nth l df' s)
           | Raise e => (Raise e, s)
           end.

Section Pandas.

(** float64 arithmetic. *)
Variable fp : float64.

(** The text parser behind [pd.to_datetime]: [None] when the text is not
    a date, [Some None] when it reads as NaT (the empty text),
    [Some (Some t)] for the instant [t]. *)
Variable parse_datetime : string -> option (option Z).

(** The text parser behind [pd.to_numeric]. *)
Variable parse_number : string -> option Q.

(** numpy's [argsort(kind="quicksort")], the default of [sort_values]:
    the positions of the items in ascending order of the items. *)
Variable argsort : list scalar -> list nat.

(** [st.sidebar.multiselect(label, options, default)]: the current
    selection of the widget. *)
Variable multiselect : string -> list scalar -> list scalar -> list scalar.

(** ["{:.1f}".format(x)] *)
Variable format_1f : Q -> string.

(** [pd.to_datetime] with the default [errors="raise"]: numbers count
    nanoseconds since the epoch, text goes through the parser. *)
Definition to_datetime_cell (v : value) : result value :=
  match v with
  | None => Ok None
  | Some (Time t) => Ok (Some (Time t))
  | Some (Num q) => Ok (Some (Time (Z.quot (Qnum q) (Zpos (Qden q)))))
  | Some (Str s) =>
      match parse_datetime s with
      | Some r => Ok (option_map Time r)
      | None => Raise (DateParseError s)
      end
  end.

Definition to_datetime (s : Series) : result Series :=
  mapM to_datetime_cell s.

(** [pd.to_numeric(.., errors="coerce")]: a cell that is not a number
    becomes NaN; a datetime64 column is viewed as int64. *)
Definition to_numeric_cell (v : value) : value :=
  match v with
  | Some (Num q) => Some (Num q)
  | Some (Str s) => option_map Num (parse_number s)
  | _ => None
  end.

Definition to_numeric (s : Series) : Series :=
  if is_datetime64 s
  then map (fun v => match v with
                     | Some (Time t) => Some (Num (inject_Z t))
                     | _ => Some (Num (inject_Z iNaT))
                     end) s
  else map to_numeric_cell s.

(** Argument of [df.rename(columns=...)] in [load_data]. *)
Definition column_names : list (string * string) :=
  [ ("Data da Venda", "data_venda");
    ("Data de Emissão da NF", "data_nf");
    ("Cliente", "cliente");
    ("Vendedor Responsável", "vendedor");
    ("Tipo de Solução", "tipo_solucao");
    ("Descrição do Projeto", "descricao_projeto");
    ("Valor da Venda (R$)", "valor_venda");
    ("OS.", "os");
    ("Proposta", "proposta") ].

(** The frame [load_data] returns, given the renamed sheet and the three
    converted columns: six column assignments, in the order of the code. *)
Definition loaded (df0 : DataFrame) (dv nf vv : Series) : DataFrame :=
  setitem
    (setitem
       (setitem
          (setitem (setitem (setitem df0 "data_venda" dv) "data_nf" nf)
             "valor_venda" vv)
          "ano" (dt_year dv))
       "mes" (dt_month dv))
    "ano_mes" (dt_to_period_M_astype_str dv).

(** [load_data], applied to the first sheet [wb] read by [pd.read_excel]. *)
Definition load_data (wb : DataFrame) : result DataFrame :=
  let df := rename wb column_names in
  dv <- getitem df "data_venda" ;;
  dv' <- to_datetime dv ;;
  let df := setitem df "data_venda" dv' in
  nf <- getitem df "data_nf" ;;
  nf' <- to_datetime nf ;;
  let df := setitem df "data_nf" nf' in
  vv <- getitem df "valor_venda" ;;
  let df := setitem df "valor_venda" (to_numeric vv) in
  d1 <- getitem df "data_venda" ;;
  let df := setitem df "ano" (dt_year d1) in
  d2 <- getitem df "data_venda" ;;
  let df := setitem df "mes" (dt_month d2) in
  d3 <- getitem df "data_venda" ;;
  let df := setitem df "ano_mes" (dt_to_period_M_astype_str d3) in
  Ok df.

(** [sorted(df[c].dropna().unique())]: options of one sidebar filter. *)
Definition options (df : DataFrame) (c : string) : result (list scalar) :=
  s <- getitem df c ;;
  sorted (unique (dropna s)).

(** The selections of the four multiselects.  A selection is a list of
    present values: the widget returns a sub-list of its options, and the
    options hold no missing value ([dropna]). *)
Record selections : Type := {
  ano_selecionado : list scalar;
  vendedor_selecionado : list scalar;
  tipo_selecionado : list scalar;
  cliente_selecionado : list scalar
}.

(** The boolean mask of lines 86-91. *)
Definition filter_mask (df : DataFrame) (sel : selections) : result (list bool) :=
  a <- getitem df "ano" ;;
  v <- getitem df "vendedor" ;;
  t <- getitem df "tipo_solucao" ;;
  c <- getitem df "cliente" ;;
  Ok (mask_and (mask_and (mask_and (isin a (ano_selecionado sel))
                                   (isin v (vendedor_selecionado sel)))
                         (isin t (tipo_selecionado sel)))
               (isin c (cliente_selecionado sel))).

(** Content of [df_filtrado = df[mask].copy()]. *)
Definition df_filtrado (df : DataFrame) (sel : selections) : result DataFrame :=
  m <- filter_mask df sel ;;
  Ok (copy (getitem_mask df m)).

Record KPIs : Type := {
  total_vendas : Q;
  qtd_vendas : nat;
  ticket_medio : Q;
  ciclo_medio : value
}.

(** Lines 97-103.  The frame is returned with its new column
    [lead_time_dias]: the assignment changes [df_filtrado] in place. *)
Definition kpis (dff : DataFrame) : result (KPIs * DataFrame) :=
  vv <- getitem dff "valor_venda" ;;
  let total := series_sum fp vv in
  let qtd := nrows dff in
  let ticket : Q :=
    if Nat.ltb 0 qtd then fdiv fp total (inject_Z (Z.of_nat qtd)) else 0%Q in
  nf <- getitem dff "data_nf" ;;
  dv <- getitem dff "data_venda" ;;
  let dff' := setitem dff "lead_time_dias" (days_between nf dv) in
  lt <- getitem dff' "lead_time_dias" ;;
  Ok ({| total_vendas := total; qtd_vendas := qtd;
         ticket_medio := ticket; ciclo_medio := mean fp lt |}, dff').

(** Text of the fourth card (line 109). *)
Definition ciclo_card (c : value) : string :=
  match c with
  | Some (Num q) => format_1f q
  | _ => "-"
  end.

(** [nargsort] of pandas: missing items last; for a descending sort the
    present items are reversed before and after the ascending argsort. *)
Definition nargsort (items : Series) (ascending : bool) : list nat :=
  let idx := seq 0 (length items) in
  let non_nan_idx := filter (fun i => negb (is_missing (nth i items None))) idx in
  let nan_idx := filter (fun i => is_missing (nth i items None)) idx in
  let non_nan_idx := if ascending then non_nan_idx else rev non_nan_idx in
  let non_nans := dropna (take non_nan_idx items) in
  let indexer := map (fun j => nth j non_nan_idx 0) (argsort non_nans) in
  let indexer := if ascending then indexer else rev indexer in
  indexer ++ nan_idx.

(** [df.sort_values(by, ascending=..)] *)
Definition sort_values (df : DataFrame) (by_ : string) (ascending : bool)
  : result DataFrame :=
  k <- getitem df by_ ;;
  Ok (take_rows (nargsort k ascending) df).

(** The four grouped tables; [None] when the frame is empty and the
    script shows "Nenhum dado para os filtros selecionados." instead. *)
Definition df_mes (dff : DataFrame) : result (option DataFrame) :=
  if empty dff then Ok None
  else g <- groupby_sum fp dff "ano_mes" ;;
       s <- sort_values g "ano_mes" true ;;
       Ok (Some s).

Definition df_tipo (dff : DataFrame) : result (option DataFrame) :=
  if empty dff then Ok None
  else g <- groupby_sum fp dff "tipo_solucao" ;;
       s <- sort_values g "valor_venda" false ;;
       Ok (Some s).

Definition df_cliente (dff : DataFrame) : result (option DataFrame) :=
  if empty dff then Ok None
  else g <- groupby_sum fp dff "cliente" ;;
       s <- sort_values g "valor_venda" false ;;
       Ok (Some (head 10 s)).

Definition df_vendedor (dff : DataFrame) : result (option DataFrame) :=
  if empty dff then Ok None
  else g <- groupby_sum fp dff "vendedor" ;;
       s <- sort_values g "valor_venda" false ;;
       Ok (Some s).

(** The detail table (lines 224-237). *)
Definition tabela (dff : DataFrame) : result DataFrame :=
  t <- getitems dff ["data_venda"; "data_nf"; "cliente"; "vendedor";
                     "tipo_solucao"; "descricao_projeto"; "valor_venda";
                     "os"; "proposta"] ;;
  sort_values t "data_venda" false.

(** What one run of the script hands to the presentation layer. *)
Record Dashboard : Type := {
  cards : KPIs;
  card_ciclo : string;
  chart_mes : option DataFrame;
  chart_tipo : option DataFrame;
  chart_cliente : option DataFrame;
  chart_vendedor : option DataFrame;
  detalhes : DataFrame
}.

(** One filter of the sidebar (lines 65-83): the options and the default
    are the sorted distinct present values of the column. *)
Definition sidebar_filter (df : loc) (label c : string) : M (list scalar) :=
  d <~ read df ;;
  opts <~ lift (options d c) ;;
  ret (multiselect label opts opts).

(** Lines 63-237, run on the frame object [df] returned by [load_data]. *)
Definition render (df : loc) : M Dashboard :=
  anos <~ sidebar_filter df "Ano da Venda" "ano" ;;
  vendedores <~ sidebar_filter df "Responsável" "vendedor" ;;
  tipos <~ sidebar_filter df "Tipo de Solução" "tipo_solucao" ;;
  clientes <~ sidebar_filter df "Cliente" "cliente" ;;
  let sel := {| ano_selecionado := anos;
                vendedor_selecionado := vendedores;
                tipo_selecionado := tipos;
                cliente_selecionado := clientes |} in
  d <~ read df ;;
  f <~ lift (df_filtrado d sel) ;;
  filtrado <~ new f ;;
  k <~ update filtrado kpis ;;
  d1 <~ read filtrado ;; mes <~ lift (df_mes d1) ;;
  d2 <~ read filtrado ;; tipo <~ lift (df_tipo d2) ;;
  d3 <~ read filtrado ;; cliente <~ lift (df_cliente d3) ;;
  d4 <~ read filtrado ;; vendedor <~ lift (df_vendedor d4) ;;
  d5 <~ read filtrado ;; t <~ lift (tabela d5) ;;
  ret {| cards := k; card_ciclo := ciclo_card (ciclo_medio k);
         chart_mes := mes; chart_tipo := tipo; chart_cliente := cliente;
         chart_vendedor := vendedor; detalhes := t |}.

(** [df = load_data(file_path)] *)
Definition load (wb : DataFrame) : M loc :=
  d <~ lift (load_data wb) ;;
  new d.

(** The whole script. *)
Definition main (wb : DataFrame) : M Dashboard :=
  df <~ load wb ;;
  render df.

End Pandas.

(* ================================================================== *)
(** ** Concrete collaborators

    Instances of the external functions, used to run the script on
    concrete workbooks. *)

Definition pick (l : list scalar) (i : nat) : scalar := nth i l (Num 0).


(** The float64 nearest to a rational number, ties going to the even
    mantissa (IEEE 754 round-to-nearest-even), for magnitudes below 2^1024:
    53 bits of mantissa, and exponents down to that of the subnormal
    numbers. *)
Definition round64 (q : Q) : Q :=
  let n := Z.abs (Qnum q) in
  let d := Zpos (Qden q) in
  if (n =? 0)%Z then 0%Q
  else
    let e0 := (Z.log2 n - Z.log2 d)%Z in
    let e := if (if (0 <=? e0)%Z then (d * 2 ^ e0 <=? n)%Z
                 else (d <=? n * 2 ^ (- e0))%Z)
             then e0 else (e0 - 1)%Z in
    let s := Z.max (e - 52) (-1074) in
    let N := if (s <? 0)%Z then (n * 2 ^ (- s))%Z else n in
    let D := if (s <? 0)%Z then d else (d * 2 ^ s)%Z in
    let fl := (N / D)%Z in
    let r := (N mod D)%Z in
    let m := if (2 * r <? D)%Z then fl
             else if (D <? 2 * r)%Z then (fl + 1)%Z
             else if Z.even fl then fl else (fl + 1)%Z in
    Qred (inject_Z (Z.sgn (Qnum q) * m) * Qpower 2 s)%Q.

(** float64 addition. *)
Definition fadd (a b : Q) : Q := round64 (a + b)%Q.

(** Additions in row order, each rounded: the loop of numpy's sum over
    fewer than 8 numbers, and the result of pandas' group sum for a group
    of one or two numbers.  On whole numbers below 2^53 no addition rounds
    and every order of additions gives this sum; the sample workbooks hold
    such values, or fewer than 8 rows with groups of at most two. *)
Definition sequential : float64 :=
  {| fsum := fun l => fold_left fadd l 0%Q;
     gsum := fun l => fold_left fadd l 0%Q;
     fdiv := fun a b => round64 (a / b)%Q |}.

(** A stable argsort, as [kind="stable"] computes: a position is placed
    before the later positions that hold an equal item. *)
Fixpoint insert_pos (l : list scalar) (i : nat) (acc : list nat) : list nat :=
  match acc with
  | [] => [i]
  | j :: acc' =>
      if scalar_leb (pick l i) (pick l j) then i :: acc
      else j :: insert_pos l i acc'
  end.

Definition argsort_stable (l : list scalar) : list nat :=
  fold_right (insert_pos l) [] (seq 0 (length l)).

(** numpy's [argsort(kind="quicksort")], after [aquicksort] of numpy's
    npysort/quicksort, the generic implementation: an introsort over the
    array of positions [a], which partitions around the median of three
    while a range holds more than 17 positions, pushing the larger part on
    a stack, and sorts a shorter range by insertion.  The positions are
    compared by their items with the strict order.  The heapsort that
    takes over when the depth limit is exceeded is left out: the sort
    then gives no result. *)
Definition item_lt (v : list scalar) (i j : nat) : bool :=
  negb (scalar_leb (pick v j) (pick v i)).

Fixpoint upd (i x : nat) (a : list nat) : list nat :=
  match a, i with
  | [], _ => []
  | _ :: a', O => x :: a'
  | y :: a', S i' => y :: upd i' x a'
  end.

(** [INTP_SWAP(a[i], a[j])] *)
Definition swap (i j : nat) (a : list nat) : list nat :=
  upd i (nth j a 0) (upd j (nth i a 0) a).

(** [do ++pi; while (LT(v[*pi], vp));] where [vp] is the item at
    position [p]. *)
Fixpoint scan_up (fuel : nat) (v : list scalar) (a : list nat) (p pi : nat)
  : nat :=
  match fuel with
  | O => pi
  | S fuel' =>
      let pi := S pi in
      if item_lt v (nth pi a 0) p then scan_up fuel' v a p pi else pi
  end.

(** [do --pj; while (LT(vp, v[*pj]));] *)
Fixpoint scan_down (fuel : nat) (v : list scalar) (a : list nat) (p pj : nat)
  : nat :=
  match fuel with
  | O => pj
  | S fuel' =>
      let pj := pj - 1 in
      if item_lt v p (nth pj a 0) then scan_down fuel' v a p pj else pj
  end.

(** The loop [for (;;)] of the partition: the array and the final [pi]. *)
Fixpoint exchange (fuel : nat) (v : list scalar) (a : list nat) (p pi pj : nat)
  : list nat * nat :=
  match fuel with
  | O => (a, pi)
  | S fuel' =>
      let pi := scan_up (length a) v a p pi in
      let pj := scan_down (length a) v a p pj in
      if pj <=? pi then (a, pi)
      else exchange fuel' v (swap pi pj a) p pi pj
  end.

(** [while (pj > pl && LT(vp, v[*pk])) { *pj-- = *pk--; } *pj = vi;] *)
Fixpoint shift (fuel : nat) (v : list scalar) (vi pl : nat) (a : list nat)
  (pj : nat) : list nat :=
  match fuel with
  | O => upd pj vi a
  | S fuel' =>
      if (pl <? pj) && item_lt v vi (nth (pj - 1) a 0)
      then shift fuel' v vi pl (upd pj (nth (pj - 1) a 0) a) (pj - 1)
      else upd pj vi a
  end.

(** The insertion sort of the range [pl..pr]. *)
Definition insertion (v : list scalar) (pl pr : nat) (a : list nat)
  : list nat :=
  fold_left (fun a pi => shift (length a) v (nth pi a 0) pl a pi)
    (seq (S pl) (pr - pl)) a.

Definition SMALL_QUICKSORT : nat := 16.

(** State of the sort: the array, the current range, the stack of pending
    ranges with their depth, and the depth left. *)
Record qs_state : Type := {
  qs_a : list nat;
  qs_pl : nat;
  qs_pr : nat;
  qs_stack : list (nat * nat * Z);
  qs_cdepth : Z
}.

(** [while ((pr - pl) > SMALL_QUICKSORT) { ... }] *)
Fixpoint partitions_of (fuel : nat) (v : list scalar) (st : qs_state)
  : qs_state :=
  match fuel with
  | O => st
  | S fuel' =>
      let pl := qs_pl st in
      let pr := qs_pr st in
      if SMALL_QUICKSORT <? pr - pl then
        let a := qs_a st in
        let pm := pl + Nat.div2 (pr - pl) in
        let a := if item_lt v (nth pm a 0) (nth pl a 0) then swap pm pl a
                 else a in
        let a := if item_lt v (nth pr a 0) (nth pm a 0) then swap pr pm a
                 else a in
        let a := if item_lt v (nth pm a 0) (nth pl a 0) then swap pm pl a
                 else a in
        let p := nth pm a 0 in
        let a := swap pm (pr - 1) a in
        let '(a, pi) := exchange (length a) v a p pl (pr - 1) in
        let a := swap pi (pr - 1) a in
        let cdepth := (qs_cdepth st - 1)%Z in
        partitions_of fuel' v
          (if pi - pl <? pr - pi
           then {| qs_a := a; qs_pl := pl; qs_pr := pi - 1;
                   qs_stack := (S pi, pr, cdepth) :: qs_stack st;
                   qs_cdepth := cdepth |}
           else {| qs_a := a; qs_pl := S pi; qs_pr := pr;
                   qs_stack := (pl, pi - 1, cdepth) :: qs_stack st;
                   qs_cdepth := cdepth |})
      else st
  end.

(** The outer loop [while (1)]. *)
Fixpoint aquicksort_loop (fuel : nat) (v : list scalar) (st : qs_state)
  : option (list nat) :=
  match fuel with
  | O => None
  | S fuel' =>
      if (qs_cdepth st <? 0)%Z then None
      else
        let st := partitions_of (length v) v st in
        let a := insertion v (qs_pl st) (qs_pr st) (qs_a st) in
        match qs_stack st with
        | [] => Some a
        | (pl, pr, cdepth) :: stack =>
            aquicksort_loop fuel' v
              {| qs_a := a; qs_pl := pl; qs_pr := pr; qs_stack := stack;
                 qs_cdepth := cdepth |}
        end
  end.

Definition aquicksort (v : list scalar) : option (list nat) :=
  let num := length v in
  aquicksort_loop (S num) v
    {| qs_a := seq 0 num; qs_pl := 0; qs_pr := num - 1; qs_stack := [];
       qs_cdepth := (Z.log2 (Z.of_nat num) * 2)%Z |}.

Definition argsort_quicksort (v : list scalar) : list nat :=
  match aquicksort v with
  | Some a => a
  | None => []
  end.

(** A date parser that reads the empty text as NaT and rejects any other. *)
Definition parse_blank_only (s : string) : option (option Z) :=
  if String.eqb s "" then Some None else None.

(** A number parser that rejects every text. *)
Definition parse_no_number (s : string) : option Q := None.

(** The widget on first render: the selection is the default. *)
Definition select_default (label : string) (opts default : list scalar)
  : list scalar := default.

(** A widget from which the user removed every choice. *)
Definition select_none (label : string) (opts default : list scalar)
  : list scalar := [].

Fixpoint decimal_aux (fuel : nat) (n : Z) (acc : string) : string :=
  match fuel with
  | O => acc
  | S fuel' =>
      let acc' := String (digit n) acc in
      if (n <? 10)%Z then acc' else decimal_aux fuel' (n / 10)%Z acc'
  end.

(** Decimal text of a natural number below 10^40. *)
Definition decimal (n : Z) : string := decimal_aux 40 n "".

(** One decimal place, rounded down, as a stand-in for ["{:.1f}"]. *)
Definition tenths (q : Q) : string :=
  let n := Qfloor (q * 10) in
  let a := Z.abs n in
  ((if (n <? 0)%Z then "-" else "") ++ decimal (a / 10) ++ "."
   ++ String (digit a) EmptyString)%string.

(** Midnight of a day number, as a timestamp. *)
Definition midnight (day : Z) : Z := (day * ns_per_day)%Z.

(* ================================================================== *)
(** ** Vocabulary of the properties *)

(** A row passes the four filters. *)
Definition qualifies (sel : selections) (r : list (string * value)) : bool :=
  isin_cell (ano_selecionado sel) (cell r "ano")
  && isin_cell (vendedor_selecionado sel) (cell r "vendedor")
  && isin_cell (tipo_selecionado sel) (cell r "tipo_solucao")
  && isin_cell (cliente_selecionado sel) (cell r "cliente").

(** A row has a value in each of the four filtered columns. *)
Definition all_present (r : list (string * value)) : bool :=
  negb (is_missing (cell r "ano"))
  && negb (is_missing (cell r "vendedor"))
  && negb (is_missing (cell r "tipo_solucao"))
  && negb (is_missing (cell r "cliente")).

Definition scalar_le (a b : scalar) : Prop := scalar_leb a b = true.

(** What numpy documents of [argsort], whatever the sorting algorithm: the
    result lists every position once, in ascending order of the items.
    The order of positions holding equal items is left open; only
    [kind="stable"] fixes it. *)
Definition argsort_spec (argsort : list scalar -> list nat) : Prop :=
  forall l : list scalar,
    Permutation (argsort l) (seq 0 (length l)) /\
    Sorted scalar_le (map (pick l) (argsort l)).

(** A column of numbers in descending order. *)
Definition descending (qs : list Q) : Prop :=
  Sorted (fun a b : Q => (b <= a)%Q) qs.

(** Groups with equal sums appear in the order of their keys, which is the
    order in which [groupby] lists them. *)
Definition ties_keep_group_order (g : list (scalar * Q)) : Prop :=
  Sorted (fun a b => (snd a == snd b)%Q -> scalar_le (fst a) (fst b)) g.

(** A cell is selected by a list of values: it is present and equal to one
    of them. *)
Definition selected (vals : list scalar) (v : value) : Prop :=
  exists x y, v = Some x /\ In y vals /\ scalar_eqb x y = true.

(** The groups of [groupby(..).sum()] as (key, sum) pairs, in group order. *)
Definition key_sum_pairs (fp : float64) (k v : Series) : list (scalar * Q) :=
  map (fun g => (g, sum_where fp g k v)) (group_keys k).



(** The two-column frame holding a list of (key, sum) pairs. *)
Definition frame_of_pairs (c : string) (l : list (scalar * Q)) : DataFrame :=
  [(c, map (fun p => Some (fst p)) l);
   ("valor_venda", map (fun p => Some (Num (snd p))) l)].

(** A computation leaves the first [n] objects of the store as they are,
    and its result satisfies [Q]. *)
Definition preserves {A : Type} (n : nat) (m : M A) (Q : A -> Prop) : Prop :=
  forall s : store,
    n <= length s ->
    firstn n (snd (m s)) = firstn n s /\
    n <= length (snd (m s)) /\
    match fst (m s) with
    | Ok a => Q a
    | Raise _ => True
    end.

(* ================================================================== *)
(** ** Sample workbooks *)

Definition source_columns : list string :=
  ["Data da Venda"; "Data de Emissão da NF"; "Cliente";
   "Vendedor Responsável"; "Tipo de Solução"; "Descrição do Projeto";
   "Valor da Venda (R$)"; "OS."; "Proposta"].

(** A sheet given by its rows, each row listing the nine cells in the
    order of [source_columns]. *)
Definition sheet (cols : list string) (lines : list (list value)) : DataFrame :=
  map (fun j => (nth j cols "", map (fun line => nth j line None) lines))
    (seq 0 (length cols)).

Definition dia (d : Z) : value := Some (Time (midnight d)).
Definition texto (s : string) : value := Some (Str s).
Definition valor (z : Z) : value := Some (Num (inject_Z z)).


(** Five sales: 2023-01-15, 2023-02-10 and 2023-01-20 as in the scenario
    of the specification, one sale without a date and one without a
    customer. *)
Definition planilha : DataFrame :=
  sheet source_columns
    [ [dia 19372; dia 19380; texto "A"; texto "v"; texto "X"; None; valor 100; None; None];
      [dia 19398; None;      texto "A"; texto "v"; texto "Y"; None; valor 50;  None; None];
      [dia 19377; dia 19377; texto "B"; texto "w"; texto "X"; None; valor 200; None; None];
      [None;      None;      texto "C"; texto "w"; texto "Y"; None; valor 70;  None; None];
      [dia 19417; dia 19420; None;      texto "v"; texto "X"; None; valor 30;  None; None] ].

(** One sale whose date cell holds a text that is not a date. *)
Definition planilha_data_invalida : DataFrame :=
  sheet source_columns
    [ [texto "abc"; dia 19380; texto "A"; texto "v"; texto "X"; None; valor 100; None; None] ].


(** The first sale of [planilha] in a sheet without the column
    "Vendedor Responsável". *)
Definition planilha_sem_vendedor : DataFrame :=
  sheet ["Data da Venda"; "Data de Emissão da NF"; "Cliente";
         "Tipo de Solução"; "Descrição do Projeto"; "Valor da Venda (R$)";
         "OS."; "Proposta"]
    [ [dia 19372; dia 19380; texto "A"; texto "X"; None; valor 100; None;
       None] ].


(** Eleven customers, one sale of 1 each. *)
Definition planilha_onze_clientes : DataFrame :=
  sheet source_columns
    (map (fun c => [dia 19372; dia 19380; texto c; texto "v"; texto "X";
                    None; valor 1; None; None])
       ["A"; "B"; "C"; "D"; "E"; "F"; "G"; "H"; "I"; "J"; "K"]).

(** Eighteen customers, one sale of 1 each. *)
Definition planilha_dezoito_clientes : DataFrame :=
  sheet source_columns
    (map (fun c => [dia 19372; dia 19380; texto c; texto "v"; texto "X";
                    None; valor 1; None; None])
       ["C01"; "C02"; "C03"; "C04"; "C05"; "C06"; "C07"; "C08"; "C09";
        "C10"; "C11"; "C12"; "C13"; "C14"; "C15"; "C16"; "C17"; "C18"]).


(** Two solution types with equal revenue. *)
Definition planilha_empate : DataFrame :=
  sheet source_columns
    [ [dia 19372; dia 19380; texto "A"; texto "v"; texto "X"; None; valor 100; None; None];
      [dia 19377; dia 19380; texto "B"; texto "v"; texto "Y"; None; valor 100; None; None] ].

(** The frame [load_data] returns for a sheet whose date cells are dates,
    or the empty frame when it raises. *)
Definition carregar (wb : DataFrame) : DataFrame :=
  match load_data parse_blank_only parse_no_number wb with
  | Ok df => df
  | Raise _ => []
  end.

Definition dados : DataFrame := Eval vm_compute in carregar planilha.
Definition dados_onze_clientes : DataFrame :=
  Eval vm_compute in carregar planilha_onze_clientes.
Definition dados_dezoito_clientes : DataFrame :=
  Eval vm_compute in carregar planilha_dezoito_clientes.
Definition dados_empate : DataFrame :=
  Eval vm_compute in carregar planilha_empate.

(** Every option of every filter selected, as on first render. *)
Definition tudo (df : DataFrame) : selections :=
  let opts c := match options df c with Ok l => l | Raise _ => [] end in
  {| ano_selecionado := opts "ano";
     vendedor_selecionado := opts "vendedor";
     tipo_selecionado := opts "tipo_solucao";
     cliente_selecionado := opts "cliente" |}.

(** Customer A only, and customers A and B, other filters untouched. *)
Definition so_cliente_A : selections :=
  {| ano_selecionado := ano_selecionado (tudo dados);
     vendedor_selecionado := vendedor_selecionado (tudo dados);
     tipo_selecionado := tipo_selecionado (tudo dados);
     cliente_selecionado := [Str "A"] |}.

Definition clientes_A_B : selections :=
  {| ano_selecionado := ano_selecionado (tudo dados);
     vendedor_selecionado := vendedor_selecionado (tudo dados);
     tipo_selecionado := tipo_selecionado (tudo dados);
     cliente_selecionado := [Str "A"; Str "B"] |}.

(** Every year cleared by the user. *)
Definition nenhum_ano : selections :=
  {| ano_selecionado := [];
     vendedor_selecionado := vendedor_selecionado (tudo dados);
     tipo_selecionado := tipo_selecionado (tudo dados);
     cliente_selecionado := cliente_selecionado (tudo dados) |}.

(** The filtered frame, or the empty frame when the filter raises. *)
Definition filtrar (df : DataFrame) (sel : selections) : DataFrame :=
  match df_filtrado df sel with
  | Ok f => f
  | Raise _ => []
  end.

(** The filtered frame after the KPIs added [lead_time_dias] to it. *)
Definition com_lead_time (f : DataFrame) : DataFrame :=
  match kpis sequential f with
  | Ok (_, f') => f'
  | Raise _ => []
  end.

(* ================================================================== *)
(** ** Currency text of the cards (lines 106 and 108) *)

(** [s.replace(old, new)] where [old] and [new] are one character each. *)
Fixpoint replace_char (old new : ascii) (s : string) : string :=
  match s with
  | EmptyString => EmptyString
  | String c s' =>
      String (if Ascii.eqb c old then new else c) (replace_char old new s')
  end.

(** [.replace(",", "X").replace(".", ",").replace("X", ".")] *)
Definition formato_br (s : string) : string :=
  replace_char "X" "." (replace_char "." "," (replace_char "," "X" s)).

(** [f"R$ {x:,.2f}"] followed by the three replacements; [format_2f] is
    Python's [format(x, ",.2f")]. *)
Definition moeda (format_2f : Q -> string) (x : Q) : string :=
  formato_br ("R$ " ++ format_2f x)%string.

(* ================================================================== *)
(** ** More vocabulary *)

Fixpoint map_chars (f : ascii -> ascii) (s : string) : string :=
  match s with
  | EmptyString => EmptyString
  | String c s' => String (f c) (map_chars f s')
  end.

Fixpoint occurs (c : ascii) (s : string) : bool :=
  match s with
  | EmptyString => false
  | String c' s' => Ascii.eqb c' c || occurs c s'
  end.

(** The comma and the point change places; an X becomes a point. *)
Definition troca (c : ascii) : ascii :=
  if Ascii.eqb c "," then "."%char
  else if Ascii.eqb c "." then ","%char
  else if Ascii.eqb c "X" then "."%char
  else c.

Definition is_num (v : value) : bool :=
  match v with Some (Num _) => true | _ => false end.

Definition is_str (v : value) : bool :=
  match v with Some (Str _) => true | _ => false end.

(** The columns of the detail table, in the order of lines 225-235. *)
Definition colunas_detalhe : list string :=
  ["data_venda"; "data_nf"; "cliente"; "vendedor"; "tipo_solucao";
   "descricao_projeto"; "valor_venda"; "os"; "proposta"].

(** A row cut down to the named columns. *)
Definition project (names : list string) (r : list (string * value))
  : list (string * value) :=
  map (fun c => (c, cell r c)) names.

(** A pair of cells that both hold a timestamp. *)
Definition both_dates (p : value * value) : bool :=
  is_time (fst p) && is_time (snd p).

(** A list of (key, sum) pairs holds each key at most once. *)
Definition keys_once (l : list (scalar * Q)) : Prop :=
  forall g : scalar,
    length (filter (fun p => scalar_eqb g (fst p)) l) <= 1.

(** The present cells of a column are of one kind. *)
Definition one_kind (s : Series) : Prop :=
  forall x y : scalar, In (Some x) s -> In (Some y) s -> kind x = kind y.

(** The key cell of a row is present and equal to [g]. *)
Definition key_is (g : scalar) (v : value) : bool :=
  match v with Some a => scalar_eqb g a | None => false end.
(* ================================================================== *)
(** ** Facts about the result monad *)

Lemma bind_Ok_inv {A B : Type} (m : result A) (k : A -> result B) (b : B) :
  bind m k = Ok b -> exists a, m = Ok a /\ k a = Ok b.
Proof.
  destruct m as [a | e]; simpl; intros H.
  - exists a. split; [reflexivity | exact H].
  - discriminate H.
Qed.

Lemma mapM_length {A B : Type} (f : A -> result B) (l : list A) (r : list B) :
  mapM f l = Ok r -> length r = length l.
Proof.
  revert r. induction l as [| a l IH]; simpl; intros r H.
  - inversion H. reflexivity.
  - destruct (f a) as [b | e]; simpl in H; [| discriminate H].
    destruct (mapM f l) as [bs | e]; simpl in H; [| discriminate H].
    inversion H. simpl. rewrite (IH bs eq_refl). reflexivity.
Qed.

Lemma mapM_nth {A B : Type} (f : A -> result B) (l : list A) (r : list B)
  (da : A) (db : B) (i : nat) :
  mapM f l = Ok r -> i < length l -> f (nth i l da) = Ok (nth i r db).
Proof.
  revert r i. induction l as [| a l IH]; simpl; intros r i H Hi.
  - lia.
  - destruct (f a) as [b | e] eqn:Hfa; simpl in H; [| discriminate H].
    destruct (mapM f l) as [bs | e]; simpl in H; [| discriminate H].
    inversion H; subst r. destruct i as [| i]; simpl.
    + exact Hfa.
    + apply IH; [reflexivity | lia].
Qed.

Lemma mapM_Raise {A B : Type} (f : A -> result B) (l : list A) (a : A) (e : exn) :
  In a l -> f a = Raise e -> exists e', mapM f l = Raise e' /\
                                       exists a', In a' l /\ f a' = Raise e'.
Proof.
  induction l as [| x l IH]; simpl; intros Hin Hfa.
  - contradiction.
  - destruct (f x) as [b | ex] eqn:Hfx; simpl.
    + destruct Hin as [-> | Hin]; [congruence |].
      destruct (IH Hin Hfa) as (e' & He' & a' & Ha' & Hfa').
      exists e'. rewrite He'. simpl. split; [reflexivity |].
      exists a'. auto.
    + exists ex. split; [reflexivity |]. exists x. auto.
Qed.


(* ================================================================== *)
(** ** Facts about frames *)

Lemma getitem_setitem_same (df : DataFrame) (c : string) (s : Series) :
  getitem (setitem df c s) c = Ok s.
Proof.
  induction df as [| [c0 s0] df IH]; simpl.
  - rewrite String.eqb_refl. reflexivity.
  - destruct (String.eqb c0 c) eqn:E; simpl; rewrite E; [reflexivity | exact IH].
Qed.

Lemma getitem_setitem_other (df : DataFrame) (c c' : string) (s : Series) :
  String.eqb c c' = false -> getitem (setitem df c s) c' = getitem df c'.
Proof.
  intros Hne. induction df as [| [c0 s0] df IH]; simpl.
  - rewrite Hne. reflexivity.
  - destruct (String.eqb c0 c) eqn:E; simpl.
    + apply String.eqb_eq in E. subst c0. rewrite Hne. reflexivity.
    + rewrite IH. reflexivity.
Qed.

Lemma getitem_In (df : DataFrame) (c : string) (s : Series) :
  getitem df c = Ok s -> In (c, s) df.
Proof.
  induction df as [| [c0 s0] df IH]; simpl; intros H.
  - discriminate H.
  - destruct (String.eqb c0 c) eqn:E.
    + apply String.eqb_eq in E. inversion H. subst. left. reflexivity.
    + right. apply IH. exact H.
Qed.

Lemma getitem_absent (df : DataFrame) (c : string) :
  ~ In c (columns df) -> getitem df c = Raise (KeyError c).
Proof.
  induction df as [| [c0 s0] df IH]; simpl; intros H.
  - reflexivity.
  - destruct (String.eqb c0 c) eqn:E.
    + apply String.eqb_eq in E. exfalso. apply H. left. exact E.
    + apply IH. intros Hin. apply H. right. exact Hin.
Qed.

Lemma getitem_present (df : DataFrame) (c : string) :
  In c (columns df) -> exists s, getitem df c = Ok s.
Proof.
  induction df as [| [c0 s0] df IH]; simpl; intros H.
  - contradiction.
  - destruct (String.eqb c0 c) eqn:E.
    + exists s0. reflexivity.
    + destruct H as [H | H]; [apply String.eqb_neq in E; contradiction |].
      apply IH. exact H.
Qed.


Lemma columns_setitem (df : DataFrame) (c c' : string) (s : Series) :
  In c' (columns (setitem df c s)) <-> c' = c \/ In c' (columns df).
Proof.
  induction df as [| [c0 s0] df IH]; simpl.
  - intuition.
  - destruct (String.eqb c0 c) eqn:E; simpl.
    + apply String.eqb_eq in E. subst c0. intuition.
    + rewrite IH. intuition.
Qed.

Lemma getitem_length (df : DataFrame) (c : string) (s : Series) :
  rectangular df -> getitem df c = Ok s -> length s = nrows df.
Proof.
  intros Hr H. apply getitem_In in H.
  unfold rectangular in Hr. rewrite Forall_forall in Hr.
  apply (Hr (c, s) H).
Qed.

Lemma nrows_setitem (df : DataFrame) (c : string) (s : Series) :
  df <> [] -> length s = nrows df -> nrows (setitem df c s) = nrows df.
Proof.
  destruct df as [| [c0 s0] df]; simpl; intros Hne Hlen.
  - congruence.
  - destruct (String.eqb c0 c); simpl; [exact Hlen | reflexivity].
Qed.

Lemma setitem_not_nil (df : DataFrame) (c : string) (s : Series) :
  setitem df c s <> [].
Proof.
  destruct df as [| [c0 s0] df]; simpl; [discriminate |].
  destruct (String.eqb c0 c); discriminate.
Qed.

Lemma Forall_setitem (P : string * Series -> Prop) (df : DataFrame)
  (c : string) (s : Series) :
  Forall P df -> (forall c', P (c', s)) -> Forall P (setitem df c s).
Proof.
  intros Hdf Hs. induction Hdf as [| [c0 s0] df H0 Hdf IH]; simpl.
  - constructor; [apply Hs | constructor].
  - destruct (String.eqb c0 c); constructor; auto.
Qed.

Lemma rectangular_setitem (df : DataFrame) (c : string) (s : Series) :
  rectangular df -> df <> [] -> length s = nrows df ->
  rectangular (setitem df c s).
Proof.
  intros Hr Hne Hlen. unfold rectangular.
  rewrite (nrows_setitem df c s Hne Hlen).
  apply Forall_setitem; [exact Hr | intros; exact Hlen].
Qed.

Lemma nrows_rename (df : DataFrame) (m : list (string * string)) :
  nrows (rename df m) = nrows df.
Proof. destruct df as [| [c s] df]; reflexivity. Qed.

Lemma rectangular_rename (df : DataFrame) (m : list (string * string)) :
  rectangular df -> rectangular (rename df m).
Proof.
  unfold rectangular. rewrite nrows_rename. unfold rename.
  rewrite Forall_map. apply Forall_impl. intros [c s]. simpl. auto.
Qed.

Lemma cell_row (df : DataFrame) (c : string) (i : nat) :
  cell (row df i) c = match getitem df c with
                      | Ok s => nth i s None
                      | Raise _ => None
                      end.
Proof.
  induction df as [| [c0 s0] df IH]; simpl.
  - reflexivity.
  - destruct (String.eqb c0 c); [reflexivity | exact IH].
Qed.

Lemma getitem_take_rows (idx : list nat) (df : DataFrame) (c : string) :
  getitem (take_rows idx df) c = s <- getitem df c ;; Ok (take idx s).
Proof.
  induction df as [| [c0 s0] df IH]; simpl.
  - reflexivity.
  - destruct (String.eqb c0 c); [reflexivity | exact IH].
Qed.

Lemma nrows_take_rows (idx : list nat) (df : DataFrame) :
  df <> [] -> nrows (take_rows idx df) = length idx.
Proof.
  destruct df as [| [c s] df]; simpl; intros H.
  - congruence.
  - unfold take. apply length_map.
Qed.

Lemma nth_map_lt {A B : Type} (f : A -> B) (l : list A) (i : nat) (da : A) (db : B) :
  i < length l -> nth i (map f l) db = f (nth i l da).
Proof.
  revert i. induction l as [| a l IH]; simpl; intros i Hi.
  - lia.
  - destruct i as [| i]; [reflexivity | apply IH; lia].
Qed.

Lemma map_nth_seq {A : Type} (l : list A) (d : A) :
  map (fun i => nth i l d) (seq 0 (length l)) = l.
Proof.
  induction l as [| a l IH]; simpl.
  - reflexivity.
  - f_equal. rewrite <- seq_shift, map_map. exact IH.
Qed.

Lemma row_take_rows (idx : list nat) (df : DataFrame) (i : nat) :
  i < length idx -> row (take_rows idx df) i = row df (nth i idx 0).
Proof.
  intros Hi. unfold row, take_rows. rewrite map_map. simpl.
  apply map_ext. intros [c s]. simpl. f_equal.
  unfold take.
  apply (nth_map_lt (fun j => nth j s None) idx i 0 None Hi).
Qed.

Lemma rows_take_rows (idx : list nat) (df : DataFrame) :
  df <> [] -> rows (take_rows idx df) = map (row df) idx.
Proof.
  intros Hne. unfold rows. rewrite (nrows_take_rows idx df Hne).
  transitivity (map (fun i => row df (nth i idx 0)) (seq 0 (length idx))).
  - apply map_ext_in. intros i Hi. apply in_seq in Hi.
    apply row_take_rows. lia.
  - rewrite <- (map_map (fun i => nth i idx 0) (row df)).
    rewrite map_nth_seq. reflexivity.
Qed.

Lemma where_from_filter (P : nat -> bool) (mask : list bool) (k : nat) :
  (forall i, i < length mask -> nth i mask false = P (k + i)) ->
  where_from k mask = filter P (seq k (length mask)).
Proof.
  revert k. induction mask as [| b mask IH]; simpl; intros k H.
  - reflexivity.
  - assert (Hb : b = P k) by (rewrite <- (Nat.add_0_r k); apply (H 0); lia).
    assert (Htl : where_from (S k) mask = filter P (seq (S k) (length mask))).
    { apply IH. intros i Hi. replace (S k + i) with (k + S i) by lia.
      apply (H (S i)). lia. }
    rewrite Htl, <- Hb. destruct b; reflexivity.
Qed.

Lemma length_mask_and (a b : list bool) :
  length (mask_and a b) = Nat.min (length a) (length b).
Proof.
  revert b. induction a as [| x a IH]; intros [| y b]; simpl; auto.
Qed.

Lemma nth_mask_and (a b : list bool) (i : nat) :
  nth i (mask_and a b) false = nth i a false && nth i b false.
Proof.
  revert b i. induction a as [| x a IH]; intros [| y b] [| i]; simpl;
    try reflexivity; try (symmetry; apply andb_false_r).
  apply IH.
Qed.

Lemma nth_isin (s : Series) (vals : list scalar) (i : nat) :
  nth i (isin s vals) false = isin_cell vals (nth i s None).
Proof.
  unfold isin. change false with (isin_cell vals None). apply map_nth.
Qed.

Lemma length_isin (s : Series) (vals : list scalar) :
  length (isin s vals) = length s.
Proof. apply length_map. Qed.
(* ================================================================== *)
(** ** Equality and order of cells *)

Lemma scalar_eqb_refl (a : scalar) : scalar_eqb a a = true.
Proof.
  destruct a; simpl.
  - apply String.eqb_refl.
  - apply Qeq_bool_refl.
  - apply Z.eqb_refl.
Qed.

Lemma scalar_eqb_sym (a b : scalar) : scalar_eqb a b = scalar_eqb b a.
Proof.
  destruct a, b; simpl; try reflexivity.
  - apply String.eqb_sym.
  - apply Qeq_bool_comm.
  - apply Z.eqb_sym.
Qed.

Lemma scalar_eqb_trans (a b c : scalar) :
  scalar_eqb a b = true -> scalar_eqb b c = true -> scalar_eqb a c = true.
Proof.
  destruct a, b, c; simpl; try discriminate; intros H1 H2.
  - apply String.eqb_eq in H1, H2. apply String.eqb_eq. congruence.
  - eapply Qeq_bool_trans; eassumption.
  - apply Z.eqb_eq in H1, H2. apply Z.eqb_eq. congruence.
Qed.

Lemma scalar_leb_total (a b : scalar) :
  scalar_leb a b = true \/ scalar_leb b a = true.
Proof.
  destruct a, b; simpl; auto.
  - apply String.leb_total.
  - rewrite !Qle_bool_iff. destruct (Qlt_le_dec q q0) as [H | H]; auto.
    left. apply Qlt_le_weak. exact H.
  - rewrite !Z.leb_le. lia.
Qed.

Lemma isin_cell_true (vals : list scalar) (v : value) :
  isin_cell vals v = true <->
  exists x y, v = Some x /\ In y vals /\ scalar_eqb x y = true.
Proof.
  destruct v as [x |]; simpl.
  - rewrite existsb_exists. split.
    + intros (y & Hy & E). exists x, y. auto.
    + intros (x' & y & Hx & Hy & E). inversion Hx; subst x'. exists y. auto.
  - split; [discriminate | intros (x & y & H & _); discriminate H].
Qed.

Lemma isin_cell_incl (s1 s2 : list scalar) (v : value) :
  incl s1 s2 -> isin_cell s1 v = true -> isin_cell s2 v = true.
Proof.
  intros Hincl. rewrite !isin_cell_true.
  intros (x & y & Hv & Hy & E). exists x, y. auto.
Qed.

(* ================================================================== *)
(** ** The filter *)

Lemma nrows_length_rows (df : DataFrame) : length (rows df) = nrows df.
Proof. unfold rows. rewrite length_map, length_seq. reflexivity. Qed.

Lemma In_rows (df : DataFrame) (r : list (string * value)) :
  In r (rows df) <-> exists i, i < nrows df /\ r = row df i.
Proof.
  unfold rows. rewrite in_map_iff. split.
  - intros (i & Hr & Hi). apply in_seq in Hi. exists i. split; [lia | auto].
  - intros (i & Hi & Hr). exists i. split; [auto | apply in_seq; lia].
Qed.

Lemma filter_mask_spec (df : DataFrame) (sel : selections) (m : list bool) :
  rectangular df -> filter_mask df sel = Ok m ->
  length m = nrows df /\
  forall i, nth i m false = qualifies sel (row df i).
Proof.
  intros Hr H. unfold filter_mask in H.
  apply bind_Ok_inv in H. destruct H as (a & Ha & H).
  apply bind_Ok_inv in H. destruct H as (v & Hv & H).
  apply bind_Ok_inv in H. destruct H as (t & Ht & H).
  apply bind_Ok_inv in H. destruct H as (c & Hc & H).
  inversion H; subst m; clear H. split.
  - rewrite !length_mask_and, !length_isin.
    rewrite (getitem_length df _ a Hr Ha), (getitem_length df _ v Hr Hv),
      (getitem_length df _ t Hr Ht), (getitem_length df _ c Hr Hc).
    rewrite !Nat.min_id. reflexivity.
  - intros i. rewrite !nth_mask_and, !nth_isin. unfold qualifies.
    rewrite !cell_row, Ha, Hv, Ht, Hc. reflexivity.
Qed.

Lemma filter_mask_not_nil (df : DataFrame) (sel : selections) (m : list bool) :
  filter_mask df sel = Ok m -> df <> [].
Proof. intros H ->. discriminate H. Qed.

Lemma df_filtrado_rows (df : DataFrame) (sel : selections) (f : DataFrame) :
  rectangular df -> df_filtrado df sel = Ok f ->
  rows f = filter (qualifies sel) (rows df).
Proof.
  intros Hr H. unfold df_filtrado in H.
  apply bind_Ok_inv in H. destruct H as (m & Hm & H).
  inversion H; subst f; clear H. unfold copy, getitem_mask.
  rewrite (rows_take_rows _ df (filter_mask_not_nil df sel m Hm)).
  destruct (filter_mask_spec df sel m Hr Hm) as [Hlen Hnth].
  unfold where_true.
  rewrite (where_from_filter (fun i => qualifies sel (row df i)) m 0)
    by (intros i _; apply Hnth).
  rewrite Hlen. unfold rows. rewrite filter_map_swap. reflexivity.
Qed.

Lemma df_filtrado_Ok (df : DataFrame) (sel : selections) :
  In "ano" (columns df) -> In "vendedor" (columns df) ->
  In "tipo_solucao" (columns df) -> In "cliente" (columns df) ->
  exists f, df_filtrado df sel = Ok f.
Proof.
  intros Ha Hv Ht Hc. unfold df_filtrado, filter_mask.
  destruct (getitem_present df _ Ha) as [a ->].
  destruct (getitem_present df _ Hv) as [v ->].
  destruct (getitem_present df _ Ht) as [t ->].
  destruct (getitem_present df _ Hc) as [c ->].
  simpl. eexists. reflexivity.
Qed.

Lemma qualifies_true (sel : selections) (r : list (string * value)) :
  qualifies sel r = true <->
  isin_cell (ano_selecionado sel) (cell r "ano") = true /\
  isin_cell (vendedor_selecionado sel) (cell r "vendedor") = true /\
  isin_cell (tipo_selecionado sel) (cell r "tipo_solucao") = true /\
  isin_cell (cliente_selecionado sel) (cell r "cliente") = true.
Proof. unfold qualifies. rewrite !andb_true_iff. tauto. Qed.

Lemma filter_length_mono {A : Type} (p q : A -> bool) (l : list A) :
  (forall a, In a l -> p a = true -> q a = true) ->
  length (filter p l) <= length (filter q l).
Proof.
  induction l as [| a l IH]; simpl; intros H.
  - lia.
  - assert (IH' : length (filter p l) <= length (filter q l))
      by (apply IH; intros; apply H; auto).
    destruct (p a) eqn:Ep.
    + rewrite (H a (or_introl eq_refl) Ep). simpl. lia.
    + destruct (q a); simpl; lia.
Qed.

(* ================================================================== *)
(** ** Options of the sidebar *)

Lemma In_dropna (s : Series) (x : scalar) : In x (dropna s) <-> In (Some x) s.
Proof.
  unfold dropna. rewrite in_flat_map. split.
  - intros ([y |] & Hy & Hx); simpl in Hx; [| contradiction].
    destruct Hx as [<- | []]. exact Hy.
  - intros H. exists (Some x). split; [exact H | left; reflexivity].
Qed.

Lemma unique_covers (l : list scalar) (z : scalar) :
  In z l -> exists y, In y (unique l) /\ scalar_eqb y z = true.
Proof.
  induction l as [| x l IH]; simpl; intros H.
  - contradiction.
  - destruct H as [<- | H].
    + exists x. split; [left; reflexivity | apply scalar_eqb_refl].
    + destruct (IH H) as (y & Hy & E).
      destruct (scalar_eqb x y) eqn:Exy.
      * exists x. split; [left; reflexivity |].
        eapply scalar_eqb_trans; eassumption.
      * exists y. split; [| exact E]. right. apply filter_In.
        split; [exact Hy | rewrite Exy; reflexivity].
Qed.

Lemma unique_incl (l : list scalar) (y : scalar) : In y (unique l) -> In y l.
Proof.
  revert y. induction l as [| x l IH]; simpl; intros y H.
  - exact H.
  - destruct H as [H | H]; [left; exact H |].
    apply filter_In in H. right. apply IH. apply H.
Qed.

Lemma insert_perm (x : scalar) (l : list scalar) :
  Permutation (insert x l) (x :: l).
Proof.
  induction l as [| y l IH]; simpl.
  - apply Permutation_refl.
  - destruct (scalar_leb x y).
    + apply Permutation_refl.
    + eapply perm_trans; [apply perm_skip; exact IH | apply perm_swap].
Qed.

Lemma sort_perm (l : list scalar) : Permutation (sort l) l.
Proof.
  induction l as [| x l IH]; simpl.
  - apply perm_nil.
  - eapply perm_trans; [apply insert_perm | apply perm_skip; exact IH].
Qed.

Lemma insert_sorted (x : scalar) (l : list scalar) :
  Sorted scalar_le l -> Sorted scalar_le (insert x l).
Proof.
  induction 1 as [| y l Hs IH Hhd]; simpl.
  - repeat constructor.
  - destruct (scalar_leb x y) eqn:E.
    + constructor; [constructor; assumption | constructor; exact E].
    + constructor; [exact IH |].
      assert (Hyx : scalar_le y x)
        by (destruct (scalar_leb_total x y) as [H | H]; [congruence | exact H]).
      destruct l as [| z l]; simpl.
      * constructor. exact Hyx.
      * destruct (scalar_leb x z); constructor; [exact Hyx |].
        inversion Hhd. assumption.
Qed.

Lemma sort_sorted (l : list scalar) : Sorted scalar_le (sort l).
Proof.
  induction l as [| x l IH]; simpl; [constructor | apply insert_sorted; exact IH].
Qed.

Lemma options_cover (df : DataFrame) (c : string) (opts : list scalar)
  (s : Series) (x : scalar) :
  options df c = Ok opts -> getitem df c = Ok s -> In (Some x) s ->
  isin_cell opts (Some x) = true.
Proof.
  unfold options, sorted. intros H Hs Hx. rewrite Hs in H. simpl in H.
  destruct (same_kind (unique (dropna s))); [| discriminate H].
  inversion H; subst opts; clear H.
  apply In_dropna in Hx.
  destruct (unique_covers _ _ Hx) as (y & Hy & E).
  apply isin_cell_true. exists x, y. split; [reflexivity |]. split.
  - apply (Permutation_in _ (Permutation_sym (sort_perm _))). exact Hy.
  - rewrite scalar_eqb_sym. exact E.
Qed.

Lemma options_getitem (df : DataFrame) (c : string) (opts : list scalar) :
  options df c = Ok opts -> exists s, getitem df c = Ok s.
Proof.
  unfold options. intros H. apply bind_Ok_inv in H.
  destruct H as (s & Hs & _). exists s. exact Hs.
Qed.

Lemma options_present_only (df : DataFrame) (c : string) (opts : list scalar)
  (s : Series) (x : scalar) :
  options df c = Ok opts -> getitem df c = Ok s -> In x opts -> In (Some x) s.
Proof.
  unfold options, sorted. intros H Hs Hx. rewrite Hs in H. simpl in H.
  destruct (same_kind (unique (dropna s))); [| discriminate H].
  inversion H; subst opts; clear H.
  apply In_dropna. apply unique_incl.
  apply (Permutation_in _ (sort_perm _)). exact Hx.
Qed.
(* ================================================================== *)
(** ** The calendar *)

Lemma day_of_era_range (z : Z) : (0 <= z - z / 146097 * 146097 <= 146096)%Z.
Proof. Z.div_mod_to_equations. lia. Qed.

Lemma day_of_year_range (doe : Z) :
  (0 <= doe <= 146096)%Z ->
  let yoe := ((doe - doe / 1460 + doe / 36524 - doe / 146096) / 365)%Z in
  (0 <= doe - (365 * yoe + yoe / 4 - yoe / 100) <= 365)%Z.
Proof. intros H yoe. unfold yoe. Z.div_mod_to_equations. lia. Qed.

Lemma month_of_range (t : Z) : (1 <= month_of t <= 12)%Z.
Proof.
  cbv beta iota zeta delta [month_of civil_from_days fst snd].
  set (z := (t / ns_per_day + 719468)%Z).
  pose proof (day_of_era_range z) as Hdoe.
  set (doe := (z - z / 146097 * 146097)%Z) in *.
  pose proof (day_of_year_range doe Hdoe) as Hdoy. cbv zeta in Hdoy.
  set (yoe := ((doe - doe / 1460 + doe / 36524 - doe / 146096) / 365)%Z) in *.
  set (doy := (doe - (365 * yoe + yoe / 4 - yoe / 100))%Z) in *.
  assert (Hmp : (0 <= (5 * doy + 2) / 153 <= 11)%Z).
  { clearbody doy. Z.div_mod_to_equations. lia. }
  set (mp := ((5 * doy + 2) / 153)%Z) in *.
  destruct (mp <? 10)%Z eqn:E.
  - apply Z.ltb_lt in E. lia.
  - apply Z.ltb_ge in E. lia.
Qed.
(* ================================================================== *)
(** ** The loader *)

Section Loader.

Variable parse_datetime : string -> option (option Z).
Variable parse_number : string -> option Q.

Local Abbreviation to_datetime := (to_datetime parse_datetime).
Local Abbreviation to_datetime_cell := (to_datetime_cell parse_datetime).
Local Abbreviation to_numeric := (to_numeric parse_number).
Local Abbreviation load_data := (load_data parse_datetime parse_number).

Lemma to_datetime_cell_Ok (v w : value) :
  to_datetime_cell v = Ok w ->
  w = None \/ exists t, w = Some (Time t).
Proof.
  destruct v as [[s | q | t] |]; simpl; intros H.
  - destruct (parse_datetime s) as [[u |] |]; inversion H; simpl; eauto.
  - inversion H. eauto.
  - inversion H. eauto.
  - inversion H. auto.
Qed.

Lemma to_datetime_cell_Raise (v : value) (e : exn) :
  to_datetime_cell v = Raise e ->
  exists txt, v = Some (Str txt) /\ parse_datetime txt = None /\
              e = DateParseError txt.
Proof.
  destruct v as [[s | q | t] |]; simpl; intros H; try discriminate H.
  destruct (parse_datetime s) eqn:E; [discriminate H |].
  inversion H. exists s. auto.
Qed.

Lemma to_datetime_cells (s s' : Series) (i : nat) :
  to_datetime s = Ok s' -> i < length s' ->
  nth i s' None = None \/ exists t, nth i s' None = Some (Time t).
Proof.
  intros H Hi.
  assert (Hlen : length s' = length s) by exact (mapM_length _ _ _ H).
  apply (to_datetime_cell_Ok (nth i s None)).
  apply (mapM_nth _ _ _ None None i H). unfold value in *. lia.
Qed.

Lemma to_datetime_Raise (s : Series) (e : exn) :
  to_datetime s = Raise e ->
  exists txt, In (Some (Str txt)) s /\ parse_datetime txt = None /\
              e = DateParseError txt.
Proof.
  unfold to_datetime.
  induction s as [| v s IH]; simpl; intros H.
  - discriminate H.
  - destruct (to_datetime_cell v) as [w | e1] eqn:Hv; simpl in H.
    + destruct (mapM to_datetime_cell s) as [ws | e2]; simpl in H;
        [discriminate H |].
      destruct (IH H) as (txt & Hin & Hp & He). exists txt. auto.
    + inversion H; subst e1.
      destruct (to_datetime_cell_Raise v e Hv) as (txt & -> & Hp & He).
      exists txt. auto.
Qed.

Lemma to_datetime_unparseable (s : Series) (txt : string) :
  In (Some (Str txt)) s -> parse_datetime txt = None ->
  exists bad, parse_datetime bad = None /\
              to_datetime s = Raise (DateParseError bad).
Proof.
  intros Hin Hp.
  destruct (mapM_Raise to_datetime_cell s (Some (Str txt))
              (DateParseError txt) Hin) as (e & He & _).
  { simpl. rewrite Hp. reflexivity. }
  destruct (to_datetime_Raise s e He) as (bad & _ & Hbad & ->).
  exists bad. auto.
Qed.

Lemma length_to_numeric (s : Series) : length (to_numeric s) = length s.
Proof.
  unfold to_numeric. destruct (is_datetime64 s); apply length_map.
Qed.

Lemma load_data_unfold (wb : DataFrame) :
  load_data wb =
  (dv <- getitem (rename wb column_names) "data_venda" ;;
   dv' <- to_datetime dv ;;
   nf <- getitem (rename wb column_names) "data_nf" ;;
   nf' <- to_datetime nf ;;
   vv <- getitem (rename wb column_names) "valor_venda" ;;
   Ok (loaded (rename wb column_names) dv' nf' (to_numeric vv))).
Proof.
  unfold load_data, loaded.
  destruct (getitem (rename wb column_names) "data_venda") as [dv | e];
    [| reflexivity].
  simpl. destruct (to_datetime dv) as [dv' | e]; [| reflexivity].
  simpl. rewrite getitem_setitem_other by reflexivity.
  destruct (getitem (rename wb column_names) "data_nf") as [nf | e];
    [| reflexivity].
  simpl. destruct (to_datetime nf) as [nf' | e]; [| reflexivity].
  simpl. rewrite !getitem_setitem_other by reflexivity.
  destruct (getitem (rename wb column_names) "valor_venda") as [vv | e];
    [| reflexivity].
  simpl.
  repeat (rewrite !getitem_setitem_other by reflexivity;
          rewrite getitem_setitem_same; simpl).
  reflexivity.
Qed.

Lemma load_data_inv (wb df : DataFrame) :
  load_data wb = Ok df ->
  exists dv nf vv dv' nf',
    getitem (rename wb column_names) "data_venda" = Ok dv /\
    to_datetime dv = Ok dv' /\
    getitem (rename wb column_names) "data_nf" = Ok nf /\
    to_datetime nf = Ok nf' /\
    getitem (rename wb column_names) "valor_venda" = Ok vv /\
    df = loaded (rename wb column_names) dv' nf' (to_numeric vv).
Proof.
  rewrite load_data_unfold. intros H.
  apply bind_Ok_inv in H. destruct H as (dv & Hdv & H).
  apply bind_Ok_inv in H. destruct H as (dv' & Hdv' & H).
  apply bind_Ok_inv in H. destruct H as (nf & Hnf & H).
  apply bind_Ok_inv in H. destruct H as (nf' & Hnf' & H).
  apply bind_Ok_inv in H. destruct H as (vv & Hvv & H).
  inversion H. exists dv, nf, vv, dv', nf'. auto 10.
Qed.

Lemma loaded_columns (df0 : DataFrame) (dv nf vv : Series) :
  getitem (loaded df0 dv nf vv) "data_venda" = Ok dv /\
  getitem (loaded df0 dv nf vv) "data_nf" = Ok nf /\
  getitem (loaded df0 dv nf vv) "valor_venda" = Ok vv /\
  getitem (loaded df0 dv nf vv) "ano" = Ok (dt_year dv) /\
  getitem (loaded df0 dv nf vv) "mes" = Ok (dt_month dv) /\
  getitem (loaded df0 dv nf vv) "ano_mes" = Ok (dt_to_period_M_astype_str dv).
Proof.
  unfold loaded. repeat split;
    repeat (rewrite getitem_setitem_other by reflexivity);
    apply getitem_setitem_same.
Qed.

Lemma loaded_other (df0 : DataFrame) (dv nf vv : Series) (c : string) :
  String.eqb "data_venda" c = false -> String.eqb "data_nf" c = false ->
  String.eqb "valor_venda" c = false -> String.eqb "ano" c = false ->
  String.eqb "mes" c = false -> String.eqb "ano_mes" c = false ->
  getitem (loaded df0 dv nf vv) c = getitem df0 c.
Proof.
  intros. unfold loaded. rewrite !getitem_setitem_other by assumption.
  reflexivity.
Qed.

Lemma loaded_rectangular (df0 : DataFrame) (dv nf vv : Series) :
  rectangular df0 -> df0 <> [] ->
  length dv = nrows df0 -> length nf = nrows df0 -> length vv = nrows df0 ->
  rectangular (loaded df0 dv nf vv) /\ nrows (loaded df0 dv nf vv) = nrows df0.
Proof.
  intros Hr Hne Hdv Hnf Hvv. unfold loaded.
  assert (step : forall df c s,
             (rectangular df /\ nrows df = nrows df0) /\ df <> [] ->
             length s = nrows df0 ->
             (rectangular (setitem df c s) /\ nrows (setitem df c s) = nrows df0)
             /\ setitem df c s <> []).
  { intros df c s [[H1 H2] H3] Hs. rewrite <- H2 in Hs. repeat split.
    - apply rectangular_setitem; assumption.
    - rewrite nrows_setitem; assumption.
    - apply setitem_not_nil. }
  apply step; [| unfold dt_to_period_M_astype_str; rewrite length_map; exact Hdv].
  apply step; [| unfold dt_month; rewrite length_map; exact Hdv].
  apply step; [| unfold dt_year; rewrite length_map; exact Hdv].
  apply step; [| exact Hvv].
  apply step; [| exact Hnf].
  apply step; [| exact Hdv].
  auto.
Qed.

Lemma load_data_rectangular (wb df : DataFrame) :
  rectangular wb -> load_data wb = Ok df ->
  rectangular df /\ nrows df = nrows wb.
Proof.
  intros Hr H.
  destruct (load_data_inv wb df H)
    as (dv & nf & vv & dv' & nf' & Hdv & Hdv' & Hnf & Hnf' & Hvv & ->).
  pose proof (rectangular_rename wb column_names Hr) as Hr0.
  rewrite <- (nrows_rename wb column_names).
  apply loaded_rectangular.
  - exact Hr0.
  - intros E. rewrite E in Hdv. discriminate Hdv.
  - rewrite (mapM_length _ _ _ Hdv'). apply (getitem_length _ _ _ Hr0 Hdv).
  - rewrite (mapM_length _ _ _ Hnf'). apply (getitem_length _ _ _ Hr0 Hnf).
  - rewrite length_to_numeric. apply (getitem_length _ _ _ Hr0 Hvv).
Qed.


Lemma loaded_has_column (df0 : DataFrame) (dv nf vv : Series) (c : string) :
  In c (columns (loaded df0 dv nf vv)) <->
  In c (columns df0) \/
  In c ["data_venda"; "data_nf"; "valor_venda"; "ano"; "mes"; "ano_mes"].
Proof.
  unfold loaded. rewrite !columns_setitem. simpl. intuition.
Qed.

(** C1 (the code departs from the claim).  On a sheet that has both date
    columns, a text cell of either one that the date parser rejects makes
    [load_data] raise: the cell is not coerced to missing and no dataset
    is returned. *)
Theorem load_data_raises_on_unparseable_date
  (wb : DataFrame) (dv nf : Series) (txt : string) :
  getitem (rename wb column_names) "data_venda" = Ok dv ->
  getitem (rename wb column_names) "data_nf" = Ok nf ->
  In (Some (Str txt)) dv \/ In (Some (Str txt)) nf ->
  parse_datetime txt = None ->
  exists bad, parse_datetime bad = None /\
              load_data wb = Raise (DateParseError bad).
Proof.
  intros Hdv Hnf Hin Hp. rewrite load_data_unfold, Hdv. simpl.
  destruct (to_datetime dv) as [dv' | e] eqn:Edv; simpl.
  - rewrite Hnf. simpl.
    destruct Hin as [Hin | Hin].
    + destruct (to_datetime_unparseable dv txt Hin Hp) as (bad & _ & E).
      congruence.
    + destruct (to_datetime_unparseable nf txt Hin Hp) as (bad & Hbad & E).
      rewrite E. simpl. exists bad. auto.
  - destruct (to_datetime_Raise dv e Edv) as (bad & _ & Hbad & ->).
    exists bad. auto.
Qed.


Ltac nth_of_map s i :=
  revert i; induction s as [| v s IH]; intros [| i] Hi; simpl in *;
  try lia; [reflexivity | apply IH; lia].

Lemma nth_dt_year (s : Series) (i : nat) :
  i < length s ->
  nth i (dt_year s) None =
  match nth i s None with
  | Some (Time t) => Some (Num (inject_Z (year_of t)))
  | _ => None
  end.
Proof. nth_of_map s i. Qed.

Lemma nth_dt_month (s : Series) (i : nat) :
  i < length s ->
  nth i (dt_month s) None =
  match nth i s None with
  | Some (Time t) => Some (Num (inject_Z (month_of t)))
  | _ => None
  end.
Proof. nth_of_map s i. Qed.

Lemma nth_dt_to_period (s : Series) (i : nat) :
  i < length s ->
  nth i (dt_to_period_M_astype_str s) None =
  match nth i s None with
  | Some (Time t) => Some (Str (year_month (year_of t) (month_of t)))
  | _ => Some (Str "NaT")
  end.
Proof. nth_of_map s i. Qed.

(** The year of a row of the loaded dataset is that of its date, and is
    missing when the date is. *)
Lemma ano_of_row (wb df : DataFrame) (i : nat) :
  load_data wb = Ok df ->
  cell (row df i) "ano" =
  match cell (row df i) "data_venda" with
  | Some (Time t) => Some (Num (inject_Z (year_of t)))
  | _ => None
  end.
Proof.
  intros H.
  destruct (load_data_inv wb df H)
    as (dv & nf & vv & dv' & nf' & _ & _ & _ & _ & _ & ->).
  destruct (loaded_columns (rename wb column_names) dv' nf' (to_numeric vv))
    as (Cdv & _ & _ & Cano & _).
  rewrite !cell_row, Cdv, Cano. unfold dt_year.
  exact (map_nth (fun v : value =>
                    match v with
                    | Some (Time t) => Some (Num (inject_Z (year_of t)))
                    | _ => None
                    end) dv' None i).
Qed.

(** C3 (the code departs from the claim on the missing case).  In every
    row of the loaded dataset [data_venda] is a timestamp or missing.  For
    a timestamp, [ano] and [mes] are its year and month (1 to 12) and
    [ano_mes] is the text "YYYY-MM" of that year and month.  For a missing
    date, [ano] and [mes] are missing, but [ano_mes] is the text "NaT". *)
Theorem load_data_derived_fields (wb df : DataFrame) :
  rectangular wb -> load_data wb = Ok df ->
  forall r, In r (rows df) ->
    match cell r "data_venda" with
    | Some (Time t) =>
        cell r "ano" = Some (Num (inject_Z (year_of t))) /\
        cell r "mes" = Some (Num (inject_Z (month_of t))) /\
        (1 <= month_of t <= 12)%Z /\
        cell r "ano_mes" = Some (Str (year_month (year_of t) (month_of t)))
    | None =>
        cell r "ano" = None /\ cell r "mes" = None /\
        cell r "ano_mes" = Some (Str "NaT")
    | Some _ => False
    end.
Proof.
  intros Hr H r Hin.
  destruct (load_data_rectangular wb df Hr H) as [Hrd Hn].
  destruct (load_data_inv wb df H)
    as (dv & nf & vv & dv' & nf' & Hdv & Hdv' & _ & _ & _ & ->).
  apply In_rows in Hin. destruct Hin as (i & Hi & ->).
  destruct (loaded_columns (rename wb column_names) dv' nf' (to_numeric vv))
    as (Cdv & _ & _ & Cano & Cmes & Cam).
  assert (Hlen : length dv' = nrows (loaded (rename wb column_names) dv' nf'
                                       (to_numeric vv)))
    by (apply (getitem_length _ _ _ Hrd Cdv)).
  assert (Hi' : i < length dv') by (rewrite Hlen; exact Hi).
  rewrite !cell_row, Cdv, Cano, Cmes, Cam.
  rewrite (nth_dt_year dv' i Hi'), (nth_dt_month dv' i Hi'),
    (nth_dt_to_period dv' i Hi').
  destruct (to_datetime_cells dv dv' i Hdv' Hi') as [E | [t E]]; rewrite E.
  - auto.
  - repeat split; try reflexivity; apply month_of_range.
Qed.

End Loader.
(* ================================================================== *)
(** ** Sorting *)

Lemma Sorted_snoc {A : Type} (R : A -> A -> Prop) (l : list A) (a : A) :
  Sorted R l -> HdRel (fun x y => R y x) a (rev l) -> Sorted R (l ++ [a]).
Proof.
  induction 1 as [| x l Hs IH Hhd]; simpl; intros Hlast.
  - repeat constructor.
  - constructor.
    + apply IH. destruct (rev l) as [| y r] eqn:E; [constructor |].
      simpl in Hlast. inversion Hlast. constructor. assumption.
    + destruct l as [| y l]; simpl.
      * simpl in Hlast. inversion Hlast. constructor. assumption.
      * inversion Hhd. constructor. assumption.
Qed.

Lemma Sorted_rev {A : Type} (R : A -> A -> Prop) (l : list A) :
  Sorted R l -> Sorted (fun x y => R y x) (rev l).
Proof.
  induction 1 as [| x l Hs IH Hhd]; simpl.
  - constructor.
  - apply Sorted_snoc; [exact IH |]. rewrite rev_involutive.
    destruct Hhd; constructor; assumption.
Qed.

Lemma Sorted_map {A B : Type} (R : B -> B -> Prop) (f : A -> B) (l : list A) :
  Sorted R (map f l) <-> Sorted (fun x y => R (f x) (f y)) l.
Proof.
  induction l as [| a l IH]; simpl.
  - split; constructor.
  - split; intros H; inversion H; subst; constructor;
      try (apply IH; assumption);
      destruct l; simpl in *; constructor;
      match goal with Hd : HdRel _ _ _ |- _ => inversion Hd; assumption end.
Qed.

Lemma Sorted_impl {A : Type} (R S : A -> A -> Prop) (l : list A) :
  (forall x y, R x y -> S x y) -> Sorted R l -> Sorted S l.
Proof.
  intros H. induction 1 as [| x l Hs IH Hhd]; constructor; auto.
  destruct Hhd; constructor; auto.
Qed.

Lemma Sorted_firstn {A : Type} (R : A -> A -> Prop) (n : nat) (l : list A) :
  Sorted R l -> Sorted R (firstn n l).
Proof.
  intros H. revert n. induction H as [| x l Hs IH Hhd]; intros [| n]; simpl;
    try constructor.
  - apply IH.
  - destruct Hhd; destruct n; simpl; constructor; assumption.
Qed.

Lemma insert_pos_perm (l : list scalar) (i : nat) (acc : list nat) :
  Permutation (insert_pos l i acc) (i :: acc).
Proof.
  induction acc as [| j acc IH]; simpl.
  - apply Permutation_refl.
  - destruct (scalar_leb (pick l i) (pick l j)).
    + apply Permutation_refl.
    + eapply perm_trans; [apply perm_skip; exact IH | apply perm_swap].
Qed.

Lemma insert_pos_sorted (l : list scalar) (i : nat) (acc : list nat) :
  Sorted scalar_le (map (pick l) acc) ->
  Sorted scalar_le (map (pick l) (insert_pos l i acc)).
Proof.
  induction acc as [| j acc IH]; simpl; intros H.
  - repeat constructor.
  - inversion H as [| ? ? Hs Hhd]; subst.
    destruct (scalar_leb (pick l i) (pick l j)) eqn:E.
    + simpl. constructor; [exact H | constructor; exact E].
    + assert (Hji : scalar_le (pick l j) (pick l i)).
      { destruct (scalar_leb_total (pick l i) (pick l j));
          [congruence | assumption]. }
      simpl. constructor; [apply IH; exact Hs |].
      destruct acc as [| k acc]; simpl.
      * constructor. exact Hji.
      * destruct (scalar_leb (pick l i) (pick l k));
          simpl; constructor; auto.
        inversion Hhd. assumption.
Qed.

Lemma argsort_stable_spec : argsort_spec argsort_stable.
Proof.
  intros l. unfold argsort_stable. generalize (seq 0 (length l)) as idx.
  induction idx as [| i idx [IHp IHs]]; simpl.
  - split; constructor.
  - split.
    + eapply perm_trans; [apply insert_pos_perm | apply perm_skip; exact IHp].
    + apply insert_pos_sorted. exact IHs.
Qed.

Lemma dropna_map_Some (xs : list scalar) : dropna (map Some xs) = xs.
Proof.
  induction xs as [| x xs IH]; simpl; [reflexivity | rewrite IH; reflexivity].
Qed.

Lemma dropna_app (a b : Series) : dropna (a ++ b) = dropna a ++ dropna b.
Proof.
  induction a as [| v a IH]; simpl; [reflexivity |].
  change (dropna (v :: a ++ b)) with
    (match v with Some x => [x] | None => [] end ++ dropna (a ++ b)).
  change (dropna (v :: a)) with
    (match v with Some x => [x] | None => [] end ++ dropna a).
  rewrite IH, app_assoc. reflexivity.
Qed.

Lemma dropna_rev (s : Series) : dropna (rev s) = rev (dropna s).
Proof.
  induction s as [| v s IH]; simpl; [reflexivity |].
  rewrite dropna_app, IH.
  change (dropna (v :: s)) with
    (match v with Some x => [x] | None => [] end ++ dropna s).
  rewrite rev_app_distr. destruct v; reflexivity.
Qed.

Lemma take_seq (s : Series) : take (seq 0 (length s)) s = s.
Proof. unfold take. apply map_nth_seq. Qed.

Lemma take_rev (idx : list nat) (s : Series) :
  take (rev idx) s = rev (take idx s).
Proof. unfold take. apply map_rev. Qed.

Lemma filter_all {A : Type} (p : A -> bool) (l : list A) :
  (forall a, In a l -> p a = true) -> filter p l = l.
Proof.
  induction l as [| a l IH]; simpl; intros H; [reflexivity |].
  rewrite (H a (or_introl eq_refl)), IH; [reflexivity | auto].
Qed.

Lemma filter_none {A : Type} (p : A -> bool) (l : list A) :
  (forall a, In a l -> p a = false) -> filter p l = [].
Proof.
  induction l as [| a l IH]; simpl; intros H; [reflexivity |].
  rewrite (H a (or_introl eq_refl)), IH; [reflexivity | auto].
Qed.

Lemma is_missing_nth_map_Some (xs : list scalar) (i : nat) :
  i < length xs -> is_missing (nth i (map Some xs) None) = false.
Proof.
  intros Hi. rewrite (nth_map_lt Some xs i (Num 0) None Hi). reflexivity.
Qed.

Section Nargsort.

Variable argsort : list scalar -> list nat.
Hypothesis argsort_ok : argsort_spec argsort.

Lemma argsort_lt (l : list scalar) (j : nat) :
  In j (argsort l) -> j < length l.
Proof.
  intros H. destruct (argsort_ok l) as [Hp _].
  apply (Permutation_in _ Hp) in H. apply in_seq in H. lia.
Qed.

Lemma nargsort_ascending (xs : list scalar) :
  nargsort argsort (map Some xs) true = argsort xs.
Proof.
  unfold nargsort. rewrite length_map.
  rewrite (filter_all _ (seq 0 (length xs))).
  2:{ intros i Hi. apply in_seq in Hi.
      rewrite is_missing_nth_map_Some by lia. reflexivity. }
  rewrite (filter_none _ (seq 0 (length xs))).
  2:{ intros i Hi. apply in_seq in Hi. apply is_missing_nth_map_Some. lia. }
  rewrite app_nil_r.
  rewrite <- (length_map Some xs) at 1. rewrite take_seq, dropna_map_Some.
  rewrite <- (map_id (argsort xs)) at 2.
  apply map_ext_in. intros j Hj. apply argsort_lt in Hj.
  rewrite seq_nth by exact Hj. reflexivity.
Qed.

Lemma nargsort_descending (xs : list scalar) :
  nargsort argsort (map Some xs) false =
  rev (map (fun j => length xs - S j) (argsort (rev xs))).
Proof.
  unfold nargsort. rewrite length_map.
  rewrite (filter_all _ (seq 0 (length xs))).
  2:{ intros i Hi. apply in_seq in Hi.
      rewrite is_missing_nth_map_Some by lia. reflexivity. }
  rewrite (filter_none _ (seq 0 (length xs))).
  2:{ intros i Hi. apply in_seq in Hi. apply is_missing_nth_map_Some. lia. }
  rewrite app_nil_r. rewrite take_rev.
  rewrite <- (length_map Some xs) at 1. rewrite take_seq.
  rewrite dropna_rev, dropna_map_Some.
  f_equal. apply map_ext_in. intros j Hj. apply argsort_lt in Hj.
  rewrite length_rev in Hj.
  rewrite rev_nth by (rewrite length_seq; exact Hj).
  rewrite length_seq. rewrite seq_nth by lia. reflexivity.
Qed.

Lemma nargsort_perm (xs : list scalar) (asc : bool) :
  Permutation (nargsort argsort (map Some xs) asc) (seq 0 (length xs)).
Proof.
  destruct asc.
  - rewrite nargsort_ascending. apply argsort_ok.
  - rewrite nargsort_descending.
    eapply perm_trans; [apply Permutation_sym, Permutation_rev |].
    destruct (argsort_ok (rev xs)) as [Hp _]. rewrite length_rev in Hp.
    eapply perm_trans; [apply Permutation_map; exact Hp |].
    assert (E : map (fun j => length xs - S j) (seq 0 (length xs))
                = rev (seq 0 (length xs))).
    { rewrite <- (map_nth_seq (rev (seq 0 (length xs))) 0) at 1.
      rewrite length_rev, length_seq.
      apply map_ext_in. intros j Hj. apply in_seq in Hj.
      rewrite rev_nth by (rewrite length_seq; lia).
      rewrite length_seq, seq_nth by lia. reflexivity. }
    rewrite E. apply Permutation_sym, Permutation_rev.
Qed.

Lemma nargsort_sorted_ascending (xs : list scalar) :
  Sorted scalar_le (map (pick xs) (nargsort argsort (map Some xs) true)).
Proof. rewrite nargsort_ascending. apply argsort_ok. Qed.

Lemma nargsort_sorted_descending (xs : list scalar) :
  Sorted (fun a b => scalar_le b a)
    (map (pick xs) (nargsort argsort (map Some xs) false)).
Proof.
  rewrite nargsort_descending, map_rev.
  apply (Sorted_rev scalar_le). rewrite map_map.
  destruct (argsort_ok (rev xs)) as [_ Hs].
  assert (E : map (fun j => pick xs (length xs - S j)) (argsort (rev xs))
              = map (pick (rev xs)) (argsort (rev xs))).
  { apply map_ext_in. intros j Hj. apply argsort_lt in Hj.
    rewrite length_rev in Hj. unfold pick.
    rewrite rev_nth by exact Hj. reflexivity. }
  rewrite E. exact Hs.
Qed.

Lemma nargsort_lt (xs : list scalar) (asc : bool) (i : nat) :
  In i (nargsort argsort (map Some xs) asc) -> i < length xs.
Proof.
  intros H. apply (Permutation_in _ (nargsort_perm xs asc)) in H.
  apply in_seq in H. lia.
Qed.

End Nargsort.
(* ================================================================== *)
(** ** Grouped sums *)















Lemma groupby_sum_pairs (fp : float64) (df : DataFrame) (c : string)
  (k v : Series) :
  getitem df c = Ok k -> getitem df "valor_venda" = Ok v ->
  groupby_sum fp df c = Ok (frame_of_pairs c (key_sum_pairs fp k v)).
Proof.
  intros Hk Hv. unfold groupby_sum, frame_of_pairs, key_sum_pairs.
  rewrite Hk, Hv. simpl. rewrite !map_map. reflexivity.
Qed.

Lemma take_map {A : Type} (g : A -> option scalar) (l : list A) (d : A)
  (idx : list nat) :
  (forall i, In i idx -> i < length l) ->
  take idx (map g l) = map g (map (fun i => nth i l d) idx).
Proof.
  intros H. unfold take. rewrite map_map. apply map_ext_in.
  intros i Hi. apply nth_map_lt. apply H. exact Hi.
Qed.

Lemma take_frame_of_pairs (c : string) (l : list (scalar * Q)) (idx : list nat) :
  (forall i, In i idx -> i < length l) ->
  take_rows idx (frame_of_pairs c l) =
  frame_of_pairs c (map (fun i => nth i l (Num 0, 0%Q)) idx).
Proof.
  intros H. unfold take_rows, frame_of_pairs. simpl.
  rewrite (take_map (fun p => Some (fst p)) l (Num 0, 0%Q) idx H).
  rewrite (take_map (fun p => Some (Num (snd p))) l (Num 0, 0%Q) idx H).
  reflexivity.
Qed.

Lemma head_frame_of_pairs (n : nat) (c : string) (l : list (scalar * Q)) :
  head n (frame_of_pairs c l) = frame_of_pairs c (firstn n l).
Proof. unfold head, frame_of_pairs. simpl. rewrite !firstn_map. reflexivity. Qed.

Lemma perm_of_positions {A : Type} (l : list A) (d : A) (idx : list nat) :
  Permutation idx (seq 0 (length l)) ->
  Permutation (map (fun i => nth i l d) idx) l.
Proof.
  intros H. eapply perm_trans; [apply Permutation_map; exact H |].
  rewrite map_nth_seq. apply Permutation_refl.
Qed.

Lemma pick_sums (l : list (scalar * Q)) (i : nat) :
  pick (map (fun p => Num (snd p)) l) i = Num (snd (nth i l (Num 0, 0%Q))).
Proof.
  unfold pick. exact (map_nth (fun p => Num (snd p)) l (Num 0, 0%Q) i).
Qed.

Section GroupedTables.

Variable argsort : list scalar -> list nat.
Hypothesis argsort_ok : argsort_spec argsort.

Lemma sort_by_key (c : string) (l : list (scalar * Q)) :
  exists l', sort_values argsort (frame_of_pairs c l) c true
             = Ok (frame_of_pairs c l') /\
             Permutation l' l /\
             Sorted (fun a b => scalar_le (fst a) (fst b)) l'.
Proof.
  unfold sort_values. simpl getitem. rewrite String.eqb_refl. simpl bind.
  rewrite <- (map_map fst Some l).
  set (idx := nargsort argsort (map Some (map fst l)) true).
  assert (Hp : Permutation idx (seq 0 (length l))).
  { unfold idx. rewrite <- (length_map fst l). apply nargsort_perm, argsort_ok. }
  assert (Hlt : forall i, In i idx -> i < length l).
  { intros i Hi. apply (Permutation_in _ Hp) in Hi. apply in_seq in Hi. lia. }
  exists (map (fun i => nth i l (Num 0, 0%Q)) idx). split; [| split].
  - rewrite (map_map fst Some l). f_equal. apply take_frame_of_pairs, Hlt.
  - apply perm_of_positions, Hp.
  - apply (Sorted_map scalar_le fst). rewrite map_map.
    pose proof (nargsort_sorted_ascending argsort argsort_ok (map fst l)) as Hs.
    fold idx in Hs.
    assert (E : map (pick (map fst l)) idx
                = map (fun i => fst (nth i l (Num 0, 0%Q))) idx).
    { apply map_ext. intros i. unfold pick.
      apply (map_nth fst l (Num 0, 0%Q) i). }
    rewrite <- E. exact Hs.
Qed.

Lemma sort_by_value (c : string) (l : list (scalar * Q)) :
  String.eqb c "valor_venda" = false ->
  exists l', sort_values argsort (frame_of_pairs c l) "valor_venda" false
             = Ok (frame_of_pairs c l') /\
             Permutation l' l /\
             descending (map snd l').
Proof.
  intros Hc. unfold sort_values. simpl getitem. rewrite Hc. simpl bind.
  rewrite <- (map_map (fun p => Num (snd p)) Some l).
  set (xs := map (fun p : scalar * Q => Num (snd p)) l).
  set (idx := nargsort argsort (map Some xs) false).
  assert (Hn : length xs = length l) by (unfold xs; apply length_map).
  assert (Hp : Permutation idx (seq 0 (length l))).
  { unfold idx. rewrite <- Hn. apply nargsort_perm, argsort_ok. }
  assert (Hlt : forall i, In i idx -> i < length l).
  { intros i Hi. apply (Permutation_in _ Hp) in Hi. apply in_seq in Hi. lia. }
  exists (map (fun i => nth i l (Num 0, 0%Q)) idx). split; [| split].
  - unfold xs. rewrite (map_map (fun p => Num (snd p)) Some l).
    f_equal. apply take_frame_of_pairs, Hlt.
  - apply perm_of_positions, Hp.
  - unfold descending. apply (Sorted_map (fun a b : Q => (b <= a)%Q) snd).
    pose proof (nargsort_sorted_descending argsort argsort_ok xs) as Hs.
    fold idx in Hs. apply Sorted_map in Hs. apply Sorted_map.
    revert Hs. apply Sorted_impl. intros i j Hij.
    unfold xs in Hij. rewrite !pick_sums in Hij.
    unfold scalar_le in Hij. simpl in Hij. apply Qle_bool_iff. exact Hij.
Qed.

End GroupedTables.
(* ================================================================== *)
(** ** The filtered frame and the KPIs *)

Lemma df_filtrado_inv (df : DataFrame) (sel : selections) (f : DataFrame) :
  rectangular df -> df_filtrado df sel = Ok f ->
  df <> [] /\
  f = take_rows (filter (fun i => qualifies sel (row df i)) (seq 0 (nrows df))) df.
Proof.
  intros Hr H. unfold df_filtrado in H.
  apply bind_Ok_inv in H. destruct H as (m & Hm & H).
  inversion H; subst f; clear H. unfold copy, getitem_mask.
  split; [exact (filter_mask_not_nil df sel m Hm) |].
  destruct (filter_mask_spec df sel m Hr Hm) as [Hlen Hnth].
  unfold where_true.
  rewrite (where_from_filter (fun i => qualifies sel (row df i)) m 0)
    by (intros i _; apply Hnth).
  rewrite Hlen. reflexivity.
Qed.

Lemma rectangular_take_rows (idx : list nat) (df : DataFrame) :
  rectangular (take_rows idx df).
Proof.
  unfold rectangular. destruct df as [| [c s] df]; [constructor |].
  simpl. unfold take. rewrite length_map.
  constructor; [simpl; apply length_map |].
  unfold take_rows. rewrite Forall_map. apply Forall_forall.
  intros [c' s'] _. simpl. apply length_map.
Qed.

Lemma df_filtrado_rectangular (df : DataFrame) (sel : selections) (f : DataFrame) :
  rectangular df -> df_filtrado df sel = Ok f -> rectangular f.
Proof.
  intros Hr H. destruct (df_filtrado_inv df sel f Hr H) as [_ ->].
  apply rectangular_take_rows.
Qed.

Lemma df_filtrado_getitem (df : DataFrame) (sel : selections) (f : DataFrame)
  (c : string) :
  rectangular df -> df_filtrado df sel = Ok f ->
  getitem f c =
  s <- getitem df c ;;
  Ok (take (filter (fun i => qualifies sel (row df i)) (seq 0 (nrows df))) s).
Proof.
  intros Hr H. destruct (df_filtrado_inv df sel f Hr H) as [_ ->].
  apply getitem_take_rows.
Qed.

Lemma Forall_take (P : value -> Prop) (idx : list nat) (s : Series) :
  (forall i, In i idx -> P (nth i s None)) -> Forall P (take idx s).
Proof.
  intros H. unfold take. rewrite Forall_map. apply Forall_forall. exact H.
Qed.

Lemma isin_cell_present (vals : list scalar) (v : value) :
  isin_cell vals v = true -> v <> None.
Proof. destruct v; [discriminate | discriminate]. Qed.

(** In the filtered frame no cell of the four filtered columns is missing. *)
Lemma df_filtrado_present (df : DataFrame) (sel : selections) (f : DataFrame)
  (c : string) (s : Series) :
  rectangular df -> df_filtrado df sel = Ok f ->
  c = "ano" \/ c = "vendedor" \/ c = "tipo_solucao" \/ c = "cliente" ->
  getitem f c = Ok s -> Forall (fun v => v <> None) s.
Proof.
  intros Hr H Hc Hs. rewrite (df_filtrado_getitem df sel f c Hr H) in Hs.
  apply bind_Ok_inv in Hs. destruct Hs as (s0 & Hs0 & Hs).
  inversion Hs; subst s; clear Hs. apply Forall_take.
  intros i Hi. apply filter_In in Hi. destruct Hi as [_ Hq].
  apply qualifies_true in Hq. destruct Hq as (Ha & Hv & Ht & Hcl).
  rewrite !cell_row in Ha, Hv, Ht, Hcl.
  destruct Hc as [-> | [-> | [-> | ->]]]; rewrite Hs0 in *;
    eapply isin_cell_present; eassumption.
Qed.

Lemma kpis_inv (fp : float64) (f f' : DataFrame) (k : KPIs) :
  kpis fp f = Ok (k, f') ->
  exists vv nf dv,
    getitem f "valor_venda" = Ok vv /\
    getitem f "data_nf" = Ok nf /\
    getitem f "data_venda" = Ok dv /\
    f' = setitem f "lead_time_dias" (days_between nf dv) /\
    k = {| total_vendas := series_sum fp vv;
           qtd_vendas := nrows f;
           ticket_medio := if Nat.ltb 0 (nrows f)
                           then fdiv fp (series_sum fp vv)
                                  (inject_Z (Z.of_nat (nrows f)))
                           else 0%Q;
           ciclo_medio := mean fp (days_between nf dv) |}.
Proof.
  unfold kpis. intros H.
  apply bind_Ok_inv in H. destruct H as (vv & Hvv & H).
  apply bind_Ok_inv in H. destruct H as (nf & Hnf & H).
  apply bind_Ok_inv in H. destruct H as (dv & Hdv & H).
  rewrite getitem_setitem_same in H. simpl in H. inversion H.
  exists vv, nf, dv. auto 10.
Qed.


Lemma columns_take_rows (idx : list nat) (df : DataFrame) :
  columns (take_rows idx df) = columns df.
Proof. unfold columns, take_rows. rewrite map_map. reflexivity. Qed.

Lemma kpis_getitem (fp : float64) (f f' : DataFrame) (k : KPIs) (c : string) :
  kpis fp f = Ok (k, f') -> String.eqb "lead_time_dias" c = false ->
  getitem f' c = getitem f c.
Proof.
  intros H Hc. destruct (kpis_inv fp f f' k H) as (vv & nf & dv & _ & _ & _ & -> & _).
  apply getitem_setitem_other. exact Hc.
Qed.

Lemma length_days_between (a b : Series) :
  length (days_between a b) = Nat.min (length a) (length b).
Proof.
  revert b. induction a as [| x a IH]; intros [| y b]; simpl; auto.
Qed.

Lemma kpis_nrows (fp : float64) (f f' : DataFrame) (k : KPIs) :
  rectangular f -> kpis fp f = Ok (k, f') -> nrows f' = nrows f.
Proof.
  intros Hr H.
  destruct (kpis_inv fp f f' k H) as (vv & nf & dv & Hvv & Hnf & Hdv & -> & _).
  apply nrows_setitem.
  - intros E. rewrite E in Hvv. discriminate Hvv.
  - rewrite length_days_between, (getitem_length f _ nf Hr Hnf),
      (getitem_length f _ dv Hr Hdv). apply Nat.min_id.
Qed.

(** C4.  On a dataset that has the four filtered columns the filter
    returns a frame whose rows are exactly the rows of the dataset, in
    order, whose cell in each of the four columns is selected by the
    corresponding list; an empty list leaves no row, and a row with a
    missing cell in a filtered column is never kept. *)
Theorem df_filtrado_membership (df : DataFrame) (sel : selections) :
  rectangular df ->
  In "ano" (columns df) -> In "vendedor" (columns df) ->
  In "tipo_solucao" (columns df) -> In "cliente" (columns df) ->
  exists f,
    df_filtrado df sel = Ok f /\
    rows f = filter (qualifies sel) (rows df) /\
    (forall r, In r (rows f) <->
               In r (rows df) /\
               selected (ano_selecionado sel) (cell r "ano") /\
               selected (vendedor_selecionado sel) (cell r "vendedor") /\
               selected (tipo_selecionado sel) (cell r "tipo_solucao") /\
               selected (cliente_selecionado sel) (cell r "cliente")) /\
    (ano_selecionado sel = [] \/ vendedor_selecionado sel = [] \/
     tipo_selecionado sel = [] \/ cliente_selecionado sel = [] ->
     rows f = [] /\ nrows f = 0) /\
    (forall r, cell r "ano" = None \/ cell r "vendedor" = None \/
               cell r "tipo_solucao" = None \/ cell r "cliente" = None ->
               ~ In r (rows f)).
Proof.
  intros Hr Ha Hv Ht Hc.
  destruct (df_filtrado_Ok df sel Ha Hv Ht Hc) as [f Hf].
  pose proof (df_filtrado_rows df sel f Hr Hf) as Hrows.
  assert (Hiff : forall r, In r (rows f) <->
               In r (rows df) /\
               selected (ano_selecionado sel) (cell r "ano") /\
               selected (vendedor_selecionado sel) (cell r "vendedor") /\
               selected (tipo_selecionado sel) (cell r "tipo_solucao") /\
               selected (cliente_selecionado sel) (cell r "cliente")).
  { intros r. rewrite Hrows, filter_In, qualifies_true.
    unfold selected. rewrite !isin_cell_true. reflexivity. }
  exists f. split; [exact Hf |]. split; [exact Hrows |].
  split; [exact Hiff |]. split.
  - intros Hempty.
    assert (E : rows f = []).
    { rewrite Hrows. apply filter_none. intros r _.
      unfold qualifies.
      destruct Hempty as [E | [E | [E | E]]]; rewrite E;
        repeat match goal with
          | |- context [isin_cell [] ?v] =>
              replace (isin_cell [] v) with false by (destruct v; reflexivity)
          end;
        rewrite ?andb_false_r; reflexivity. }
    split; [exact E |]. rewrite <- nrows_length_rows, E. reflexivity.
  - intros r Hmiss Hin. apply Hiff in Hin.
    destruct Hin as (_ & (x1 & y1 & E1 & _) & (x2 & y2 & E2 & _)
                     & (x3 & y3 & E3 & _) & (x4 & y4 & E4 & _)).
    destruct Hmiss as [E | [E | [E | E]]]; congruence.
Qed.

(** C8.  Widening the four selections never removes a row: if each list
    of the first selection is included in the corresponding list of the
    second, the first filtered frame has at most as many rows as the
    second. *)
Theorem df_filtrado_monotone (df : DataFrame) (s1 s2 : selections)
  (f1 f2 : DataFrame) :
  rectangular df ->
  df_filtrado df s1 = Ok f1 -> df_filtrado df s2 = Ok f2 ->
  incl (ano_selecionado s1) (ano_selecionado s2) ->
  incl (vendedor_selecionado s1) (vendedor_selecionado s2) ->
  incl (tipo_selecionado s1) (tipo_selecionado s2) ->
  incl (cliente_selecionado s1) (cliente_selecionado s2) ->
  nrows f1 <= nrows f2.
Proof.
  intros Hr H1 H2 Ia Iv It Ic.
  rewrite <- (nrows_length_rows f1), <- (nrows_length_rows f2).
  rewrite (df_filtrado_rows df s1 f1 Hr H1), (df_filtrado_rows df s2 f2 Hr H2).
  apply filter_length_mono. intros r _. rewrite !qualifies_true.
  intros (Ha & Hv & Ht & Hc). repeat split; eapply isin_cell_incl; eassumption.
Qed.
(* ================================================================== *)
(** ** The grouped tables *)

Section Charts.

Variable fp : float64.
Variable parse_datetime : string -> option (option Z).
Variable parse_number : string -> option Q.
Variable argsort : list scalar -> list nat.
Variable format_1f : Q -> string.
Hypothesis argsort_ok : argsort_spec argsort.

Local Abbreviation load_data := (load_data parse_datetime parse_number).
Local Abbreviation groupby_sum := (groupby_sum fp).
Local Abbreviation key_sum_pairs := (key_sum_pairs fp).
Local Abbreviation kpis := (kpis fp).
Local Abbreviation df_mes := (df_mes fp argsort).
Local Abbreviation df_tipo := (df_tipo fp argsort).
Local Abbreviation df_cliente := (df_cliente fp argsort).
Local Abbreviation df_vendedor := (df_vendedor fp argsort).

Lemma table_by_key (dff : DataFrame) (c : string) (k v : Series) :
  getitem dff c = Ok k -> getitem dff "valor_venda" = Ok v ->
  exists l, (g <- groupby_sum dff c ;; sort_values argsort g c true)
            = Ok (frame_of_pairs c l) /\
            Permutation l (key_sum_pairs k v) /\
            Sorted (fun a b => scalar_le (fst a) (fst b)) l.
Proof.
  intros Hk Hv. rewrite (groupby_sum_pairs fp dff c k v Hk Hv). simpl.
  apply sort_by_key. exact argsort_ok.
Qed.

Lemma table_by_value (dff : DataFrame) (c : string) (k v : Series) :
  String.eqb c "valor_venda" = false ->
  getitem dff c = Ok k -> getitem dff "valor_venda" = Ok v ->
  exists l, (g <- groupby_sum dff c ;; sort_values argsort g "valor_venda" false)
            = Ok (frame_of_pairs c l) /\
            Permutation l (key_sum_pairs k v) /\
            descending (map snd l).
Proof.
  intros Hc Hk Hv. rewrite (groupby_sum_pairs fp dff c k v Hk Hv). simpl.
  apply sort_by_value; [exact argsort_ok | exact Hc].
Qed.

Lemma df_mes_table (dff : DataFrame) (km v : Series) :
  empty dff = false ->
  getitem dff "ano_mes" = Ok km -> getitem dff "valor_venda" = Ok v ->
  exists m, df_mes dff = Ok (Some (frame_of_pairs "ano_mes" m)) /\
            Permutation m (key_sum_pairs km v) /\
            Sorted (fun a b => scalar_le (fst a) (fst b)) m.
Proof.
  intros He Hk Hv.
  destruct (table_by_key dff "ano_mes" km v Hk Hv) as (m & E & P & S).
  exists m. unfold df_mes. rewrite He.
  destruct (groupby_sum dff "ano_mes") as [g | e]; [| discriminate E].
  cbn [bind] in *. rewrite E. auto.
Qed.

Lemma df_tipo_table (dff : DataFrame) (kt v : Series) :
  empty dff = false ->
  getitem dff "tipo_solucao" = Ok kt -> getitem dff "valor_venda" = Ok v ->
  exists t, df_tipo dff = Ok (Some (frame_of_pairs "tipo_solucao" t)) /\
            Permutation t (key_sum_pairs kt v) /\ descending (map snd t).
Proof.
  intros He Hk Hv.
  destruct (table_by_value dff "tipo_solucao" kt v eq_refl Hk Hv)
    as (t & E & P & S).
  exists t. unfold df_tipo. rewrite He.
  destruct (groupby_sum dff "tipo_solucao") as [g | e]; [| discriminate E].
  cbn [bind] in *. rewrite E. auto.
Qed.

Lemma df_vendedor_table (dff : DataFrame) (kv v : Series) :
  empty dff = false ->
  getitem dff "vendedor" = Ok kv -> getitem dff "valor_venda" = Ok v ->
  exists w, df_vendedor dff = Ok (Some (frame_of_pairs "vendedor" w)) /\
            Permutation w (key_sum_pairs kv v) /\ descending (map snd w).
Proof.
  intros He Hk Hv.
  destruct (table_by_value dff "vendedor" kv v eq_refl Hk Hv)
    as (w & E & P & S).
  exists w. unfold df_vendedor. rewrite He.
  destruct (groupby_sum dff "vendedor") as [g | e]; [| discriminate E].
  cbn [bind] in *. rewrite E. auto.
Qed.

Lemma df_cliente_table (dff : DataFrame) (kc v : Series) :
  empty dff = false ->
  getitem dff "cliente" = Ok kc -> getitem dff "valor_venda" = Ok v ->
  exists c, df_cliente dff = Ok (Some (frame_of_pairs "cliente" (firstn 10 c))) /\
            Permutation c (key_sum_pairs kc v) /\ descending (map snd c).
Proof.
  intros He Hk Hv.
  destruct (table_by_value dff "cliente" kc v eq_refl Hk Hv)
    as (c & E & P & S).
  exists c. unfold df_cliente. rewrite He.
  destruct (groupby_sum dff "cliente") as [g | e]; [| discriminate E].
  cbn [bind] in *. rewrite E. cbn [bind]. rewrite head_frame_of_pairs. auto.
Qed.

(** C6 (amended).  For a non-empty frame, each grouped table lists every
    group once with its sum; the month table is in ascending order of the
    key; the solution-type, customer and salesperson tables are in
    descending order of the sum; the customer table is the first 10 rows of
    its sorted list.  The order of groups with equal sums is that of the
    default sort of [sort_values], numpy's quicksort, which is not
    stable. *)
Theorem grouped_tables_sorted (dff : DataFrame) (km kt kc kv v : Series) :
  empty dff = false ->
  getitem dff "ano_mes" = Ok km -> getitem dff "tipo_solucao" = Ok kt ->
  getitem dff "cliente" = Ok kc -> getitem dff "vendedor" = Ok kv ->
  getitem dff "valor_venda" = Ok v ->
  exists m t c w,
    (df_mes dff = Ok (Some (frame_of_pairs "ano_mes" m)) /\
     Permutation m (key_sum_pairs km v) /\
     Sorted (fun a b => scalar_le (fst a) (fst b)) m) /\
    (df_tipo dff = Ok (Some (frame_of_pairs "tipo_solucao" t)) /\
     Permutation t (key_sum_pairs kt v) /\ descending (map snd t)) /\
    (df_cliente dff = Ok (Some (frame_of_pairs "cliente" (firstn 10 c))) /\
     Permutation c (key_sum_pairs kc v) /\ descending (map snd c) /\
     descending (map snd (firstn 10 c)) /\ length (firstn 10 c) <= 10) /\
    (df_vendedor dff = Ok (Some (frame_of_pairs "vendedor" w)) /\
     Permutation w (key_sum_pairs kv v) /\ descending (map snd w)).
Proof.
  intros He Hm Ht Hc Hw Hv.
  destruct (df_mes_table dff km v He Hm Hv) as (m & Em & Pm & Sm).
  destruct (df_tipo_table dff kt v He Ht Hv) as (t & Et & Pt & St).
  destruct (df_cliente_table dff kc v He Hc Hv) as (c & Ec & Pc & Sc).
  destruct (df_vendedor_table dff kv v He Hw Hv) as (w & Ew & Pw & Sw).
  exists m, t, c, w.
  split; [auto |]. split; [auto |]. split; [| auto].
  split; [exact Ec |]. split; [exact Pc |]. split; [exact Sc |]. split.
  - unfold descending in *. rewrite <- firstn_map.
    apply Sorted_firstn. exact Sc.
  - rewrite length_firstn. apply Nat.le_min_l.
Qed.

(** The columns of a filtered, loaded dataset that the tables group by hold
    no missing cell, and all columns have one length. *)
Lemma pipeline_columns (wb df : DataFrame) (sel : selections) (f : DataFrame) :
  rectangular wb -> load_data wb = Ok df -> df_filtrado df sel = Ok f ->
  exists km kt kc kv v dv nf,
    getitem f "ano_mes" = Ok km /\ getitem f "tipo_solucao" = Ok kt /\
    getitem f "cliente" = Ok kc /\ getitem f "vendedor" = Ok kv /\
    getitem f "valor_venda" = Ok v /\
    getitem f "data_venda" = Ok dv /\ getitem f "data_nf" = Ok nf /\
    Forall (fun x => x <> None) km /\ Forall (fun x => x <> None) kt /\
    Forall (fun x => x <> None) kc /\ Forall (fun x => x <> None) kv /\
    length km = nrows f /\ length kt = nrows f /\ length kc = nrows f /\
    length kv = nrows f /\ length v = nrows f /\
    length dv = nrows f /\ length nf = nrows f.
Proof.
  intros Hr Hl Hf.
  destruct (load_data_rectangular _ _ wb df Hr Hl) as [Hrd Hn].
  pose proof (df_filtrado_rectangular df sel f Hrd Hf) as Hrf.
  destruct (load_data_inv _ _ wb df Hl)
    as (dv0 & nf0 & vv0 & dv' & nf' & _ & _ & _ & _ & _ & Edf).
  destruct (loaded_columns (rename wb column_names) dv' nf'
              (to_numeric parse_number vv0))
    as (Cdv & Cnf & Cvv & _ & _ & Cam).
  rewrite <- Edf in Cdv, Cnf, Cvv, Cam.
  pose proof (df_filtrado_getitem df sel f) as G.
  assert (Hcols : exists a kv kt kc,
             getitem df "ano" = Ok a /\ getitem df "vendedor" = Ok kv /\
             getitem df "tipo_solucao" = Ok kt /\ getitem df "cliente" = Ok kc).
  { unfold df_filtrado, filter_mask in Hf.
    destruct (getitem df "ano") as [a |]; [| discriminate Hf].
    destruct (getitem df "vendedor") as [kv |]; [| discriminate Hf].
    destruct (getitem df "tipo_solucao") as [kt |]; [| discriminate Hf].
    destruct (getitem df "cliente") as [kc |]; [| discriminate Hf].
    eauto 10. }
  destruct Hcols as (a & kv0 & kt0 & kc0 & Ca & Ckv & Ckt & Ckc).
  set (idx := filter (fun i => qualifies sel (row df i)) (seq 0 (nrows df))) in *.
  assert (Gm := G "ano_mes" Hrd Hf). rewrite Cam in Gm. simpl in Gm.
  assert (Gt := G "tipo_solucao" Hrd Hf). rewrite Ckt in Gt. simpl in Gt.
  assert (Gc := G "cliente" Hrd Hf). rewrite Ckc in Gc. simpl in Gc.
  assert (Gv := G "vendedor" Hrd Hf). rewrite Ckv in Gv. simpl in Gv.
  assert (Gvv := G "valor_venda" Hrd Hf). rewrite Cvv in Gvv. simpl in Gvv.
  assert (Gdv := G "data_venda" Hrd Hf). rewrite Cdv in Gdv. simpl in Gdv.
  assert (Gnf := G "data_nf" Hrd Hf). rewrite Cnf in Gnf. simpl in Gnf.
  exists (take idx (dt_to_period_M_astype_str dv')), (take idx kt0),
    (take idx kc0), (take idx kv0), (take idx (to_numeric parse_number vv0)),
    (take idx dv'), (take idx nf').
  repeat (split; [assumption |]).
  assert (Hp : forall c s,
             c = "ano" \/ c = "vendedor" \/ c = "tipo_solucao" \/ c = "cliente" ->
             getitem f c = Ok s -> Forall (fun v => v <> None) s)
    by (intros c s; apply (df_filtrado_present df sel f c s Hrd Hf)).
  repeat split;
    try (eapply (getitem_length f _ _ Hrf); eassumption);
    try (eapply Hp; [| eassumption]; auto; fail).
  apply Forall_take. intros i Hi. apply filter_In in Hi. destruct Hi as [Hi _].
  apply in_seq in Hi.
  assert (Hlen : length dv' = nrows df) by (apply (getitem_length df _ _ Hrd Cdv)).
  rewrite nth_dt_to_period by lia.
  destruct (nth i dv' None) as [[s | q | t] |]; discriminate.
Qed.


(** C5.  When the filtered subset of a loaded dataset has no row, the KPIs
    are computed without fault: the total is 0, the count is 0,
    [ticket_medio] is the integer 0 of the [else] branch, [ciclo_medio] is
    NaN (the mean of no value) and its card shows "-". *)
Theorem kpis_empty_subset (wb df : DataFrame) (sel : selections) (f : DataFrame) :
  rectangular wb -> load_data wb = Ok df -> df_filtrado df sel = Ok f ->
  nrows f = 0 ->
  exists f',
    kpis f = Ok ({| total_vendas := 0; qtd_vendas := 0;
                    ticket_medio := 0; ciclo_medio := None |}, f') /\
    ciclo_card format_1f None = "-".
Proof.
  intros Hr Hl Hf Hz.
  destruct (pipeline_columns wb df sel f Hr Hl Hf)
    as (km & kt & kc & kv & v & dv & nf & _ & _ & _ & _ & Gvv & Gdv & Gnf & _
        & _ & _ & _ & _ & _ & _ & _ & Lvv & Ldv & Lnf).
  rewrite Hz in Lvv, Ldv, Lnf.
  apply length_zero_iff_nil in Lvv, Ldv, Lnf. subst v dv nf.
  unfold kpis. rewrite Gvv, Gnf, Gdv. simpl.
  rewrite getitem_setitem_same. simpl. rewrite Hz. simpl.
  eexists. split; reflexivity.
Qed.

End Charts.
(* ================================================================== *)
(** ** Frame objects *)

Lemma nth_snoc (s : store) (d : DataFrame) : nth (length s) (s ++ [d]) [] = d.
Proof. rewrite app_nth2, Nat.sub_diag by lia. reflexivity. Qed.

Lemma set_nth_snoc (s : store) (d d' : DataFrame) :
  set_nth (length s) d' (s ++ [d]) = s ++ [d'].
Proof. induction s as [| x s IH]; simpl; [reflexivity | rewrite IH; reflexivity]. Qed.

Lemma length_set_nth (l : nat) (d : DataFrame) (s : store) :
  length (set_nth l d s) = length s.
Proof.
  revert l. induction s as [| x s IH]; intros [| l]; simpl; auto.
Qed.

Lemma firstn_set_nth (n l : nat) (d : DataFrame) (s : store) :
  n <= l -> firstn n (set_nth l d s) = firstn n s.
Proof.
  revert n l. induction s as [| x s IH]; intros [| n] [| l] H; simpl;
    try reflexivity; try lia.
  rewrite IH by lia. reflexivity.
Qed.

Lemma bindM_Ok_inv {A B : Type} (m : M A) (k : A -> M B) (s s' : store) (b : B) :
  bindM m k s = (Ok b, s') ->
  exists a s1, m s = (Ok a, s1) /\ k a s1 = (Ok b, s').
Proof.
  unfold bindM. destruct (m s) as [[a | e] s1]; intros H.
  - exists a, s1. auto.
  - discriminate H.
Qed.

Lemma read_inv (l : loc) (s s' : store) (d : DataFrame) :
  read l s = (Ok d, s') -> s' = s /\ d = nth l s [].
Proof. unfold read. intros H. inversion H. auto. Qed.

Lemma lift_inv {A : Type} (r : result A) (s s' : store) (a : A) :
  lift r s = (Ok a, s') -> s' = s /\ r = Ok a.
Proof. unfold lift. intros H. inversion H. auto. Qed.

Lemma new_inv (d : DataFrame) (s s' : store) (l : loc) :
  new d s = (Ok l, s') -> l = length s /\ s' = s ++ [d].
Proof. unfold new. intros H. inversion H. auto. Qed.

Lemma update_inv {A : Type} (l : loc) (g : DataFrame -> result (A * DataFrame))
  (s s' : store) (a : A) :
  update l g s = (Ok a, s') ->
  exists d', g (nth l s []) = Ok (a, d') /\ s' = set_nth l d' s.
Proof.
  unfold update. destruct (g (nth l s [])) as [[a' d'] | e]; intros H.
  - inversion H. subst. exists d'. auto.
  - discriminate H.
Qed.

Lemma preserves_ret {A : Type} (n : nat) (a : A) (Q : A -> Prop) :
  Q a -> preserves n (ret a) Q.
Proof. intros H s Hn. simpl. auto. Qed.

Lemma preserves_lift {A : Type} (n : nat) (r : result A) :
  preserves n (lift r) (fun _ => True).
Proof. intros s Hn. simpl. destruct r; auto. Qed.

Lemma preserves_read (n : nat) (l : loc) :
  preserves n (read l) (fun _ => True).
Proof. intros s Hn. simpl. auto. Qed.

Lemma preserves_new (n : nat) (d : DataFrame) :
  preserves n (new d) (fun l => n <= l).
Proof.
  intros s Hn. simpl. rewrite firstn_app.
  replace (n - length s) with 0 by lia. simpl. rewrite app_nil_r.
  rewrite length_app. simpl. repeat split; lia.
Qed.

Lemma preserves_update {A : Type} (n : nat) (l : loc)
  (g : DataFrame -> result (A * DataFrame)) :
  n <= l -> preserves n (update l g) (fun _ => True).
Proof.
  intros Hl s Hn. unfold update.
  destruct (g (nth l s [])) as [[a d'] | e]; simpl.
  - rewrite firstn_set_nth by exact Hl. rewrite length_set_nth. auto.
  - auto.
Qed.

Lemma preserves_bind {A B : Type} (n : nat) (m : M A) (k : A -> M B)
  (Q : A -> Prop) (R : B -> Prop) :
  preserves n m Q -> (forall a, Q a -> preserves n (k a) R) ->
  preserves n (bindM m k) R.
Proof.
  intros Hm Hk s Hn. unfold bindM.
  destruct (Hm s Hn) as (H1 & H2 & H3).
  destruct (m s) as [[a | e] s1]; simpl in *.
  - destruct (Hk a H3 s1 H2) as (K1 & K2 & K3).
    rewrite K1, H1. auto.
  - auto.
Qed.

Section Script.

Variable fp : float64.
Variable argsort : list scalar -> list nat.
Variable multiselect : string -> list scalar -> list scalar -> list scalar.
Variable format_1f : Q -> string.

Local Abbreviation sidebar_filter := (sidebar_filter multiselect).
Local Abbreviation render := (render fp argsort multiselect format_1f).
Local Abbreviation kpis := (kpis fp).

Lemma preserves_sidebar_filter (n : nat) (df : loc) (label c : string) :
  preserves n (sidebar_filter df label c) (fun _ => True).
Proof.
  unfold sidebar_filter.
  eapply preserves_bind; [apply preserves_read | intros d _].
  eapply preserves_bind; [apply preserves_lift | intros opts _].
  apply preserves_ret. exact I.
Qed.

Lemma preserves_read_lift {A : Type} (n : nat) (l : loc)
  (g : DataFrame -> result A) (k : A -> M Dashboard) :
  (forall a, preserves n (k a) (fun _ => True)) ->
  preserves n (d <~ read l ;; a <~ lift (g d) ;; k a) (fun _ => True).
Proof.
  intros Hk.
  eapply preserves_bind; [apply preserves_read | intros d _].
  eapply preserves_bind; [apply preserves_lift | intros a _]. apply Hk.
Qed.

Lemma preserves_render (n : nat) (df : loc) :
  preserves n (render df) (fun _ => True).
Proof.
  unfold render.
  eapply preserves_bind; [apply preserves_sidebar_filter | intros anos _].
  eapply preserves_bind; [apply preserves_sidebar_filter | intros vs _].
  eapply preserves_bind; [apply preserves_sidebar_filter | intros ts _].
  eapply preserves_bind; [apply preserves_sidebar_filter | intros cs _].
  eapply preserves_bind; [apply preserves_read | intros d _].
  eapply preserves_bind; [apply preserves_lift | intros f _].
  eapply preserves_bind; [apply preserves_new | intros filtrado Hl].
  eapply preserves_bind; [apply preserves_update; exact Hl | intros k _].
  apply preserves_read_lift. intros mes.
  apply preserves_read_lift. intros tipo.
  apply preserves_read_lift. intros cliente.
  apply preserves_read_lift. intros vendedor.
  apply preserves_read_lift. intros t.
  apply preserves_ret. exact I.
Qed.

Lemma sidebar_filter_inv (df : loc) (label c : string) (s s' : store)
  (sel : list scalar) :
  sidebar_filter df label c s = (Ok sel, s') ->
  s' = s /\ exists opts, options (nth df s []) c = Ok opts /\
                         sel = multiselect label opts opts.
Proof.
  unfold sidebar_filter. intros H.
  apply bindM_Ok_inv in H. destruct H as (d & s1 & H1 & H).
  apply read_inv in H1. destruct H1 as [-> ->].
  apply bindM_Ok_inv in H. destruct H as (opts & s2 & H2 & H).
  apply lift_inv in H2. destruct H2 as [-> H2].
  unfold ret in H. inversion H; subst. split; [reflexivity |].
  exists opts. split; [exact H2 | reflexivity].
Qed.

Lemma read_lift_inv {A B : Type} (l : loc) (g : DataFrame -> result A)
  (k : A -> M B) (s s' : store) (b : B) :
  (d <~ read l ;; a <~ lift (g d) ;; k a) s = (Ok b, s') ->
  exists a, g (nth l s []) = Ok a /\ k a s = (Ok b, s').
Proof.
  intros H.
  apply bindM_Ok_inv in H. destruct H as (d & s1 & H1 & H).
  apply read_inv in H1. destruct H1 as [-> ->].
  apply bindM_Ok_inv in H. destruct H as (a & s2 & H2 & H).
  apply lift_inv in H2. destruct H2 as [-> H2]. exists a. auto.
Qed.

(** What a successful run of the script computed, stage by stage. *)
Lemma render_run (df : loc) (s s' : store) (dash : Dashboard) :
  render df s = (Ok dash, s') ->
  exists anos vs ts cs f f',
    options (nth df s []) "ano" = Ok anos /\
    options (nth df s []) "vendedor" = Ok vs /\
    options (nth df s []) "tipo_solucao" = Ok ts /\
    options (nth df s []) "cliente" = Ok cs /\
    df_filtrado (nth df s [])
      {| ano_selecionado := multiselect "Ano da Venda" anos anos;
         vendedor_selecionado := multiselect "Responsável" vs vs;
         tipo_selecionado := multiselect "Tipo de Solução" ts ts;
         cliente_selecionado := multiselect "Cliente" cs cs |} = Ok f /\
    kpis f = Ok (cards dash, f') /\
    s' = s ++ [f'] /\
    card_ciclo dash = ciclo_card format_1f (ciclo_medio (cards dash)) /\
    df_mes fp argsort f' = Ok (chart_mes dash) /\
    df_tipo fp argsort f' = Ok (chart_tipo dash) /\
    df_cliente fp argsort f' = Ok (chart_cliente dash) /\
    df_vendedor fp argsort f' = Ok (chart_vendedor dash) /\
    tabela argsort f' = Ok (detalhes dash).
Proof.
  unfold render. intros H.
  apply bindM_Ok_inv in H. destruct H as (a1 & s1 & H1 & H).
  apply sidebar_filter_inv in H1. destruct H1 as (-> & anos & Oa & ->).
  apply bindM_Ok_inv in H. destruct H as (a2 & s2 & H2 & H).
  apply sidebar_filter_inv in H2. destruct H2 as (-> & vs & Ov & ->).
  apply bindM_Ok_inv in H. destruct H as (a3 & s3 & H3 & H).
  apply sidebar_filter_inv in H3. destruct H3 as (-> & ts & Ot & ->).
  apply bindM_Ok_inv in H. destruct H as (a4 & s4 & H4 & H).
  apply sidebar_filter_inv in H4. destruct H4 as (-> & cs & Oc & ->).
  apply read_lift_inv in H. destruct H as (f & Hf & H).
  apply bindM_Ok_inv in H. destruct H as (filtrado & s5 & H5 & H).
  apply new_inv in H5. destruct H5 as [-> ->].
  apply bindM_Ok_inv in H. destruct H as (k & s6 & H6 & H).
  apply update_inv in H6. destruct H6 as (f' & Hk & ->).
  rewrite nth_snoc in Hk. rewrite set_nth_snoc in H.
  apply read_lift_inv in H. destruct H as (mes & Hmes & H).
  apply read_lift_inv in H. destruct H as (tipo & Htipo & H).
  apply read_lift_inv in H. destruct H as (cli & Hcli & H).
  apply read_lift_inv in H. destruct H as (vend & Hvend & H).
  apply read_lift_inv in H. destruct H as (t & Ht & H).
  rewrite nth_snoc in Hmes, Htipo, Hcli, Hvend, Ht.
  unfold ret in H. inversion H; subst; clear H. simpl.
  exists anos, vs, ts, cs, f, f'. auto 20.
Qed.

End Script.
(* ================================================================== *)
(** ** The whole script *)

Lemma nth_Some_In (s : Series) (i : nat) (x : scalar) :
  nth i s None = Some x -> In (Some x) s.
Proof.
  intros H. destruct (Nat.lt_ge_cases i (length s)) as [Hi | Hi].
  - rewrite <- H. apply nth_In. exact Hi.
  - rewrite nth_overflow in H by exact Hi. discriminate H.
Qed.

Lemma isin_options (df : DataFrame) (c : string) (opts : list scalar) (i : nat) :
  options df c = Ok opts ->
  isin_cell opts (cell (row df i) c) = negb (is_missing (cell (row df i) c)).
Proof.
  intros Ho. destruct (options_getitem df c opts Ho) as [s Hs].
  rewrite cell_row, Hs. destruct (nth i s None) as [x |] eqn:E; [| reflexivity].
  simpl negb. apply (options_cover df c opts s x Ho Hs).
  apply (nth_Some_In s i x E).
Qed.

Lemma qualifies_default (df : DataFrame) (anos vs ts cs : list scalar) (i : nat) :
  options df "ano" = Ok anos -> options df "vendedor" = Ok vs ->
  options df "tipo_solucao" = Ok ts -> options df "cliente" = Ok cs ->
  qualifies {| ano_selecionado := anos; vendedor_selecionado := vs;
               tipo_selecionado := ts; cliente_selecionado := cs |} (row df i)
  = all_present (row df i).
Proof.
  intros Oa Ov Ot Oc. unfold qualifies, all_present. simpl.
  rewrite (isin_options df "ano" anos i Oa),
    (isin_options df "vendedor" vs i Ov),
    (isin_options df "tipo_solucao" ts i Ot),
    (isin_options df "cliente" cs i Oc).
  reflexivity.
Qed.

Lemma all_present_true (r : list (string * value)) :
  all_present r = true ->
  cell r "ano" <> None /\ cell r "vendedor" <> None /\
  cell r "tipo_solucao" <> None /\ cell r "cliente" <> None.
Proof.
  unfold all_present. rewrite !andb_true_iff, !negb_true_iff.
  intros (((H1 & H2) & H3) & H4).
  repeat split; intros E; rewrite E in *; discriminate.
Qed.

Section Dashboard.

Variable fp : float64.
Variable parse_datetime : string -> option (option Z).
Variable parse_number : string -> option Q.
Variable argsort : list scalar -> list nat.
Variable multiselect : string -> list scalar -> list scalar -> list scalar.
Variable format_1f : Q -> string.

Local Abbreviation load_data := (load_data parse_datetime parse_number).

(** C9.  A run of the script from the sidebar to the detail table,
    whether it ends normally or raises, leaves every frame object that
    existed before it as it was, the canonical dataset among them: it only
    adds objects.  On a normal end the one object added is the filtered
    copy, and the column [lead_time_dias] was assigned to that copy. *)
Theorem render_keeps_dataset (df : loc) (s : store) :
  (exists fresh, snd (render fp argsort multiselect format_1f df s) = s ++ fresh) /\
  (df < length s ->
   nth df (snd (render fp argsort multiselect format_1f df s)) [] = nth df s []) /\
  (forall dash s',
      render fp argsort multiselect format_1f df s = (Ok dash, s') ->
      exists f f', kpis fp f = Ok (cards dash, f') /\ s' = s ++ [f'] /\
                   In "lead_time_dias" (columns f')).
Proof.
  assert (Hext : exists fresh,
             snd (render fp argsort multiselect format_1f df s) = s ++ fresh).
  { destruct (preserves_render fp argsort multiselect format_1f (length s) df s
                (le_n _)) as (H1 & _ & _).
    rewrite firstn_all in H1.
    exists (skipn (length s) (snd (render fp argsort multiselect format_1f df s))).
    rewrite <- H1 at 2. symmetry. apply firstn_skipn. }
  split; [exact Hext |]. split.
  - intros Hdf. destruct Hext as [fresh ->]. apply app_nth1. exact Hdf.
  - intros dash s' H.
    destruct (render_run fp argsort multiselect format_1f df s s' dash H)
      as (anos & vs & ts & cs & f & f' & _ & _ & _ & _ & _ & Hk & Hs & _).
    exists f, f'. split; [exact Hk |]. split; [exact Hs |].
    destruct (kpis_inv fp f f' (cards dash) Hk) as (vv & nf & dv & _ & _ & _ & -> & _).
    apply columns_setitem. left. reflexivity.
Qed.

(** C10.  On first render every multiselect returns its default, the
    sorted distinct present values of its column.  Then the filtered frame
    holds exactly the rows of the loaded dataset that have a value in all
    four filtered columns: a row with a missing cell there is dropped, in
    particular a row with a missing [data_venda], whose [ano] is missing.
    The KPIs, the four grouped tables and the detail table are computed
    from that frame alone. *)
Theorem default_filters_drop_missing (wb : DataFrame) (s s' : store)
  (dash : Dashboard) :
  rectangular wb ->
  main fp parse_datetime parse_number argsort select_default format_1f wb s
  = (Ok dash, s') ->
  exists df f f',
    load_data wb = Ok df /\
    rows f = filter all_present (rows df) /\
    (forall r, In r (rows df) -> cell r "data_venda" = None ->
               cell r "ano" = None /\ ~ In r (rows f)) /\
    (forall r, cell r "ano" = None \/ cell r "vendedor" = None \/
               cell r "tipo_solucao" = None \/ cell r "cliente" = None ->
               ~ In r (rows f)) /\
    kpis fp f = Ok (cards dash, f') /\
    df_mes fp argsort f' = Ok (chart_mes dash) /\
    df_tipo fp argsort f' = Ok (chart_tipo dash) /\
    df_cliente fp argsort f' = Ok (chart_cliente dash) /\
    df_vendedor fp argsort f' = Ok (chart_vendedor dash) /\
    tabela argsort f' = Ok (detalhes dash).
Proof.
  intros Hr H. unfold main, load in H.
  apply bindM_Ok_inv in H. destruct H as (l & s1 & H1 & H).
  apply bindM_Ok_inv in H1. destruct H1 as (df & s2 & H2 & H1).
  apply lift_inv in H2. destruct H2 as [-> Hl].
  apply new_inv in H1. destruct H1 as [-> ->].
  destruct (render_run fp argsort select_default format_1f _ _ _ _ H)
    as (anos & vs & ts & cs & f & f' & Oa & Ov & Ot & Oc & Hf & Hk & _ & _
        & Hm & Ht & Hc & Hv & Hd).
  rewrite nth_snoc in Oa, Ov, Ot, Oc, Hf. unfold select_default in Hf.
  destruct (load_data_rectangular _ _ wb df Hr Hl) as [Hrd _].
  assert (Hrows : rows f = filter all_present (rows df)).
  { rewrite (df_filtrado_rows df _ f Hrd Hf).
    apply filter_ext_in. intros r Hin. apply In_rows in Hin.
    destruct Hin as (i & _ & ->).
    apply (qualifies_default df anos vs ts cs i Oa Ov Ot Oc). }
  assert (Hmiss : forall r, cell r "ano" = None \/ cell r "vendedor" = None \/
               cell r "tipo_solucao" = None \/ cell r "cliente" = None ->
               ~ In r (rows f)).
  { intros r Hnone Hin. rewrite Hrows in Hin. apply filter_In in Hin.
    destruct Hin as [_ Hp]. apply all_present_true in Hp.
    destruct Hp as (P1 & P2 & P3 & P4).
    destruct Hnone as [E | [E | [E | E]]]; contradiction. }
  assert (Hano : forall r, In r (rows df) -> cell r "data_venda" = None ->
                           cell r "ano" = None).
  { intros r Hin Hnone. apply In_rows in Hin. destruct Hin as (i & _ & ->).
    rewrite (ano_of_row _ _ wb df i Hl), Hnone. reflexivity. }
  exists df, f, f'. split; [exact Hl |]. split; [exact Hrows |]. split.
  - intros r Hin Hnone. split; [exact (Hano r Hin Hnone) |].
    apply Hmiss. left. exact (Hano r Hin Hnone).
  - auto 10.
Qed.

End Dashboard.
(* ================================================================== *)
(** ** The script on the sample workbooks *)

Lemma rectangular_planilha : rectangular planilha.
Proof. unfold rectangular. simpl. repeat constructor. Qed.

Lemma load_planilha :
  load_data parse_blank_only parse_no_number planilha = Ok dados.
Proof. vm_compute. reflexivity. Qed.

Lemma rectangular_dados : rectangular dados.
Proof. unfold rectangular. simpl. repeat constructor. Qed.

(** The scenario of the specification: three dated sales of 100, 50 and 200
    pass the default filters; the tables are those the specification lists. *)
Example scenario_tables :
  let f := com_lead_time (filtrar dados (tudo dados)) in
  df_tipo sequential argsort_stable f
  = Ok (Some (frame_of_pairs "tipo_solucao" [(Str "X", 300%Q); (Str "Y", 50%Q)]))
  /\ df_cliente sequential argsort_stable f
     = Ok (Some (frame_of_pairs "cliente" [(Str "B", 200%Q); (Str "A", 150%Q)]))
  /\ df_mes sequential argsort_stable f
     = Ok (Some (frame_of_pairs "ano_mes"
                   [(Str "2023-01", 300%Q); (Str "2023-02", 50%Q)])).
Proof. vm_compute. repeat split. Qed.

(** A text cell "abc" in the sale-date column: [load_data] raises. *)
Example load_data_invalid_date :
  load_data parse_blank_only parse_no_number planilha_data_invalida
  = Raise (DateParseError "abc").
Proof. vm_compute. reflexivity. Qed.

(** The sheet with the date cell "abc", under a parser that rejects it. *)
Lemma load_data_raises_on_unparseable_date_witness :
  exists bad,
    parse_blank_only bad = None /\
    load_data parse_blank_only parse_no_number planilha_data_invalida
    = Raise (DateParseError bad).
Proof.
  apply (load_data_raises_on_unparseable_date parse_blank_only parse_no_number
           planilha_data_invalida [texto "abc"] [dia 19380] "abc").
  - reflexivity.
  - reflexivity.
  - left. left. reflexivity.
  - reflexivity.
Defined.



(** The first sale of [planilha], dated 2023-01-15, and its fourth sale,
    which has no date. *)
Lemma load_data_derived_fields_witness :
  (cell (row dados 0) "ano" = Some (Num 2023) /\
   cell (row dados 0) "mes" = Some (Num 1) /\
   cell (row dados 0) "ano_mes" = Some (Str "2023-01")) /\
  (cell (row dados 3) "data_venda" = None /\
   cell (row dados 3) "ano" = None /\ cell (row dados 3) "mes" = None /\
   cell (row dados 3) "ano_mes" = Some (Str "NaT")).
Proof.
  split.
  - assert (Hin : In (row dados 0) (rows dados)) by (left; reflexivity).
    pose proof (load_data_derived_fields parse_blank_only parse_no_number
                  planilha dados rectangular_planilha load_planilha
                  (row dados 0) Hin) as H.
    vm_compute in H. destruct H as (Ha & Hm & _ & Hs).
    repeat split; vm_compute; assumption.
  - assert (Hin : In (row dados 3) (rows dados))
      by (right; right; right; left; reflexivity).
    pose proof (load_data_derived_fields parse_blank_only parse_no_number
                  planilha dados rectangular_planilha load_planilha
                  (row dados 3) Hin) as H.
    split; [reflexivity | exact H].
Defined.

(** Customer A selected: two of the five sales remain. *)
Lemma df_filtrado_membership_witness :
  exists f,
    df_filtrado dados so_cliente_A = Ok f /\
    rows f = filter (qualifies so_cliente_A) (rows dados) /\
    length (rows f) = 2.
Proof.
  destruct (df_filtrado_membership dados so_cliente_A rectangular_dados)
    as (f & Hf & Hrows & _); try (simpl; auto 20; fail).
  exists f. split; [exact Hf |]. split; [exact Hrows |].
  rewrite Hrows. vm_compute. reflexivity.
Defined.

(** Customer A against customers A and B. *)
Lemma df_filtrado_monotone_witness :
  nrows (filtrar dados so_cliente_A) <= nrows (filtrar dados clientes_A_B).
Proof.
  apply (df_filtrado_monotone dados so_cliente_A clientes_A_B
           (filtrar dados so_cliente_A) (filtrar dados clientes_A_B)
           rectangular_dados).
  - vm_compute. reflexivity.
  - vm_compute. reflexivity.
  - apply incl_refl.
  - apply incl_refl.
  - apply incl_refl.
  - intros x [<- | []]. left. reflexivity.
Defined.

(** No year selected: the filtered frame is empty. *)
Lemma kpis_empty_subset_witness :
  exists f',
    kpis sequential (filtrar dados nenhum_ano)
    = Ok ({| total_vendas := 0; qtd_vendas := 0;
             ticket_medio := 0; ciclo_medio := None |}, f') /\
    ciclo_card tenths None = "-".
Proof.
  apply (kpis_empty_subset sequential parse_blank_only parse_no_number tenths
           planilha dados nenhum_ano (filtrar dados nenhum_ano)
           rectangular_planilha load_planilha).
  - vm_compute. reflexivity.
  - reflexivity.
Defined.

(** C6, counterexample.  Eighteen customers, C01 to C18, with the same sum
    1.  [groupby] lists them in this order.  Sorted by numpy's quicksort,
    which partitions a range of more than 17 items, the customer table
    lists C01, C02, C17, C16, ..., C10: the ties are not broken by group
    order, and the ten customers kept are not the first ten. *)
Lemma customer_tie_order_not_kept :
  df_cliente sequential argsort_quicksort
    (com_lead_time
       (filtrar dados_dezoito_clientes (tudo dados_dezoito_clientes)))
  = Ok (Some (frame_of_pairs "cliente"
                [(Str "C01", 1%Q); (Str "C02", 1%Q); (Str "C17", 1%Q);
                 (Str "C16", 1%Q); (Str "C15", 1%Q); (Str "C14", 1%Q);
                 (Str "C13", 1%Q); (Str "C12", 1%Q); (Str "C11", 1%Q);
                 (Str "C10", 1%Q)])) /\
  ~ ties_keep_group_order
      [(Str "C01", 1%Q); (Str "C02", 1%Q); (Str "C17", 1%Q);
       (Str "C16", 1%Q); (Str "C15", 1%Q); (Str "C14", 1%Q);
       (Str "C13", 1%Q); (Str "C12", 1%Q); (Str "C11", 1%Q);
       (Str "C10", 1%Q)].
Proof.
  split; [vm_compute; reflexivity |].
  intros H.
  apply Sorted_inv in H. destruct H as [H _].
  apply Sorted_inv in H. destruct H as [H _].
  apply Sorted_inv in H. destruct H as [_ H].
  apply HdRel_inv in H. specialize (H (Qeq_refl _)). discriminate H.
Qed.

(** Up to 17 groups the quicksort of numpy sorts by insertion and keeps
    the ties in group order: two solution types with the same sum. *)
Example tie_order_kept_on_two_groups :
  df_tipo sequential argsort_quicksort
    (com_lead_time (filtrar dados_empate (tudo dados_empate)))
  = Ok (Some (frame_of_pairs "tipo_solucao"
                [(Str "X", 100%Q); (Str "Y", 100%Q)])) /\
  ties_keep_group_order [(Str "X", 100%Q); (Str "Y", 100%Q)].
Proof.
  split; [vm_compute; reflexivity |].
  repeat constructor.
Qed.

(** The tables of [planilha] under the default filters. *)
Lemma grouped_tables_sorted_witness :
  exists m t c w,
    (df_mes sequential argsort_stable (com_lead_time (filtrar dados (tudo dados)))
     = Ok (Some (frame_of_pairs "ano_mes" m)) /\
     Sorted (fun a b => scalar_le (fst a) (fst b)) m) /\
    (df_tipo sequential argsort_stable (com_lead_time (filtrar dados (tudo dados)))
     = Ok (Some (frame_of_pairs "tipo_solucao" t)) /\ descending (map snd t)) /\
    (df_cliente sequential argsort_stable (com_lead_time (filtrar dados (tudo dados)))
     = Ok (Some (frame_of_pairs "cliente" (firstn 10 c))) /\
     descending (map snd c)) /\
    (df_vendedor sequential argsort_stable (com_lead_time (filtrar dados (tudo dados)))
     = Ok (Some (frame_of_pairs "vendedor" w)) /\ descending (map snd w)).
Proof.
  edestruct (grouped_tables_sorted sequential argsort_stable argsort_stable_spec
               (com_lead_time (filtrar dados (tudo dados))))
    as (m & t & c & w & (Em & _ & Sm) & (Et & _ & St) & (Ec & _ & Sc & _)
        & (Ew & _ & Sw)).
  - reflexivity.
  - vm_compute. reflexivity.
  - vm_compute. reflexivity.
  - vm_compute. reflexivity.
  - vm_compute. reflexivity.
  - vm_compute. reflexivity.
  - exists m, t, c, w. auto 10.
Defined.




(** A run on a store that holds the loaded [dados] at location 0. *)
Lemma render_keeps_dataset_witness :
  nth 0 (snd (render sequential argsort_stable select_default tenths 0 [dados])) [] = dados
  /\ exists f',
       snd (render sequential argsort_stable select_default tenths 0 [dados]) = [dados; f']
       /\ In "lead_time_dias" (columns f')
       /\ ~ In "lead_time_dias" (columns dados).
Proof.
  pose proof (render_keeps_dataset sequential argsort_stable select_default tenths 0 [dados])
    as (_ & Hkeep & Hrun).
  split.
  - apply Hkeep. simpl. lia.
  - assert (Hok : exists dash s',
               render sequential argsort_stable select_default tenths 0 [dados]
               = (Ok dash, s'))
      by (do 2 eexists; vm_compute; reflexivity).
    destruct Hok as (dash & s' & Hok).
    destruct (Hrun dash s' Hok) as (f & f' & _ & Hs & Hcol).
    exists f'. rewrite Hok. simpl. split; [exact Hs |]. split; [exact Hcol |].
    simpl. intuition discriminate.
Defined.

(** The whole script on [planilha]: the sale without a date and the sale
    without a customer are dropped. *)
Lemma default_filters_drop_missing_witness :
  exists df f,
    load_data parse_blank_only parse_no_number planilha = Ok df /\
    rows f = filter all_present (rows df) /\
    length (rows df) = 5 /\ length (rows f) = 3 /\
    ~ In (row df 3) (rows f) /\ ~ In (row df 4) (rows f).
Proof.
  assert (Hok : exists dash s',
             main sequential parse_blank_only parse_no_number argsort_stable
               select_default tenths planilha [] = (Ok dash, s'))
    by (do 2 eexists; vm_compute; reflexivity).
  destruct Hok as (dash & s' & Hok).
  destruct (default_filters_drop_missing sequential parse_blank_only parse_no_number
              argsort_stable tenths planilha [] s' dash
              rectangular_planilha Hok)
    as (df & f & f' & Hl & Hrows & _ & Hmiss & _).
  exists df, f. split; [exact Hl |]. split; [exact Hrows |].
  assert (E : df = dados)
    by (rewrite load_planilha in Hl; inversion Hl; reflexivity).
  subst df. split; [reflexivity |]. split.
  - rewrite Hrows. vm_compute. reflexivity.
  - split; apply Hmiss.
    + left. reflexivity.
    + right. right. right. reflexivity.
Defined.
(* ================================================================== *)
(** ** More on the loader *)

Lemma setitem_same (df : DataFrame) (c : string) (s : Series) :
  getitem df c = Ok s -> setitem df c s = df.
Proof.
  induction df as [| [c0 s0] df IH]; simpl; intros H.
  - discriminate H.
  - destruct (String.eqb c0 c) eqn:E.
    + inversion H. reflexivity.
    + rewrite (IH H). reflexivity.
Qed.

Lemma lookup_In (m : list (string * string)) (n n' : string) :
  lookup m n = Some n' -> In (n, n') m.
Proof.
  induction m as [| [a b] m IH]; simpl; intros H.
  - discriminate H.
  - destruct (String.eqb a n) eqn:E.
    + apply String.eqb_eq in E. inversion H. subst. left. reflexivity.
    + right. apply IH. exact H.
Qed.

Lemma lookup_rename_target (n n' : string) :
  lookup column_names n = Some n' -> lookup column_names n' = None.
Proof.
  intros H. apply lookup_In in H.
  assert (F : Forall (fun p => lookup column_names (snd p) = None) column_names)
    by (repeat constructor).
  rewrite Forall_forall in F. apply (F (n, n') H).
Qed.

Lemma rename_names_fixed (wb : DataFrame) (c : string) :
  In c (columns (rename wb column_names)) -> lookup column_names c = None.
Proof.
  unfold columns, rename. rewrite map_map. rewrite in_map_iff.
  intros ([n s] & <- & _). cbn [fst snd].
  destruct (lookup column_names n) as [n' |] eqn:E.
  - apply (lookup_rename_target n n' E).
  - exact E.
Qed.

Lemma rename_fixed (df : DataFrame) :
  (forall c, In c (columns df) -> lookup column_names c = None) ->
  rename df column_names = df.
Proof.
  intros H. unfold rename. rewrite <- (map_id df) at 2.
  apply map_ext_in. intros [c s] Hin. cbn [fst snd].
  rewrite (H c); [reflexivity |]. apply (in_map fst) in Hin. exact Hin.
Qed.

Lemma mapM_fixed {A : Type} (f : A -> result A) (l : list A) :
  (forall a, In a l -> f a = Ok a) -> mapM f l = Ok l.
Proof.
  induction l as [| a l IH]; simpl; intros H; [reflexivity |].
  rewrite (H a (or_introl eq_refl)). simpl.
  rewrite IH by (intros; apply H; right; assumption). reflexivity.
Qed.

Lemma mapM_Forall {A B : Type} (f : A -> result B) (P : B -> Prop)
  (l : list A) (r : list B) :
  (forall a b, f a = Ok b -> P b) -> mapM f l = Ok r -> Forall P r.
Proof.
  intros Hf. revert r. induction l as [| a l IH]; simpl; intros r H.
  - inversion H. constructor.
  - destruct (f a) as [b | e] eqn:Ea; simpl in H; [| discriminate H].
    destruct (mapM f l) as [bs | e]; simpl in H; [| discriminate H].
    inversion H. constructor; [apply (Hf a b Ea) | apply IH; reflexivity].
Qed.

Section LoaderMore.

Variable parse_datetime : string -> option (option Z).
Variable parse_number : string -> option Q.

Local Abbreviation to_datetime := (to_datetime parse_datetime).
Local Abbreviation to_numeric := (to_numeric parse_number).
Local Abbreviation load_data := (load_data parse_datetime parse_number).

Lemma to_datetime_kinds (s s' : Series) :
  to_datetime s = Ok s' -> Forall (fun v => is_time v || is_missing v = true) s'.
Proof.
  apply mapM_Forall. intros a b H.
  destruct (to_datetime_cell_Ok parse_datetime a b H) as [-> | [t ->]];
    reflexivity.
Qed.

Lemma to_datetime_fixed (s : Series) :
  Forall (fun v => is_time v || is_missing v = true) s -> to_datetime s = Ok s.
Proof.
  intros H. apply mapM_fixed. rewrite Forall_forall in H.
  intros v Hv. specialize (H v Hv).
  destruct v as [[x | q | t] |]; try discriminate H; reflexivity.
Qed.

Lemma to_numeric_kinds (s : Series) :
  Forall (fun v => is_num v || is_missing v = true) (to_numeric s).
Proof.
  unfold to_numeric. destruct (is_datetime64 s);
    rewrite Forall_map; apply Forall_forall; intros v _.
  - destruct v as [[x | q | t] |]; reflexivity.
  - destruct v as [[x | q | t] |]; simpl; try reflexivity.
    destruct (parse_number x); reflexivity.
Qed.

Lemma to_numeric_fixed (s : Series) :
  Forall (fun v => is_num v || is_missing v = true) s -> to_numeric s = s.
Proof.
  intros H. unfold to_numeric.
  assert (E : is_datetime64 s = false).
  { unfold is_datetime64. apply andb_false_iff. right.
    induction H as [| v s Hv _ IH]; simpl; [reflexivity |].
    rewrite IH. destruct v as [[x | q | t] |]; try discriminate Hv; reflexivity. }
  rewrite E. rewrite <- (map_id s) at 2. apply map_ext_in.
  rewrite Forall_forall in H. intros v Hv. specialize (H v Hv).
  destruct v as [[x | q | t] |]; try discriminate H; reflexivity.
Qed.

(** X1.  After a successful load the converted columns hold what the code
    says it guarantees: [data_venda] and [data_nf] hold timestamps or NaT,
    [valor_venda], [ano] and [mes] hold numbers or NaN, and [ano_mes] holds
    text in every row. *)
Theorem load_data_column_kinds (wb df : DataFrame) :
  load_data wb = Ok df ->
  exists dv nf vv ano mes am,
    getitem df "data_venda" = Ok dv /\ getitem df "data_nf" = Ok nf /\
    getitem df "valor_venda" = Ok vv /\ getitem df "ano" = Ok ano /\
    getitem df "mes" = Ok mes /\ getitem df "ano_mes" = Ok am /\
    Forall (fun v => is_time v || is_missing v = true) dv /\
    Forall (fun v => is_time v || is_missing v = true) nf /\
    Forall (fun v => is_num v || is_missing v = true) vv /\
    Forall (fun v => is_num v || is_missing v = true) ano /\
    Forall (fun v => is_num v || is_missing v = true) mes /\
    Forall (fun v => is_str v = true) am.
Proof.
  intros H.
  destruct (load_data_inv _ _ wb df H)
    as (dv & nf & vv & dv' & nf' & _ & Hdv & _ & Hnf & _ & ->).
  destruct (loaded_columns (rename wb column_names) dv' nf' (to_numeric vv))
    as (C1 & C2 & C3 & C4 & C5 & C6).
  exists dv', nf', (to_numeric vv), (dt_year dv'), (dt_month dv'),
    (dt_to_period_M_astype_str dv').
  repeat (split; [assumption |]).
  split; [apply (to_datetime_kinds dv dv' Hdv) |].
  split; [apply (to_datetime_kinds nf nf' Hnf) |].
  split; [apply to_numeric_kinds |].
  unfold dt_year, dt_month, dt_to_period_M_astype_str.
  repeat split; rewrite Forall_map; apply Forall_forall; intros v _;
    destruct v as [[x | q | t] |]; reflexivity.
Qed.

(** X2.  A successful load keeps the rows and touches nothing else: the
    dataset has as many rows as the sheet, all its columns have that
    length, and every column other than the six that [load_data] assigns
    holds the cells of the renamed sheet. *)
Theorem load_data_keeps_other_columns (wb df : DataFrame) :
  rectangular wb -> load_data wb = Ok df ->
  nrows df = nrows wb /\ rectangular df /\
  forall c, ~ In c ["data_venda"; "data_nf"; "valor_venda"; "ano"; "mes"; "ano_mes"] ->
            getitem df c = getitem (rename wb column_names) c.
Proof.
  intros Hr H. destruct (load_data_rectangular _ _ wb df Hr H) as [Hrd Hn].
  split; [exact Hn |]. split; [exact Hrd |].
  intros c Hc.
  destruct (load_data_inv _ _ wb df H)
    as (dv & nf & vv & dv' & nf' & _ & _ & _ & _ & _ & ->).
  apply loaded_other; apply String.eqb_neq; intros E; apply Hc; subst c;
    repeat (first [left; reflexivity | right]).
Qed.

(** X3.  Loading is idempotent: the dataset that [load_data] returns for a
    sheet with distinct labels is loaded again unchanged.  Its columns already bear the canonical names,
    its dates are timestamps and its values numbers, and the derived
    columns are recomputed to the same cells. *)
Theorem load_data_idempotent (wb df : DataFrame) :
  NoDup (columns (rename wb column_names)) ->
  load_data wb = Ok df -> load_data df = Ok df.
Proof.
  intros _ H.
  destruct (load_data_inv _ _ wb df H)
    as (dv & nf & vv & dv' & nf' & _ & Hdv & _ & Hnf & _ & E).
  assert (Hren : rename df column_names = df).
  { apply rename_fixed. intros c Hc. subst df.
    apply (loaded_has_column parse_datetime parse_number) in Hc.
    destruct Hc as [Hc | Hc].
    - apply (rename_names_fixed wb c Hc).
    - simpl in Hc. repeat (destruct Hc as [<- | Hc]; [reflexivity |]).
      contradiction. }
  destruct (loaded_columns (rename wb column_names) dv' nf' (to_numeric vv))
    as (C1 & C2 & C3 & C4 & C5 & C6).
  rewrite <- E in C1, C2, C3, C4, C5, C6.
  rewrite load_data_unfold, Hren, C1. simpl.
  rewrite (to_datetime_fixed dv' (to_datetime_kinds dv dv' Hdv)). simpl.
  rewrite C2. simpl.
  rewrite (to_datetime_fixed nf' (to_datetime_kinds nf nf' Hnf)). simpl.
  rewrite C3. simpl.
  rewrite (to_numeric_fixed _ (to_numeric_kinds vv)).
  unfold loaded.
  rewrite (setitem_same df "data_venda" dv' C1).
  rewrite (setitem_same df "data_nf" nf' C2).
  rewrite (setitem_same df "valor_venda" _ C3).
  rewrite (setitem_same df "ano" _ C4).
  rewrite (setitem_same df "mes" _ C5).
  rewrite (setitem_same df "ano_mes" _ C6).
  reflexivity.
Qed.

End LoaderMore.
(* ================================================================== *)
(** ** More on the sidebar options *)

Lemma scalar_eqb_kind (x y : scalar) : scalar_eqb x y = true -> kind x = kind y.
Proof. destruct x, y; simpl; intros H; try discriminate H; reflexivity. Qed.

Lemma filter_length_le {A : Type} (p : A -> bool) (l : list A) :
  length (filter p l) <= length l.
Proof.
  induction l as [| a l IH]; simpl; [lia |]. destruct (p a); simpl; lia.
Qed.

Lemma Permutation_filter_length {A : Type} (p : A -> bool) (l l' : list A) :
  Permutation l l' -> length (filter p l) = length (filter p l').
Proof.
  induction 1 as [| x l l' Hp IH | x y l | l l' l'' H1 IH1 H2 IH2]; simpl.
  - reflexivity.
  - destruct (p x); simpl; congruence.
  - destruct (p x), (p y); reflexivity.
  - congruence.
Qed.

Lemma filter_filter {A : Type} (p q : A -> bool) (l : list A) :
  filter p (filter q l) = filter (fun a => q a && p a) l.
Proof.
  induction l as [| a l IH]; simpl; [reflexivity |].
  destruct (q a); simpl; [destruct (p a) |]; rewrite IH; reflexivity.
Qed.

Lemma unique_once (l : list scalar) (g : scalar) :
  length (filter (scalar_eqb g) (unique l)) <= 1.
Proof.
  induction l as [| x l IH]; simpl; [lia |].
  destruct (scalar_eqb g x) eqn:E; simpl.
  - rewrite (filter_none (scalar_eqb g)); [simpl; lia |].
    intros y Hy. apply filter_In in Hy. destruct Hy as [_ Hy].
    apply negb_true_iff in Hy.
    destruct (scalar_eqb g y) eqn:Egy; [| reflexivity].
    rewrite scalar_eqb_sym in E.
    rewrite (scalar_eqb_trans x g y E Egy) in Hy. discriminate Hy.
  - eapply Nat.le_trans; [| exact IH].
    rewrite filter_filter. apply filter_length_mono. intros y _ Hy.
    apply andb_true_iff in Hy. apply Hy.
Qed.

Lemma forallb_false_exists {A : Type} (p : A -> bool) (l : list A) :
  forallb p l = false -> exists a, In a l /\ p a = false.
Proof.
  induction l as [| a l IH]; simpl; intros H; [discriminate H |].
  destruct (p a) eqn:E.
  - destruct (IH H) as (b & Hb & Eb). exists b. auto.
  - exists a. auto.
Qed.

Lemma same_kind_true (l : list scalar) :
  same_kind l = true <-> forall x y, In x l -> In y l -> kind x = kind y.
Proof.
  destruct l as [| x0 l]; simpl.
  - split; [intros _ x y [] | reflexivity].
  - rewrite forallb_forall. split.
    + intros H x y Hx Hy.
      assert (K : forall z, x0 = z \/ In z l -> kind z = kind x0).
      { intros z [<- | Hz]; [reflexivity |]. apply Nat.eqb_eq. apply H, Hz. }
      rewrite (K x Hx), (K y Hy). reflexivity.
    + intros H y Hy. apply Nat.eqb_eq. apply H; auto.
Qed.

Lemma same_kind_false (l : list scalar) :
  same_kind l = false ->
  exists x y, In x l /\ In y l /\ kind x <> kind y.
Proof.
  destruct l as [| x0 l]; simpl; intros H; [discriminate H |].
  destruct (forallb_false_exists _ l H) as (y & Hy & E).
  apply Nat.eqb_neq in E. exists y, x0. auto.
Qed.

Lemma one_kind_unique (s : Series) :
  one_kind s <-> same_kind (unique (dropna s)) = true.
Proof.
  rewrite same_kind_true. unfold one_kind. split.
  - intros H x y Hx Hy. apply H; apply In_dropna, unique_incl; assumption.
  - intros H x y Hx Hy.
    apply In_dropna in Hx, Hy.
    destruct (unique_covers _ x Hx) as (x' & Hx' & Ex).
    destruct (unique_covers _ y Hy) as (y' & Hy' & Ey).
    rewrite <- (scalar_eqb_kind x' x Ex), <- (scalar_eqb_kind y' y Ey).
    apply H; assumption.
Qed.

(** X4.  The options of a sidebar filter are in ascending order, hold no
    value twice, hold only values present in the column, and hold every
    value present in the column. *)
Theorem options_sorted_distinct (df : DataFrame) (c : string)
  (opts : list scalar) :
  options df c = Ok opts ->
  exists s,
    getitem df c = Ok s /\
    Sorted scalar_le opts /\
    (forall g, length (filter (scalar_eqb g) opts) <= 1) /\
    (forall x, In x opts -> In (Some x) s) /\
    (forall x, In (Some x) s -> exists y, In y opts /\ scalar_eqb x y = true).
Proof.
  intros H. destruct (options_getitem df c opts H) as [s Hs].
  exists s. split; [exact Hs |].
  assert (E : opts = sort (unique (dropna s))).
  { unfold options, sorted in H. rewrite Hs in H. simpl in H.
    destruct (same_kind (unique (dropna s))); inversion H. reflexivity. }
  split; [rewrite E; apply sort_sorted |]. split; [| split].
  - intros g. rewrite E.
    rewrite (Permutation_filter_length _ _ _ (sort_perm (unique (dropna s)))).
    apply unique_once.
  - intros x. apply (options_present_only df c opts s x H Hs).
  - intros x Hx. pose proof (options_cover df c opts s x H Hs Hx) as Hc.
    apply isin_cell_true in Hc. destruct Hc as (x' & y & Ex & Hy & Exy).
    inversion Ex; subst x'. exists y. auto.
Qed.

(** X5.  On a frame with distinct labels the options of a filter raise in
    two cases only: a [KeyError] when the column is absent, and the
    [TypeError] of [sorted] when two present cells of the column are of
    unlike kinds (a text and a number, say).  A column whose present cells
    are of one kind always has options. *)
Theorem options_errors (df : DataFrame) (c : string) :
  NoDup (columns df) ->
  (~ In c (columns df) -> options df c = Raise (KeyError c)) /\
  (forall s, getitem df c = Ok s ->
     (options df c = Raise TypeError <->
      exists x y, In (Some x) s /\ In (Some y) s /\ kind x <> kind y) /\
     ((exists opts, options df c = Ok opts) <-> one_kind s)).
Proof.
  intros _. split.
  - intros H. unfold options. rewrite (getitem_absent df c H). reflexivity.
  - intros s Hs. unfold options, sorted. rewrite Hs. simpl. split.
    + split.
      * destruct (same_kind (unique (dropna s))) eqn:E; [discriminate |].
        intros _. destruct (same_kind_false _ E) as (x & y & Hx & Hy & K).
        exists x, y. repeat split; try exact K;
          apply In_dropna, unique_incl; assumption.
      * intros (x & y & Hx & Hy & K).
        destruct (same_kind (unique (dropna s))) eqn:E; [| reflexivity].
        exfalso. apply K. apply one_kind_unique in E. apply (E x y Hx Hy).
    + rewrite one_kind_unique.
      destruct (same_kind (unique (dropna s))); split; intros H.
      * reflexivity.
      * eauto.
      * destruct H as [opts H]. discriminate H.
      * discriminate H.
Qed.

(* ================================================================== *)
(** ** More on the filter *)

Lemma take_rows_all (df : DataFrame) :
  rectangular df -> take_rows (seq 0 (nrows df)) df = df.
Proof.
  intros Hr. unfold take_rows.
  transitivity (map (fun p : string * Series => p) df); [| apply map_id].
  apply map_ext_in. intros [c s] Hin. simpl.
  unfold rectangular in Hr. rewrite Forall_forall in Hr.
  rewrite <- (Hr (c, s) Hin). simpl. rewrite take_seq. reflexivity.
Qed.

Lemma df_filtrado_columns (df : DataFrame) (sel : selections) (f : DataFrame) :
  rectangular df -> df_filtrado df sel = Ok f ->
  columns f = columns df /\
  In "ano" (columns df) /\ In "vendedor" (columns df) /\
  In "tipo_solucao" (columns df) /\ In "cliente" (columns df).
Proof.
  intros Hr H. split.
  - destruct (df_filtrado_inv df sel f Hr H) as [_ ->].
    apply columns_take_rows.
  - unfold df_filtrado, filter_mask in H.
    destruct (getitem df "ano") as [a |] eqn:Ea; [| discriminate H].
    destruct (getitem df "vendedor") as [v |] eqn:Ev; [| discriminate H].
    destruct (getitem df "tipo_solucao") as [t |] eqn:Et; [| discriminate H].
    destruct (getitem df "cliente") as [cl |] eqn:Ec; [| discriminate H].
    repeat split;
      match goal with
      | E : getitem df ?c = Ok ?s |- In ?c _ =>
          apply getitem_In in E; apply (in_map fst) in E; exact E
      end.
Qed.

(** X6.  The filtered frame has the columns of the dataset, all of one
    length, and filtering it again with the same selections returns it
    unchanged. *)
Theorem df_filtrado_idempotent (df : DataFrame) (sel : selections)
  (f : DataFrame) :
  rectangular df -> df_filtrado df sel = Ok f ->
  columns f = columns df /\ rectangular f /\ df_filtrado f sel = Ok f.
Proof.
  intros Hr H.
  destruct (df_filtrado_columns df sel f Hr H) as (Hc & Ha & Hv & Ht & Hcl).
  pose proof (df_filtrado_rectangular df sel f Hr H) as Hrf.
  split; [exact Hc |]. split; [exact Hrf |].
  rewrite <- Hc in Ha, Hv, Ht, Hcl.
  destruct (df_filtrado_Ok f sel Ha Hv Ht Hcl) as [f2 H2].
  rewrite H2. f_equal.
  destruct (df_filtrado_inv f sel f2 Hrf H2) as [_ ->].
  rewrite filter_all; [apply take_rows_all; exact Hrf |].
  intros i Hi. apply in_seq in Hi.
  assert (Hin : In (row f i) (rows f)) by (apply In_rows; exists i; split; [lia | reflexivity]).
  rewrite (df_filtrado_rows df sel f Hr H) in Hin.
  apply filter_In in Hin. apply Hin.
Qed.

(** X7.  The default selections filter nothing out of a dataset without
    blanks: when no row has a missing cell in the four filtered columns,
    selecting all the options of every filter returns the dataset itself. *)
Theorem default_selection_keeps_all (df : DataFrame)
  (anos vs ts cs : list scalar) :
  rectangular df ->
  options df "ano" = Ok anos -> options df "vendedor" = Ok vs ->
  options df "tipo_solucao" = Ok ts -> options df "cliente" = Ok cs ->
  (forall r, In r (rows df) -> all_present r = true) ->
  df_filtrado df {| ano_selecionado := anos; vendedor_selecionado := vs;
                    tipo_selecionado := ts; cliente_selecionado := cs |}
  = Ok df.
Proof.
  intros Hr Oa Ov Ot Oc Hall.
  set (sel := {| ano_selecionado := anos; vendedor_selecionado := vs;
                 tipo_selecionado := ts; cliente_selecionado := cs |}).
  assert (Hcol : forall c opts, options df c = Ok opts -> In c (columns df)).
  { intros c opts Ho. destruct (options_getitem df c opts Ho) as [s Hs].
    apply getitem_In in Hs. apply (in_map fst) in Hs. exact Hs. }
  destruct (df_filtrado_Ok df sel (Hcol _ _ Oa) (Hcol _ _ Ov) (Hcol _ _ Ot)
              (Hcol _ _ Oc)) as [f Hf].
  rewrite Hf. f_equal.
  destruct (df_filtrado_inv df sel f Hr Hf) as [_ ->].
  rewrite filter_all; [apply take_rows_all; exact Hr |].
  intros i Hi. apply in_seq in Hi. unfold sel.
  rewrite (qualifies_default df anos vs ts cs i Oa Ov Ot Oc).
  apply Hall. apply In_rows. exists i. split; [lia | reflexivity].
Qed.

(** X8.  Narrowing in two steps is narrowing once by both selections: the
    rows left after filtering by one selection and then by another are the
    rows of the dataset that pass both, so the order of the two steps does
    not matter. *)
Theorem df_filtrado_twice (df : DataFrame) (s1 s2 : selections)
  (f1 f12 f2 f21 : DataFrame) :
  rectangular df ->
  df_filtrado df s1 = Ok f1 -> df_filtrado f1 s2 = Ok f12 ->
  df_filtrado df s2 = Ok f2 -> df_filtrado f2 s1 = Ok f21 ->
  rows f12 = filter (fun r => qualifies s1 r && qualifies s2 r) (rows df) /\
  rows f12 = rows f21 /\ nrows f12 = nrows f21.
Proof.
  intros Hr H1 H12 H2 H21.
  pose proof (df_filtrado_rectangular df s1 f1 Hr H1) as Hr1.
  pose proof (df_filtrado_rectangular df s2 f2 Hr H2) as Hr2.
  assert (E12 : rows f12
                = filter (fun r => qualifies s1 r && qualifies s2 r) (rows df)).
  { rewrite (df_filtrado_rows f1 s2 f12 Hr1 H12),
      (df_filtrado_rows df s1 f1 Hr H1). apply filter_filter. }
  assert (E21 : rows f21
                = filter (fun r => qualifies s1 r && qualifies s2 r) (rows df)).
  { rewrite (df_filtrado_rows f2 s1 f21 Hr2 H21),
      (df_filtrado_rows df s2 f2 Hr H2), filter_filter.
    apply filter_ext. intros r. apply andb_comm. }
  split; [exact E12 |]. split; [congruence |].
  rewrite <- (nrows_length_rows f12), <- (nrows_length_rows f21). congruence.
Qed.
(* ================================================================== *)
(** ** More on the cards *)

Lemma count_days_between (a b : Series) :
  count (days_between a b) = length (filter both_dates (combine a b)).
Proof.
  unfold count. revert b.
  induction a as [| x a IH]; intros [| y b]; simpl; try reflexivity.
  unfold both_dates at 1. simpl.
  destruct x as [[s | q | t] |], y as [[s' | q' | u] |]; simpl;
    rewrite IH; reflexivity.
Qed.

Lemma nth_days_between (a b : Series) (i : nat) :
  i < length a -> i < length b ->
  nth i (days_between a b) None =
  match nth i a None, nth i b None with
  | Some (Time t), Some (Time u) =>
      Some (Num (inject_Z ((t - u) / ns_per_day)))
  | _, _ => None
  end.
Proof.
  revert b i. induction a as [| x a IH]; intros [| y b] i Ha Hb;
    simpl in Ha, Hb; try lia.
  destruct i as [| i]; simpl.
  - reflexivity.
  - apply IH; lia.
Qed.

Section Cards.

Variable fp : float64.
Variable format_1f : Q -> string.

(** X9.  The average cycle is taken over the rows that hold both dates:
    it is missing, and the card shows "-", when no row holds both;
    otherwise it is the sum of the lead times divided by the number of
    such rows. *)
Theorem ciclo_medio_over_dated_rows (f f' : DataFrame) (k : KPIs)
  (nf dv : Series) :
  kpis fp f = Ok (k, f') ->
  getitem f "data_nf" = Ok nf -> getitem f "data_venda" = Ok dv ->
  (length (filter both_dates (combine nf dv)) = 0 ->
   ciclo_medio k = None /\ ciclo_card format_1f (ciclo_medio k) = "-") /\
  (0 < length (filter both_dates (combine nf dv)) ->
   exists q,
     ciclo_medio k = Some (Num q) /\
     ciclo_card format_1f (ciclo_medio k) = format_1f q /\
     q = fdiv fp (series_sum fp (days_between nf dv))
           (inject_Z
              (Z.of_nat (length (filter both_dates (combine nf dv)))))).
Proof.
  intros H Hnf Hdv.
  destruct (kpis_inv fp f f' k H) as (vv & nf' & dv' & _ & Hnf' & Hdv' & _ & ->).
  rewrite Hnf in Hnf'. rewrite Hdv in Hdv'.
  inversion Hnf'; inversion Hdv'; subst nf' dv'. simpl.
  unfold mean. rewrite count_days_between. split.
  - intros ->. simpl. split; reflexivity.
  - intros Hn.
    destruct (Nat.eqb_spec (length (filter both_dates (combine nf dv))) 0)
      as [E | _]; [lia |].
    eexists. split; [reflexivity |]. split; reflexivity.
Qed.

(** X10.  The lead time of a row is the number of whole days from the sale
    to the invoice, rounded down: negative exactly when the invoice
    precedes the sale, and missing when either date is not a timestamp. *)
Theorem lead_time_dias_cells (f f' : DataFrame) (k : KPIs) (nf dv : Series) :
  kpis fp f = Ok (k, f') ->
  getitem f "data_nf" = Ok nf -> getitem f "data_venda" = Ok dv ->
  exists lt,
    getitem f' "lead_time_dias" = Ok lt /\
    length lt = Nat.min (length nf) (length dv) /\
    forall i, i < length lt ->
      match nth i nf None, nth i dv None with
      | Some (Time t), Some (Time u) =>
          exists d : Z,
            nth i lt None = Some (Num (inject_Z d)) /\
            (d * ns_per_day <= t - u < (d + 1) * ns_per_day)%Z /\
            (d < 0 <-> t < u)%Z
      | _, _ => nth i lt None = None
      end.
Proof.
  intros H Hnf Hdv.
  destruct (kpis_inv fp f f' k H) as (vv & nf' & dv' & _ & Hnf' & Hdv' & -> & _).
  rewrite Hnf in Hnf'. rewrite Hdv in Hdv'.
  inversion Hnf'; inversion Hdv'; subst nf' dv'.
  exists (days_between nf dv).
  split; [apply getitem_setitem_same |].
  split; [apply length_days_between |].
  intros i Hi. rewrite length_days_between in Hi.
  rewrite nth_days_between by lia.
  destruct (nth i nf None) as [[s | q | t] |]; try reflexivity.
  destruct (nth i dv None) as [[s | q | u] |]; try reflexivity.
  exists ((t - u) / ns_per_day)%Z. split; [reflexivity |].
  unfold ns_per_day.
  pose proof (Z.div_mod (t - u) 86400000000000 ltac:(lia)) as E.
  pose proof (Z.mod_pos_bound (t - u) 86400000000000 ltac:(lia)) as B.
  split; [lia |]. split; intros; lia.
Qed.

(** X11.  Computing the cards changes the filtered frame in one column
    only: [lead_time_dias] is added (or replaced), every other column and
    the number of rows stay, and computing the cards again on the changed
    frame gives the same cards and frame. *)
Theorem kpis_changes_one_column (f f' : DataFrame) (k : KPIs) :
  rectangular f -> kpis fp f = Ok (k, f') ->
  nrows f' = nrows f /\ rectangular f' /\
  (forall c, In c (columns f') <-> c = "lead_time_dias" \/ In c (columns f)) /\
  (forall c, c <> "lead_time_dias" -> getitem f' c = getitem f c) /\
  kpis fp f' = Ok (k, f').
Proof.
  intros Hr H.
  pose proof (kpis_nrows fp f f' k Hr H) as Hn.
  assert (Hg : forall c, c <> "lead_time_dias" -> getitem f' c = getitem f c).
  { intros c Hc. apply (kpis_getitem fp f f' k c H).
    apply String.eqb_neq. congruence. }
  destruct (kpis_inv fp f f' k H) as (vv & nf & dv & Hv & Hnf & Hdv & Ef & Ek).
  assert (Hne : f <> []) by (intros ->; discriminate Hv).
  assert (Hl : length (days_between nf dv) = nrows f).
  { rewrite length_days_between,
      (getitem_length f "data_nf" nf Hr Hnf),
      (getitem_length f "data_venda" dv Hr Hdv). apply Nat.min_id. }
  split; [exact Hn |]. split; [| split; [| split; [exact Hg |]]].
  - rewrite Ef. apply rectangular_setitem; assumption.
  - intros c. rewrite Ef. apply columns_setitem.
  - unfold kpis.
    rewrite (Hg "valor_venda"), Hv by discriminate. cbn [bind].
    rewrite (Hg "data_nf"), Hnf by discriminate. cbn [bind].
    rewrite (Hg "data_venda"), Hdv by discriminate. cbn [bind].
    assert (Es : setitem f' "lead_time_dias" (days_between nf dv) = f').
    { apply setitem_same. rewrite Ef. apply getitem_setitem_same. }
    rewrite Es. rewrite Ef at 1. rewrite getitem_setitem_same. cbn [bind].
    rewrite Hn, Ek. reflexivity.
Qed.

End Cards.
(* ================================================================== *)
(** ** More on the grouped tables *)

Lemma group_values_filter (g : scalar) (k v : Series) :
  group_values g k v =
  numbers (map snd (filter (fun r => key_is g (fst r)) (combine k v))).
Proof.
  revert v. induction k as [| x k IH]; intros [| y v]; simpl;
    try reflexivity.
  specialize (IH v).
  destruct x as [a |]; simpl; [| exact IH].
  destruct (scalar_eqb g a); simpl.
  - change (numbers (y :: map snd (filter (fun r => key_is g (fst r))
                                     (combine k v))))
      with (match y with Some (Num q) => [q] | _ => [] end ++
            numbers (map snd (filter (fun r => key_is g (fst r))
                                (combine k v)))).
    destruct y as [[s | q | t] |]; simpl; rewrite IH; reflexivity.
  - destruct y as [[s | q | t] |]; simpl; exact IH.
Qed.

Lemma length_filter_map {A B : Type} (p : B -> bool) (f : A -> B) (l : list A) :
  length (filter p (map f l)) = length (filter (fun a => p (f a)) l).
Proof.
  induction l as [| a l IH]; simpl; [reflexivity |].
  destruct (p (f a)); simpl; rewrite IH; reflexivity.
Qed.

Lemma unique_length (l : list scalar) : length (unique l) <= length l.
Proof.
  induction l as [| x l IH]; simpl; [lia |].
  pose proof (filter_length_le (fun y => negb (scalar_eqb x y)) (unique l)).
  lia.
Qed.

Lemma group_keys_length (k : Series) : length (group_keys k) <= count k.
Proof.
  unfold group_keys, count.
  rewrite (Permutation_length (sort_perm (unique (dropna k)))).
  apply unique_length.
Qed.

Lemma key_sum_pairs_once (fp : float64) (k v : Series) :
  keys_once (key_sum_pairs fp k v).
Proof.
  intros g. unfold key_sum_pairs. rewrite length_filter_map. simpl.
  unfold group_keys.
  rewrite (Permutation_filter_length _ _ _ (sort_perm (unique (dropna k)))).
  apply unique_once.
Qed.

Lemma In_group_keys (k : Series) (x : scalar) :
  In x (group_keys k) <-> In x (unique (dropna k)).
Proof.
  unfold group_keys. split; intros H.
  - eapply Permutation_in; [apply sort_perm | exact H].
  - eapply Permutation_in; [apply Permutation_sym, sort_perm | exact H].
Qed.

Lemma StronglySorted_app_inv {A : Type} (R : A -> A -> Prop) (l1 l2 : list A) :
  StronglySorted R (l1 ++ l2) ->
  forall a b, In a l1 -> In b l2 -> R a b.
Proof.
  induction l1 as [| x l1 IH]; simpl; intros H a b Ha Hb; [destruct Ha |].
  inversion H as [| x' l' Hs Hf]; subst.
  destruct Ha as [<- | Ha].
  - rewrite Forall_forall in Hf. apply Hf. apply in_or_app. right. exact Hb.
  - apply (IH Hs a b Ha Hb).
Qed.

Lemma descending_split (n : nat) (qs : list Q) :
  descending qs ->
  forall a b, In a (firstn n qs) -> In b (skipn n qs) -> (b <= a)%Q.
Proof.
  intros H a b Ha Hb.
  assert (S : StronglySorted (fun x y : Q => (y <= x)%Q) qs).
  { apply Sorted_StronglySorted; [| exact H].
    intros x y z Hxy Hyz. eapply Qle_trans; eassumption. }
  rewrite <- (firstn_skipn n qs) in S.
  apply (StronglySorted_app_inv _ _ _ S a b Ha Hb).
Qed.

Section Groups.

Variable fp : float64.

(** X12.  The grouped sums hold one row for each distinct present key of
    the grouping column, in ascending order of the keys and no key twice;
    the sum of a row is the float64 sum of the numbers that the rows of
    the frame with that key hold in the value column, in row order, and 0
    when they hold none; rows whose key is missing belong to no group. *)
Theorem groupby_sum_groups (df : DataFrame) (c : string) (g : DataFrame) :
  groupby_sum fp df c = Ok g ->
  exists k v l,
    getitem df c = Ok k /\ getitem df "valor_venda" = Ok v /\
    g = frame_of_pairs c l /\
    Sorted (fun a b => scalar_le (fst a) (fst b)) l /\
    keys_once l /\ length l <= count k /\
    (forall x, In (Some x) k ->
               exists p, In p l /\ scalar_eqb x (fst p) = true) /\
    (forall p, In p l ->
       In (Some (fst p)) k /\
       snd p =
       match numbers (map snd (filter (fun r => key_is (fst p) (fst r))
                                 (combine k v))) with
       | [] => 0%Q
       | ns => gsum fp ns
       end).
Proof.
  intros H. pose proof H as H0. unfold groupby_sum in H.
  destruct (getitem df c) as [k |] eqn:Hk; [| discriminate H].
  destruct (getitem df "valor_venda") as [v |] eqn:Hv; [| discriminate H].
  exists k, v, (key_sum_pairs fp k v).
  split; [reflexivity |]. split; [reflexivity |].
  split.
  { rewrite (groupby_sum_pairs fp df c k v Hk Hv) in H0.
    inversion H0. reflexivity. }
  split.
  { unfold key_sum_pairs.
    apply (Sorted_map (fun a b => scalar_le (fst a) (fst b))).
    simpl. unfold group_keys. apply sort_sorted. }
  split; [apply key_sum_pairs_once |].
  split.
  { unfold key_sum_pairs. rewrite length_map. apply group_keys_length. }
  split.
  - intros x Hx. apply In_dropna in Hx.
    destruct (unique_covers _ x Hx) as (y & Hy & E).
    exists (y, sum_where fp y k v). split.
    + unfold key_sum_pairs.
      apply (in_map (fun g => (g, sum_where fp g k v))).
      apply In_group_keys. exact Hy.
    + simpl. rewrite scalar_eqb_sym. exact E.
  - intros p Hp. unfold key_sum_pairs in Hp. apply in_map_iff in Hp.
    destruct Hp as (y & <- & Hy). simpl. split.
    + apply In_dropna, unique_incl, In_group_keys, Hy.
    + unfold sum_where. rewrite group_values_filter. reflexivity.
Qed.

End Groups.

Section TopTen.

Variable fp : float64.
Variable argsort : list scalar -> list nat.
Hypothesis argsort_ok : argsort_spec argsort.

(** X13.  The customer chart keeps the ten largest sums: it has at most ten
    rows, all customers when there are ten or fewer, and no customer left
    out has a larger sum than a customer kept. *)
Theorem df_cliente_top_10 (dff : DataFrame) (kc v : Series) :
  empty dff = false ->
  getitem dff "cliente" = Ok kc -> getitem dff "valor_venda" = Ok v ->
  exists c,
    Permutation c (key_sum_pairs fp kc v) /\
    df_cliente fp argsort dff
    = Ok (Some (frame_of_pairs "cliente" (firstn 10 c))) /\
    nrows (frame_of_pairs "cliente" (firstn 10 c))
    = Nat.min 10 (length (group_keys kc)) /\
    (forall p q, In p (firstn 10 c) -> In q (skipn 10 c) ->
                 (snd q <= snd p)%Q).
Proof.
  intros He Hk Hv.
  destruct (df_cliente_table fp argsort argsort_ok dff kc v He Hk Hv)
    as (c & Hc & Hp & Hd).
  exists c. split; [exact Hp |]. split; [exact Hc |]. split.
  - change (nrows (frame_of_pairs "cliente" (firstn 10 c)))
      with (length (map (fun p : scalar * Q => Some (fst p)) (firstn 10 c))).
    rewrite length_map, length_firstn.
    rewrite (Permutation_length Hp). unfold key_sum_pairs.
    rewrite length_map. reflexivity.
  - intros p q Hin Hout.
    apply (descending_split 10 (map snd c) Hd).
    + rewrite firstn_map. apply in_map, Hin.
    + rewrite skipn_map. apply in_map, Hout.
Qed.

End TopTen.
(* ================================================================== *)
(** ** The detail table *)


Lemma getitems_inv (df : DataFrame) (names : list string) (t : DataFrame) :
  getitems df names = Ok t ->
  columns t = names /\
  (forall c, In c names -> getitem t c = getitem df c) /\
  (forall i, row t i = project names (row df i)).
Proof.
  unfold getitems. revert t.
  induction names as [| a names IH]; simpl; intros t H.
  - inversion H; subst t. repeat split; try reflexivity. intros c [].
  - destruct (getitem df a) as [s |] eqn:Ea; [| discriminate H].
    simpl in H.
    destruct (mapM (fun c => s0 <- getitem df c ;; Ok (c, s0)) names)
      as [t' |] eqn:Et; [| discriminate H].
    simpl in H. inversion H; subst t. clear H.
    destruct (IH t' eq_refl) as (Hc & Hg & Hrow).
    split; [simpl; rewrite Hc; reflexivity |]. split.
    + intros c Hin. simpl.
      destruct (String.eqb_spec a c) as [<- | Hne].
      * rewrite Ea. reflexivity.
      * apply Hg. destruct Hin as [E | Hin]; [contradiction | exact Hin].
    + intros i.
      change (row ((a, s) :: t') i) with ((a, nth i s None) :: row t' i).
      unfold project. cbn [map]. rewrite cell_row, Ea, Hrow. reflexivity.
Qed.


Lemma take_present (items : Series) (idx : list nat) :
  (forall i, In i idx -> is_missing (nth i items None) = false) ->
  take idx items = map Some (dropna (take idx items)).
Proof.
  unfold take. induction idx as [| i idx IH]; simpl; intros H;
    [reflexivity |].
  pose proof (H i (or_introl eq_refl)) as Hi.
  destruct (nth i items None) as [x |]; [| discriminate Hi].
  simpl. f_equal. apply IH. intros j Hj. apply H. right. exact Hj.
Qed.

Lemma take_missing (items : Series) (idx : list nat) :
  (forall i, In i idx -> is_missing (nth i items None) = true) ->
  take idx items = repeat None (length idx).
Proof.
  unfold take. induction idx as [| i idx IH]; simpl; intros H;
    [reflexivity |].
  pose proof (H i (or_introl eq_refl)) as Hi.
  destruct (nth i items None) as [x |]; [discriminate Hi |].
  f_equal. apply IH. intros j Hj. apply H. right. exact Hj.
Qed.

Lemma filter_partition_perm {A : Type} (p : A -> bool) (l : list A) :
  Permutation (filter (fun a => negb (p a)) l ++ filter p l) l.
Proof.
  induction l as [| a l IH]; simpl; [constructor |].
  destruct (p a); simpl.
  - apply Permutation_sym, Permutation_cons_app, Permutation_sym, IH.
  - constructor. exact IH.
Qed.

Lemma take_app (a b : list nat) (s : Series) :
  take (a ++ b) s = take a s ++ take b s.
Proof. unfold take. apply map_app. Qed.

Section DetailTable.

Variable argsort : list scalar -> list nat.
Hypothesis argsort_ok : argsort_spec argsort.

Lemma nargsort_order (items : Series) (asc : bool) :
  Permutation (nargsort argsort items asc) (seq 0 (length items)) /\
  exists xs n,
    take (nargsort argsort items asc) items = map Some xs ++ repeat None n /\
    Sorted (fun a b => if asc then scalar_le a b else scalar_le b a) xs.
Proof.
  unfold nargsort.
  set (idx := seq 0 (length items)).
  set (P := filter (fun i => negb (is_missing (nth i items None))) idx).
  set (N := filter (fun i => is_missing (nth i items None)) idx).
  set (P' := if asc then P else rev P).
  set (nn := dropna (take P' items)).
  assert (HP : forall i, In i P' -> is_missing (nth i items None) = false).
  { intros i Hi.
    assert (Hi' : In i P).
    { unfold P' in Hi. destruct asc; [exact Hi | apply in_rev, Hi]. }
    apply filter_In in Hi'. apply negb_true_iff, Hi'. }
  assert (Et : take P' items = map Some nn) by (apply take_present, HP).
  assert (Ln : length nn = length P').
  { apply (f_equal (@length _)) in Et.
    unfold take in Et. rewrite !length_map in Et. symmetry. exact Et. }
  destruct (argsort_ok nn) as [Hperm Hsorted].
  set (ix := map (fun j => nth j P' 0) (argsort nn)).
  assert (Hix : Permutation ix P').
  { unfold ix. apply perm_of_positions. rewrite <- Ln. exact Hperm. }
  assert (Etake : take ix items = map Some (map (pick nn) (argsort nn))).
  { unfold ix, take. rewrite !map_map. apply map_ext_in. intros j Hj.
    assert (Hlt : j < length P').
    { rewrite <- Ln. apply (argsort_lt argsort argsort_ok), Hj. }
    transitivity (nth j (take P' items) None).
    - unfold take. symmetry.
      apply (nth_map_lt (fun i => nth i items None) P' j 0 None Hlt).
    - rewrite Et. unfold pick.
      apply (nth_map_lt Some nn j (Num 0) None). rewrite Ln. exact Hlt. }
  assert (HN : take N items = repeat None (length N)).
  { apply take_missing. intros i Hi. apply filter_In in Hi. apply Hi. }
  assert (HPN : Permutation (P ++ N) idx)
    by (apply (filter_partition_perm (fun i => is_missing (nth i items None)))).
  split.
  - eapply perm_trans; [| exact HPN]. apply Permutation_app_tail.
    assert (HP'P : Permutation P' P).
    { unfold P'. destruct asc; [reflexivity |].
      apply Permutation_sym, Permutation_rev. }
    destruct asc.
    + eapply perm_trans; [exact Hix | exact HP'P].
    + eapply perm_trans; [apply Permutation_sym, Permutation_rev |].
      eapply perm_trans; [exact Hix | exact HP'P].
  - destruct asc.
    + exists (map (pick nn) (argsort nn)), (length N).
      rewrite take_app, HN. fold ix. rewrite Etake.
      split; [reflexivity | exact Hsorted].
    + exists (rev (map (pick nn) (argsort nn))), (length N).
      rewrite take_app, HN. fold ix. rewrite take_rev, Etake, map_rev.
      split; [reflexivity |].
      apply (Sorted_rev scalar_le). exact Hsorted.
Qed.


(** X15.  The detail table holds every row of the filtered frame once, cut
    down to the nine columns; the rows with a sale date come first, from
    the latest date to the earliest, and the rows without one come last. *)
Theorem tabela_rows (dff t : DataFrame) :
  rectangular dff -> tabela argsort dff = Ok t ->
  nrows t = nrows dff /\
  Permutation (rows t) (map (project colunas_detalhe) (rows dff)) /\
  exists xs n,
    getitem t "data_venda" = Ok (map Some xs ++ repeat None n) /\
    Sorted (fun a b => scalar_le b a) xs.
Proof.
  intros Hr H. unfold tabela in H. fold colunas_detalhe in H.
  destruct (getitems dff colunas_detalhe) as [t0 |] eqn:Ht0;
    [| discriminate H].
  cbn [bind] in H. unfold sort_values in H.
  destruct (getitem t0 "data_venda") as [k |] eqn:Hk; [| discriminate H].
  cbn [bind] in H. inversion H; subst t. clear H.
  destruct (getitems_inv dff colunas_detalhe t0 Ht0) as (Hc & Hg & Hrow).
  assert (Hne : t0 <> []) by (intros ->; discriminate Hk).
  assert (Hkd : getitem dff "data_venda" = Ok k).
  { rewrite <- Hg; [exact Hk | left; reflexivity]. }
  assert (Hn0 : nrows t0 = nrows dff).
  { destruct t0 as [| [c0 s0] t0']; [congruence |].
    simpl in Hc. unfold colunas_detalhe in Hc. inversion Hc; subst c0.
    simpl in Hk. inversion Hk; subst s0. simpl.
    apply (getitem_length dff "data_venda" k Hr Hkd). }
  assert (Hlk : length k = nrows dff)
    by (apply (getitem_length dff "data_venda" k Hr Hkd)).
  destruct (nargsort_order k false) as (Hperm & xs & n & Etake & Hs).
  split.
  { rewrite (nrows_take_rows _ t0 Hne), (Permutation_length Hperm).
    rewrite length_seq. exact Hlk. }
  split.
  - rewrite (rows_take_rows _ t0 Hne). unfold rows.
    rewrite map_map.
    eapply perm_trans; [apply Permutation_map; exact Hperm |].
    rewrite Hlk. apply Permutation_refl'.
    apply map_ext. intros i. apply Hrow.
  - exists xs, n. split; [| exact Hs].
    rewrite getitem_take_rows, Hk. cbn [bind]. rewrite Etake. reflexivity.
Qed.

End DetailTable.
(* ================================================================== *)
(** ** Whole runs of the script *)

Lemma options_Ok (df : DataFrame) (c : string) (s : Series) :
  getitem df c = Ok s -> one_kind s -> exists opts, options df c = Ok opts.
Proof.
  intros Hs Hk. unfold options, sorted. rewrite Hs. simpl.
  apply one_kind_unique in Hk. rewrite Hk. eauto.
Qed.

Lemma options_TypeError (df : DataFrame) (c : string) (s : Series)
  (x y : scalar) :
  getitem df c = Ok s -> In (Some x) s -> In (Some y) s -> kind x <> kind y ->
  options df c = Raise TypeError.
Proof.
  intros Hs Hx Hy K. unfold options, sorted. rewrite Hs. simpl.
  destruct (same_kind (unique (dropna s))) eqn:E; [| reflexivity].
  exfalso. apply K. apply one_kind_unique in E. apply (E x y Hx Hy).
Qed.

Lemma dt_year_one_kind (s : Series) : one_kind (dt_year s).
Proof.
  assert (K : forall x, In (Some x) (dt_year s) -> kind x = 0).
  { intros x Hx. unfold dt_year in Hx. apply in_map_iff in Hx.
    destruct Hx as (v & E & _).
    destruct v as [[a | q | t] |]; inversion E; reflexivity. }
  intros x y Hx Hy. rewrite (K x Hx), (K y Hy). reflexivity.
Qed.



Section Runs.

Variable fp : float64.
Variable parse_datetime : string -> option (option Z).
Variable parse_number : string -> option Q.
Variable argsort : list scalar -> list nat.
Variable multiselect : string -> list scalar -> list scalar -> list scalar.
Variable format_1f : Q -> string.







Lemma main_forward (wb df : DataFrame) (s : store) :
  load_data parse_datetime parse_number wb = Ok df ->
  main fp parse_datetime parse_number argsort multiselect format_1f wb s
  = render fp argsort multiselect format_1f (length s) (s ++ [df]).
Proof.
  intros H. unfold main, load, bindM, lift, new. rewrite H. reflexivity.
Qed.


(** X17.  After a successful load the run stops at the sidebar when the
    seller column is absent from the sheet, with the [KeyError] of that
    column, or when it holds cells of unlike kinds (a name and a number),
    with the [TypeError] of [sorted]; the dataset object was created, the
    filtered copy was not. *)
Theorem main_raises_at_sidebar (wb df : DataFrame) (s : store) :
  NoDup (columns (rename wb column_names)) ->
  load_data parse_datetime parse_number wb = Ok df ->
  (~ In "vendedor" (columns df) ->
   main fp parse_datetime parse_number argsort multiselect format_1f wb s
   = (Raise (KeyError "vendedor"), s ++ [df])) /\
  (forall col x y,
     getitem df "vendedor" = Ok col ->
     In (Some x) col -> In (Some y) col -> kind x <> kind y ->
     main fp parse_datetime parse_number argsort multiselect format_1f wb s
     = (Raise TypeError, s ++ [df])).
Proof.
  intros _ H.
  destruct (load_data_inv parse_datetime parse_number wb df H)
    as (dv & nf & vv & dv' & nf' & _ & _ & _ & _ & _ & E).
  destruct (loaded_columns (rename wb column_names) dv' nf'
              (to_numeric parse_number vv)) as (_ & _ & _ & Gano & _).
  rewrite <- E in Gano.
  destruct (options_Ok df "ano" _ Gano (dt_year_one_kind dv')) as [anos Oa].
  assert (Hstop : forall e, options df "vendedor" = Raise e ->
            main fp parse_datetime parse_number argsort multiselect format_1f wb s
            = (Raise e, s ++ [df])).
  { intros e He. rewrite (main_forward wb df s H).
    cbv beta iota zeta delta [render sidebar_filter bindM read lift ret].
    rewrite nth_snoc, Oa. cbv beta iota. rewrite nth_snoc, He. reflexivity. }
  split.
  - intros Habs. apply Hstop. unfold options.
    rewrite (getitem_absent df "vendedor" Habs). reflexivity.
  - intros col x y Hcol Hx Hy K. apply Hstop.
    apply (options_TypeError df "vendedor" col x y Hcol Hx Hy K).
Qed.


End Runs.
(* ================================================================== *)
(** ** The currency text *)

Lemma formato_br_chars (s : string) : formato_br s = map_chars troca s.
Proof.
  unfold formato_br. induction s as [| c s IH]; simpl; [reflexivity |].
  rewrite IH. f_equal. unfold troca.
  destruct (Ascii.eqb_spec c ",") as [-> | H1]; [reflexivity |].
  destruct (Ascii.eqb_spec c ".") as [-> | H2]; [reflexivity |].
  destruct (Ascii.eqb_spec c "X") as [-> | H3]; reflexivity.
Qed.

Lemma troca_troca (c : ascii) : c <> "X"%char -> troca (troca c) = c.
Proof.
  intros H. unfold troca.
  destruct (Ascii.eqb_spec c ",") as [-> | H1]; [reflexivity |].
  destruct (Ascii.eqb_spec c ".") as [-> | H2]; [reflexivity |].
  destruct (Ascii.eqb_spec c "X") as [-> | H3]; [contradiction |].
  destruct (Ascii.eqb_spec c ",") as [-> | _]; [contradiction |].
  destruct (Ascii.eqb_spec c ".") as [-> | _]; [contradiction |].
  destruct (Ascii.eqb_spec c "X") as [-> | _]; [contradiction |].
  reflexivity.
Qed.

Lemma map_chars_append (f : ascii -> ascii) (s t : string) :
  map_chars f (s ++ t) = (map_chars f s ++ map_chars f t)%string.
Proof.
  induction s as [| c s IH]; simpl; [reflexivity |]. rewrite IH. reflexivity.
Qed.

(** X19.  The three replacements of the currency text swap the commas and
    the points of the text, leave every other character but X as it is and
    keep the length; applied twice they give the text back exactly when it
    holds no X, the letter used as the placeholder.  The text of a card is
    "R$ " followed by the formatted number with its separators swapped. *)
Theorem formato_br_swaps_separators (s : string) :
  formato_br s = map_chars troca s /\
  String.length (formato_br s) = String.length s /\
  (formato_br (formato_br s) = s <-> occurs "X" s = false) /\
  forall (format_2f : Q -> string) (x : Q),
    moeda format_2f x = ("R$ " ++ map_chars troca (format_2f x))%string.
Proof.
  split; [apply formato_br_chars |]. split; [| split].
  - rewrite formato_br_chars.
    induction s as [| c s IH]; simpl; [reflexivity |]. rewrite IH.
    reflexivity.
  - rewrite !formato_br_chars.
    induction s as [| c s IH]; simpl; [split; reflexivity |].
    destruct (Ascii.eqb_spec c "X") as [-> | Hc]; simpl.
    + split; intros H; discriminate H.
    + rewrite (troca_troca c Hc). split.
      * intros H. injection H as H'. apply IH. exact H'.
      * intros H. f_equal. apply IH. exact H.
  - intros format_2f x. unfold moeda. rewrite formato_br_chars.
    rewrite map_chars_append. reflexivity.
Qed.

(* ================================================================== *)
(** ** The text of a month and the order of the months *)

Local Open Scope Z_scope.

Lemma digit_mod (n : Z) : digit n = digit (n mod 10).
Proof. unfold digit. rewrite Z.mod_mod by lia. reflexivity. Qed.

Lemma digit_compare_small (a b : Z) :
  0 <= a <= 9 -> 0 <= b <= 9 ->
  Ascii.compare (digit a) (digit b) = (a ?= b).
Proof.
  intros Ha Hb.
  assert (Ea : a = 0 \/ a = 1 \/ a = 2 \/ a = 3 \/ a = 4 \/ a = 5 \/ a = 6
               \/ a = 7 \/ a = 8 \/ a = 9) by lia.
  assert (Eb : b = 0 \/ b = 1 \/ b = 2 \/ b = 3 \/ b = 4 \/ b = 5 \/ b = 6
               \/ b = 7 \/ b = 8 \/ b = 9) by lia.
  clear Ha Hb.
  repeat (destruct Ea as [-> | Ea]); try subst a;
    repeat (destruct Eb as [-> | Eb]); try subst b; reflexivity.
Qed.

Lemma digit_compare (a b : Z) :
  Ascii.compare (digit a) (digit b) = (a mod 10 ?= b mod 10).
Proof.
  rewrite (digit_mod a), (digit_mod b).
  pose proof (Z.mod_pos_bound a 10 ltac:(lia)).
  pose proof (Z.mod_pos_bound b 10 ltac:(lia)).
  apply digit_compare_small; lia.
Qed.

Lemma year_month_leb (y m y' m' : Z) :
  0 <= y <= 9999 -> 0 <= y' <= 9999 -> 0 <= m <= 99 -> 0 <= m' <= 99 ->
  (String.leb (year_month y m) (year_month y' m') = true <->
   y < y' \/ (y = y' /\ m <= m')).
Proof.
  intros Hy Hy' Hm Hm'.
  unfold String.leb, year_month, pad4, pad2.
  cbn [append String.compare].
  rewrite !digit_compare.
  change (Ascii.compare "-" "-") with Eq. cbv iota.
  assert (Dy : y = 1000 * ((y / 1000) mod 10) + 100 * ((y / 100) mod 10)
                   + 10 * ((y / 10) mod 10) + y mod 10)
    by (Z.div_mod_to_equations; lia).
  assert (Dy' : y' = 1000 * ((y' / 1000) mod 10) + 100 * ((y' / 100) mod 10)
                     + 10 * ((y' / 10) mod 10) + y' mod 10)
    by (Z.div_mod_to_equations; lia).
  assert (Dm : m = 10 * ((m / 10) mod 10) + m mod 10)
    by (Z.div_mod_to_equations; lia).
  assert (Dm' : m' = 10 * ((m' / 10) mod 10) + m' mod 10)
    by (Z.div_mod_to_equations; lia).
  pose proof (Z.mod_pos_bound (y / 1000) 10 ltac:(lia)) as B3.
  pose proof (Z.mod_pos_bound (y / 100) 10 ltac:(lia)) as B2.
  pose proof (Z.mod_pos_bound (y / 10) 10 ltac:(lia)) as B1.
  pose proof (Z.mod_pos_bound y 10 ltac:(lia)) as B0.
  pose proof (Z.mod_pos_bound (y' / 1000) 10 ltac:(lia)) as B3'.
  pose proof (Z.mod_pos_bound (y' / 100) 10 ltac:(lia)) as B2'.
  pose proof (Z.mod_pos_bound (y' / 10) 10 ltac:(lia)) as B1'.
  pose proof (Z.mod_pos_bound y' 10 ltac:(lia)) as B0'.
  pose proof (Z.mod_pos_bound (m / 10) 10 ltac:(lia)) as C1.
  pose proof (Z.mod_pos_bound m 10 ltac:(lia)) as C0.
  pose proof (Z.mod_pos_bound (m' / 10) 10 ltac:(lia)) as C1'.
  pose proof (Z.mod_pos_bound m' 10 ltac:(lia)) as C0'.
  set (a3 := (y / 1000) mod 10) in *. set (a2 := (y / 100) mod 10) in *.
  set (a1 := (y / 10) mod 10) in *. set (a0 := y mod 10) in *.
  set (b3 := (y' / 1000) mod 10) in *. set (b2 := (y' / 100) mod 10) in *.
  set (b1 := (y' / 10) mod 10) in *. set (b0 := y' mod 10) in *.
  set (c1 := (m / 10) mod 10) in *. set (c0 := m mod 10) in *.
  set (d1 := (m' / 10) mod 10) in *. set (d0 := m' mod 10) in *.
  clearbody a3 a2 a1 a0 b3 b2 b1 b0 c1 c0 d1 d0.
  destruct (Z.compare_spec a3 b3);
    [| split; [intros _; lia | reflexivity]
     | split; [intros K; discriminate K | lia]].
  destruct (Z.compare_spec a2 b2);
    [| split; [intros _; lia | reflexivity]
     | split; [intros K; discriminate K | lia]].
  destruct (Z.compare_spec a1 b1);
    [| split; [intros _; lia | reflexivity]
     | split; [intros K; discriminate K | lia]].
  destruct (Z.compare_spec a0 b0);
    [| split; [intros _; lia | reflexivity]
     | split; [intros K; discriminate K | lia]].
  destruct (Z.compare_spec c1 d1);
    [| split; [intros _; lia | reflexivity]
     | split; [intros K; discriminate K | lia]].
  destruct (Z.compare_spec c0 d0);
    [split; [intros _; lia | reflexivity]
    | split; [intros _; lia | reflexivity]
    | split; [intros K; discriminate K | lia]].
Qed.
(* ================================================================== *)
(** ** The months in chronological order *)

Lemma era_year_monotone (d d' : Z) :
  0 <= d <= d' -> d' <= 146096 ->
  (d - d / 1460 + d / 36524 - d / 146096) / 365
  <= (d' - d' / 1460 + d' / 36524 - d' / 146096) / 365.
Proof.
  intros H H'. apply Z.div_le_mono; [lia |].
  Z.div_mod_to_equations. lia.
Qed.

Lemma era_year_range (d : Z) :
  0 <= d <= 146096 ->
  0 <= (d - d / 1460 + d / 36524 - d / 146096) / 365 <= 399.
Proof. intros H. Z.div_mod_to_equations. lia. Qed.

(** The count of months of a day number: twelve times the year plus the
    month, in terms of the era, the year of the era and the month counted
    from March. *)
Lemma civil_months (z : Z) :
  let era := (z + 719468) / 146097 in
  let doe := z + 719468 - era * 146097 in
  let yoe := (doe - doe / 1460 + doe / 36524 - doe / 146096) / 365 in
  let doy := doe - (365 * yoe + yoe / 4 - yoe / 100) in
  12 * fst (fst (civil_from_days z)) + snd (fst (civil_from_days z))
  = 12 * (yoe + era * 400) + (5 * doy + 2) / 153 + 3.
Proof.
  intros era doe yoe doy.
  cbv beta iota zeta delta [civil_from_days fst snd].
  fold era. fold doe. fold yoe. fold doy.
  pose proof (day_of_era_range (z + 719468)) as Hdoe. fold era in Hdoe.
  fold doe in Hdoe.
  pose proof (day_of_year_range doe Hdoe) as Hdoy. cbv zeta in Hdoy.
  fold yoe in Hdoy. fold doy in Hdoy.
  assert (Hmp : 0 <= (5 * doy + 2) / 153 <= 11).
  { clearbody doy. Z.div_mod_to_equations. lia. }
  set (mp := (5 * doy + 2) / 153) in *.
  destruct (mp <? 10) eqn:E.
  - apply Z.ltb_lt in E.
    destruct (mp + 3 <=? 2) eqn:E2; [apply Z.leb_le in E2; lia | lia].
  - apply Z.ltb_ge in E.
    destruct (mp - 9 <=? 2) eqn:E2; [lia | apply Z.leb_gt in E2; lia].
Qed.

Lemma civil_months_monotone (z z' : Z) :
  z <= z' ->
  12 * fst (fst (civil_from_days z)) + snd (fst (civil_from_days z))
  <= 12 * fst (fst (civil_from_days z')) + snd (fst (civil_from_days z')).
Proof.
  intros Hz. rewrite (civil_months z), (civil_months z'). cbv zeta.
  set (era := (z + 719468) / 146097).
  set (era' := (z' + 719468) / 146097).
  set (doe := z + 719468 - era * 146097).
  set (doe' := z' + 719468 - era' * 146097).
  pose proof (day_of_era_range (z + 719468)) as Hdoe.
  fold era in Hdoe. fold doe in Hdoe.
  pose proof (day_of_era_range (z' + 719468)) as Hdoe'.
  fold era' in Hdoe'. fold doe' in Hdoe'.
  pose proof (era_year_range doe Hdoe) as Hy.
  pose proof (era_year_range doe' Hdoe') as Hy'.
  pose proof (day_of_year_range doe Hdoe) as Hdoy. cbv zeta in Hdoy.
  pose proof (day_of_year_range doe' Hdoe') as Hdoy'. cbv zeta in Hdoy'.
  set (yoe := (doe - doe / 1460 + doe / 36524 - doe / 146096) / 365) in *.
  set (yoe' := (doe' - doe' / 1460 + doe' / 36524 - doe' / 146096) / 365) in *.
  set (doy := doe - (365 * yoe + yoe / 4 - yoe / 100)) in *.
  set (doy' := doe' - (365 * yoe' + yoe' / 4 - yoe' / 100)) in *.
  assert (Hmp : 0 <= (5 * doy + 2) / 153 <= 11).
  { clearbody doy. Z.div_mod_to_equations. lia. }
  assert (Hmp' : 0 <= (5 * doy' + 2) / 153 <= 11).
  { clearbody doy'. Z.div_mod_to_equations. lia. }
  assert (Hera : era <= era').
  { unfold era, era'. apply Z.div_le_mono; lia. }
  destruct (Z.eq_dec era era') as [Ee | Ne]; [| lia].
  assert (Hd : doe <= doe') by (unfold doe, doe'; rewrite Ee; lia).
  assert (Hyy : yoe <= yoe').
  { unfold yoe, yoe'. apply era_year_monotone; lia. }
  destruct (Z.eq_dec yoe yoe') as [Ey | Ny]; [| lia].
  assert (Hdd : doy <= doy') by (unfold doy, doy'; rewrite Ey; lia).
  assert (Hmm : (5 * doy + 2) / 153 <= (5 * doy' + 2) / 153)
    by (apply Z.div_le_mono; lia).
  lia.
Qed.

Lemma year_of_range (t : Z) :
  - 2 ^ 63 <= t < 2 ^ 63 -> 1600 <= year_of t <= 2400.
Proof.
  intros Ht. unfold year_of.
  assert (Hd : -106752 <= t / ns_per_day <= 106751).
  { unfold ns_per_day. Z.div_mod_to_equations. lia. }
  set (z := t / ns_per_day) in *. clearbody z.
  cbv beta iota zeta delta [civil_from_days fst snd].
  pose proof (day_of_era_range (z + 719468)) as Hdoe.
  set (era := (z + 719468) / 146097) in *.
  assert (He : 4 <= era <= 5).
  { unfold era. Z.div_mod_to_equations. lia. }
  set (doe := z + 719468 - era * 146097) in *.
  pose proof (era_year_range doe Hdoe) as Hy.
  set (yoe := (doe - doe / 1460 + doe / 36524 - doe / 146096) / 365) in *.
  match goal with |- context [if ?b then _ else _] => destruct b end; lia.
Qed.

Lemma months_order (y m y' m' : Z) :
  1 <= m <= 12 -> 1 <= m' <= 12 ->
  (12 * y + m <= 12 * y' + m' <-> y < y' \/ (y = y' /\ m <= m')).
Proof. intros H H'. lia. Qed.

(** X20.  The text of a month sorts as the month does.  For timestamps of
    datetime64[ns], whose years have four digits, the text "YYYY-MM" of one
    sale is at most that of another, in the order of text, exactly when
    its year and month are at most the other's; so the text of an earlier
    sale is at most that of a later one, and a sale whose text is smaller
    is earlier: the months of the first chart, sorted as text, are in
    chronological order. *)
Theorem ano_mes_chronological (t u : Z) :
  - 2 ^ 63 <= t < 2 ^ 63 -> - 2 ^ 63 <= u < 2 ^ 63 ->
  (scalar_leb (Str (year_month (year_of t) (month_of t)))
     (Str (year_month (year_of u) (month_of u))) = true <->
   year_of t < year_of u \/
   (year_of t = year_of u /\ month_of t <= month_of u)) /\
  (t <= u ->
   scalar_leb (Str (year_month (year_of t) (month_of t)))
     (Str (year_month (year_of u) (month_of u))) = true) /\
  (scalar_leb (Str (year_month (year_of u) (month_of u)))
     (Str (year_month (year_of t) (month_of t))) = false ->
   t < u).
Proof.
  intros Ht Hu.
  pose proof (year_of_range t Ht) as Yt. pose proof (year_of_range u Hu) as Yu.
  pose proof (month_of_range t) as Mt. pose proof (month_of_range u) as Mu.
  assert (Htext : forall a b,
             1600 <= year_of a <= 2400 -> 1600 <= year_of b <= 2400 ->
             (scalar_leb (Str (year_month (year_of a) (month_of a)))
                (Str (year_month (year_of b) (month_of b))) = true <->
              12 * year_of a + month_of a <= 12 * year_of b + month_of b)).
  { intros a b Ya Yb.
    pose proof (month_of_range a) as Ma. pose proof (month_of_range b) as Mb.
    cbn [scalar_leb]. rewrite year_month_leb by lia.
    symmetry. apply months_order; assumption. }
  assert (Hmono : forall a b, a <= b ->
             12 * year_of a + month_of a <= 12 * year_of b + month_of b).
  { intros a b Hab. unfold year_of, month_of.
    apply civil_months_monotone. unfold ns_per_day.
    apply Z.div_le_mono; lia. }
  split; [| split].
  - rewrite (Htext t u Yt Yu). apply months_order; assumption.
  - intros Htu. apply (Htext t u Yt Yu), Hmono, Htu.
  - intros Hfalse.
    destruct (Z.lt_ge_cases t u) as [Hlt | Hge]; [exact Hlt |].
    apply (Hmono u t), (Htext u t Yu Yt) in Hge. congruence.
Qed.

Local Close Scope Z_scope.
(* ================================================================== *)
(** ** The further properties on the sample workbooks *)

Lemma distinct_planilha : NoDup (columns (rename planilha column_names)).
Proof.
  repeat (constructor; [simpl; intuition discriminate |]). constructor.
Qed.

Lemma distinct_dados : NoDup (columns dados).
Proof.
  repeat (constructor; [simpl; intuition discriminate |]). constructor.
Qed.


(** The default subset of [planilha]: the three dated sales with a
    customer. *)
Lemma rectangular_subset : rectangular (filtrar dados (tudo dados)).
Proof. unfold rectangular. vm_compute. repeat constructor. Qed.

Lemma kpis_subset :
  exists k,
    kpis sequential (filtrar dados (tudo dados))
    = Ok (k, com_lead_time (filtrar dados (tudo dados))).
Proof. eexists. vm_compute. reflexivity. Defined.

Lemma load_data_column_kinds_witness :
  exists ano am,
    getitem dados "ano" = Ok ano /\ getitem dados "ano_mes" = Ok am /\
    Forall (fun v => is_num v || is_missing v = true) ano /\
    Forall (fun v => is_str v = true) am.
Proof.
  destruct (load_data_column_kinds parse_blank_only parse_no_number planilha
              dados load_planilha)
    as (dv & nf & vv & ano & mes & am & _ & _ & _ & Ga & _ & Gam & _ & _ & _
        & Ha & _ & Hs).
  exists ano, am. auto.
Defined.

Lemma load_data_keeps_other_columns_witness :
  nrows dados = 5 /\
  getitem dados "cliente" = getitem (rename planilha column_names) "cliente".
Proof.
  destruct (load_data_keeps_other_columns parse_blank_only parse_no_number
              planilha dados rectangular_planilha load_planilha)
    as (Hn & _ & Hc).
  split; [rewrite Hn; reflexivity |].
  apply Hc. simpl. intuition discriminate.
Defined.

Lemma load_data_idempotent_witness :
  load_data parse_blank_only parse_no_number dados = Ok dados.
Proof.
  apply (load_data_idempotent parse_blank_only parse_no_number planilha dados
           distinct_planilha load_planilha).
Defined.

Lemma options_sorted_distinct_witness :
  Sorted scalar_le [Str "A"; Str "B"; Str "C"] /\
  forall x, In x [Str "A"; Str "B"; Str "C"] ->
            exists s, getitem dados "cliente" = Ok s /\ In (Some x) s.
Proof.
  destruct (options_sorted_distinct dados "cliente"
              [Str "A"; Str "B"; Str "C"])
    as (s & Hs & Hsorted & _ & Hin & _).
  - vm_compute. reflexivity.
  - split; [exact Hsorted |]. intros x Hx. exists s. auto.
Defined.

Lemma options_errors_witness :
  options dados "filial" = Raise (KeyError "filial").
Proof.
  apply (proj1 (options_errors dados "filial" distinct_dados)).
  simpl. intuition discriminate.
Defined.

Lemma df_filtrado_idempotent_witness :
  df_filtrado (filtrar dados so_cliente_A) so_cliente_A
  = Ok (filtrar dados so_cliente_A).
Proof.
  apply (df_filtrado_idempotent dados so_cliente_A
           (filtrar dados so_cliente_A) rectangular_dados).
  vm_compute. reflexivity.
Defined.

Lemma default_selection_keeps_all_witness :
  df_filtrado dados_empate (tudo dados_empate) = Ok dados_empate.
Proof.
  apply (default_selection_keeps_all dados_empate
           (ano_selecionado (tudo dados_empate))
           (vendedor_selecionado (tudo dados_empate))
           (tipo_selecionado (tudo dados_empate))
           (cliente_selecionado (tudo dados_empate))).
  - unfold rectangular. simpl. repeat constructor.
  - vm_compute. reflexivity.
  - vm_compute. reflexivity.
  - vm_compute. reflexivity.
  - vm_compute. reflexivity.
  - intros r Hr. simpl in Hr. destruct Hr as [<- | [<- | []]]; reflexivity.
Defined.

Lemma df_filtrado_twice_witness :
  rows (filtrar (filtrar dados so_cliente_A) clientes_A_B)
  = rows (filtrar (filtrar dados clientes_A_B) so_cliente_A).
Proof.
  apply (df_filtrado_twice dados so_cliente_A clientes_A_B
           (filtrar dados so_cliente_A)
           (filtrar (filtrar dados so_cliente_A) clientes_A_B)
           (filtrar dados clientes_A_B)
           (filtrar (filtrar dados clientes_A_B) so_cliente_A)
           rectangular_dados).
  - vm_compute. reflexivity.
  - vm_compute. reflexivity.
  - vm_compute. reflexivity.
  - vm_compute. reflexivity.
Defined.

Lemma ciclo_medio_over_dated_rows_witness :
  exists k q,
    ciclo_medio k = Some (Num q) /\
    ciclo_card tenths (ciclo_medio k) = tenths q.
Proof.
  destruct kpis_subset as [k Hk]. exists k.
  destruct (ciclo_medio_over_dated_rows sequential tenths
              (filtrar dados (tudo dados))
              (com_lead_time (filtrar dados (tudo dados))) k
              [dia 19380; None; dia 19377] [dia 19372; dia 19398; dia 19377]
              Hk)
    as (_ & Hsome).
  - vm_compute. reflexivity.
  - vm_compute. reflexivity.
  - destruct Hsome as (q & Hq & Hc & _); [simpl; lia |].
    exists q. auto.
Defined.

Lemma lead_time_dias_cells_witness :
  exists lt,
    getitem (com_lead_time (filtrar dados (tudo dados))) "lead_time_dias"
    = Ok lt /\
    length lt = 3.
Proof.
  destruct kpis_subset as [k Hk].
  destruct (lead_time_dias_cells sequential (filtrar dados (tudo dados))
              (com_lead_time (filtrar dados (tudo dados))) k
              [dia 19380; None; dia 19377] [dia 19372; dia 19398; dia 19377]
              Hk)
    as (lt & Hlt & Hlen & _).
  - vm_compute. reflexivity.
  - vm_compute. reflexivity.
  - exists lt. auto.
Defined.

Lemma kpis_changes_one_column_witness :
  nrows (com_lead_time (filtrar dados (tudo dados))) = 3 /\
  forall c, In c (columns (com_lead_time (filtrar dados (tudo dados)))) <->
            c = "lead_time_dias" \/ In c (columns (filtrar dados (tudo dados))).
Proof.
  destruct kpis_subset as [k Hk].
  destruct (kpis_changes_one_column sequential (filtrar dados (tudo dados))
              (com_lead_time (filtrar dados (tudo dados))) k
              rectangular_subset Hk)
    as (Hn & _ & Hc & _).
  split; [rewrite Hn; reflexivity | exact Hc].
Defined.

Lemma groupby_sum_groups_witness :
  exists l,
    groupby_sum sequential (filtrar dados (tudo dados)) "cliente"
    = Ok (frame_of_pairs "cliente" l) /\
    keys_once l /\ Sorted (fun a b => scalar_le (fst a) (fst b)) l.
Proof.
  destruct (groupby_sum_groups sequential (filtrar dados (tudo dados))
              "cliente"
              (frame_of_pairs "cliente" [(Str "A", 150%Q); (Str "B", 200%Q)]))
    as (k & v & l & _ & _ & E & Hs & Ho & _).
  - vm_compute. reflexivity.
  - exists l. rewrite <- E. split; [vm_compute; reflexivity | auto].
Defined.

Lemma df_cliente_top_10_witness :
  exists c,
    df_cliente sequential argsort_stable
      (com_lead_time
         (filtrar dados_onze_clientes (tudo dados_onze_clientes)))
    = Ok (Some (frame_of_pairs "cliente" (firstn 10 c))) /\
    nrows (frame_of_pairs "cliente" (firstn 10 c)) = 10.
Proof.
  destruct (df_cliente_top_10 sequential argsort_stable argsort_stable_spec
              (com_lead_time
                 (filtrar dados_onze_clientes (tudo dados_onze_clientes)))
              (map texto ["A"; "B"; "C"; "D"; "E"; "F"; "G"; "H"; "I"; "J";
                          "K"])
              (repeat (valor 1) 11))
    as (c & _ & Hc & Hn & _).
  - reflexivity.
  - vm_compute. reflexivity.
  - vm_compute. reflexivity.
  - exists c. split; [exact Hc |]. rewrite Hn. reflexivity.
Defined.


Lemma tabela_rows_witness :
  exists t,
    tabela argsort_stable (com_lead_time (filtrar dados (tudo dados))) = Ok t /\
    nrows t = 3.
Proof.
  assert (Ht : exists t,
             tabela argsort_stable (com_lead_time (filtrar dados (tudo dados)))
             = Ok t) by (eexists; vm_compute; reflexivity).
  destruct Ht as [t Ht]. exists t. split; [exact Ht |].
  destruct (tabela_rows argsort_stable argsort_stable_spec
              (com_lead_time (filtrar dados (tudo dados))) t)
    as (Hn & _).
  - unfold rectangular. vm_compute. repeat constructor.
  - exact Ht.
  - rewrite Hn. reflexivity.
Defined.


Lemma main_raises_at_sidebar_witness :
  main sequential parse_blank_only parse_no_number argsort_stable
    select_default tenths planilha_sem_vendedor []
  = (Raise (KeyError "vendedor"), [carregar planilha_sem_vendedor]).
Proof.
  apply (proj1 (main_raises_at_sidebar sequential parse_blank_only
                  parse_no_number argsort_stable select_default tenths
                  planilha_sem_vendedor (carregar planilha_sem_vendedor) []
                  ltac:(repeat (constructor;
                                [simpl; intuition discriminate |]);
                        constructor)
                  ltac:(vm_compute; reflexivity))).
  simpl. intuition discriminate.
Defined.


Lemma ano_mes_chronological_witness :
  scalar_leb
    (Str (year_month (year_of (midnight 19372)) (month_of (midnight 19372))))
    (Str (year_month (year_of (midnight 19398)) (month_of (midnight 19398))))
  = true.
Proof.
  apply (proj1 (proj2 (ano_mes_chronological (midnight 19372) (midnight 19398)
                         ltac:(vm_compute; split; [discriminate | reflexivity])
                         ltac:(vm_compute; split; [discriminate | reflexivity])))).
  vm_compute. discriminate.
Defined.
